(** * s3-proxy: a caching reverse proxy in front of an S3 object store

    Shallow embedding of the request-serving path of
    [github.com/joeychilson/s3-proxy] and the properties of its
    specification:

    - [internal/cache/cache.go]   : module [cache]  (entries, LRU wrapper)
    - [internal/origin/s3.go]     : module [origin] (S3 adapter)
    - [internal/server/middleware.go] : module [server] (admin token
                                    check, policy helpers, object
                                    handler, revalidation)
    - [internal/server/server.go] : module [server] (the object routes)

    Conventions of the embedding.
    - Go [string] is [String.string]; the functions of package [strings]
      are written out for the ASCII range.
    - [int], [int64] and [time.Duration] are [Z]; arithmetic that can leave
      the 64-bit range is wrapped with [wrap64].
    - [time.Time] is a [Z] count of nanoseconds since Go's zero time.
    - [float64] is the binary64 format of the Standard Library's
      [SpecFloat], with its correctly rounded operations.
    - [*cache.Entry] is a location in an explicit heap ([gmap loc Entry]):
      the cache stores pointers, and several paths mutate the record behind
      a pointer that is shared with the cache.
    - Metrics counters and the logger are write-only observers of the
      handler and are left out. *)

From Stdlib Require Import ZArith List String Ascii Bool Lia.
From Stdlib Require Import Strings.Byte.
From Stdlib Require Import DecimalString.
From Stdlib Require SpecFloat.
From stdpp Require Import base option list gmap strings.

Local Open Scope string_scope.
Local Open Scope Z_scope.

(* ===================================================================== *)
(** * Machine integers *)
(* ===================================================================== *)

Definition int64_min : Z := - 2 ^ 63.
Definition int64_max : Z := 2 ^ 63 - 1.

(** Two's complement wrap-around of a 64-bit signed result. *)
Definition wrap64 (z : Z) : Z := (z + 2 ^ 63) mod 2 ^ 64 - 2 ^ 63.

Definition in_int64 (z : Z) : Prop := int64_min <= z <= int64_max.

(* ===================================================================== *)
(** * Floating point *)
(* ===================================================================== *)

(** Go's [float64]: IEEE 754 binary64, round to nearest even. *)
Module float64.

Definition t : Type := SpecFloat.spec_float.

Definition prec : Z := 53.
Definition emax : Z := 1024.

(** [float64(i)] for an integer [i] *)
Definition ofInt (i : Z) : t := SpecFloat.binary_normalize prec emax i 0 false.

(** [x + y] and [x / y] *)
Definition add (x y : t) : t := SpecFloat.SFadd prec emax x y.
Definition div (x y : t) : t := SpecFloat.SFdiv prec emax x y.

(** [int(x)]: the fraction is discarded (truncation towards zero). For a
    value that [int] cannot represent the language leaves the result to
    the implementation; amd64 gives the least 64-bit integer. *)
Definition toInt (x : t) : Z :=
  match x with
  | SpecFloat.S754_zero _ => 0
  | SpecFloat.S754_finite s m e =>
      let mag := if e <? 0 then Z.pos m / 2 ^ (- e) else Z.pos m * 2 ^ e in
      let v := if s then - mag else mag in
      if (int64_min <=? v) && (v <=? int64_max) then v else int64_min
  | _ => int64_min
  end.

End float64.

(* ===================================================================== *)
(** * Package [time] *)
(* ===================================================================== *)

Module time.

(** An instant, in nanoseconds since the zero [time.Time]. *)
Definition Time : Type := Z.
(** [time.Duration]: a signed 64-bit nanosecond count. *)
Definition Duration : Type := Z.

Definition Second : Duration := 1000000000.

Definition zero : Time := 0.
Definition IsZero (t : Time) : bool := t =? 0.

(** [t.Add(d)]. The instant range of Go (64-bit seconds) is far wider
    than any sum formed here, so the addition is exact. *)
Definition Add (t : Time) (d : Duration) : Time := t + d.

(** [t.Before(u)] *)
Definition Before (t u : Time) : bool := t <? u.

(** [t.Sub(u)]: the difference, saturated to the [Duration] range. *)
Definition Sub (t u : Time) : Duration :=
  Z.max int64_min (Z.min int64_max (t - u)).

(** [d.Seconds()]: [float64(d / Second) + float64(d % Second) / 1e9],
    the quotient and the remainder truncated as Go's [/] and [%] are. *)
Definition Seconds (d : Duration) : float64.t :=
  float64.add (float64.ofInt (Z.quot d Second))
              (float64.div (float64.ofInt (Z.rem d Second)) (float64.ofInt 1000000000)).

End time.

(* ===================================================================== *)
(** * Package [strings] and [strconv] (ASCII) *)
(* ===================================================================== *)

Module strings.

Definition isUpper (c : ascii) : bool :=
  Nat.leb 65 (nat_of_ascii c) && Nat.leb (nat_of_ascii c) 90.

Definition lowerByte (c : ascii) : ascii :=
  if isUpper c then ascii_of_nat (nat_of_ascii c + 32) else c.

(** [strings.ToLower] *)
Fixpoint ToLower (s : string) : string :=
  match s with
  | EmptyString => EmptyString
  | String c s' => String (lowerByte c) (ToLower s')
  end.

(** White space as [unicode.IsSpace] sees the ASCII range:
    tab, newline, vertical tab, form feed, carriage return, space. *)
Definition isSpace (c : ascii) : bool :=
  let n := nat_of_ascii c in
  (Nat.leb 9 n && Nat.leb n 13) || Nat.eqb n 32.

Fixpoint TrimLeftSpace (s : string) : string :=
  match s with
  | String c s' => if isSpace c then TrimLeftSpace s' else s
  | EmptyString => EmptyString
  end.

Fixpoint TrimRightSpace (s : string) : string :=
  match s with
  | EmptyString => EmptyString
  | String c s' =>
      match TrimRightSpace s' with
      | EmptyString => if isSpace c then EmptyString else String c EmptyString
      | t => String c t
      end
  end.

(** [strings.TrimSpace] *)
Definition TrimSpace (s : string) : string := TrimRightSpace (TrimLeftSpace s).

(** [strings.CutPrefix(s, prefix)]: [Some rest] when found. *)
Fixpoint CutPrefix (s prefix : string) {struct prefix} : option string :=
  match prefix, s with
  | EmptyString, _ => Some s
  | String a p', String b s' => if Ascii.eqb a b then CutPrefix s' p' else None
  | String _ _, EmptyString => None
  end.

(** [strings.TrimPrefix] *)
Definition TrimPrefix (s prefix : string) : string :=
  match CutPrefix s prefix with Some rest => rest | None => s end.

(** [strings.Contains(s, substr)] *)
Fixpoint Contains (s substr : string) : bool :=
  match CutPrefix s substr with
  | Some _ => true
  | None =>
      match s with
      | EmptyString => false
      | String _ s' => Contains s' substr
      end
  end.

(** [strings.SplitSeq(s, sep)] for a one-byte separator: the pieces in
    order; a string without the separator is one piece. *)
Fixpoint Split (s : string) (sep : ascii) : list string :=
  match s with
  | EmptyString => [EmptyString]
  | String c s' =>
      if Ascii.eqb c sep then EmptyString :: Split s' sep
      else match Split s' sep with
           | piece :: rest => String c piece :: rest
           | [] => [String c EmptyString]
           end
  end.

Definition len (s : string) : Z := Z.of_nat (String.length s).

End strings.

Module strconv.

Definition digit (c : ascii) : option Z :=
  let n := nat_of_ascii c in
  if Nat.leb 48 n && Nat.leb n 57 then Some (Z.of_nat n - 48) else None.

(** Value of a string of decimal digits, most significant first. *)
Fixpoint digits (acc : Z) (s : string) : option Z :=
  match s with
  | EmptyString => Some acc
  | String c s' =>
      match digit c with
      | Some d => digits (acc * 10 + d) s'
      | None => None
      end
  end.

(** [strconv.Atoi]: an optional sign, at least one decimal digit and a
    value in the range of [int]; [None] stands for the error result. *)
Definition Atoi (s : string) : option Z :=
  let '(neg, body) :=
    match s with
    | String "-" s' => (true, s')
    | String "+" s' => (false, s')
    | _ => (false, s)
    end in
  match body with
  | EmptyString => None
  | _ =>
      match digits 0 body with
      | Some n =>
          let v := if neg then - n else n in
          if (int64_min <=? v) && (v <=? int64_max) then Some v else None
      | None => None
      end
  end.

(** [strconv.Itoa] / [strconv.FormatInt(_, 10)] *)
Definition Itoa (z : Z) : string := NilZero.string_of_int (Z.to_int z).

End strconv.

(* ===================================================================== *)
(** * Package [net/http]: headers *)
(* ===================================================================== *)

Module http.

(** [http.Header] is [map[string][]string]; keys are kept canonical. *)
Abbreviation Header := (gmap string (list string)).

Definition StatusOK : Z := 200.
Definition StatusNoContent : Z := 204.
Definition StatusPartialContent : Z := 206.
Definition StatusNotModified : Z := 304.
Definition StatusBadRequest : Z := 400.
Definition StatusUnauthorized : Z := 401.
Definition StatusNotFound : Z := 404.
Definition StatusMethodNotAllowed : Z := 405.
Definition StatusPreconditionFailed : Z := 412.
Definition StatusBadGateway : Z := 502.

Definition MethodGet : string := "GET".
Definition MethodHead : string := "HEAD".

(** [h.Get(key)] for a canonical [key]: the first value, or [""]. *)
Definition Get (h : Header) (key : string) : string :=
  match h !! key with
  | Some (v :: _) => v
  | _ => ""
  end.

(** [h.Set(key, value)] for a canonical [key]. *)
Definition Set_ (h : Header) (key value : string) : Header :=
  <[key := [value]]> h.

(** [h.Del(key)] for a canonical [key]. *)
Definition Del (h : Header) (key : string) : Header := delete key h.

Definition isLower (c : ascii) : bool :=
  Nat.leb 97 (nat_of_ascii c) && Nat.leb (nat_of_ascii c) 122.

Definition upperByte (c : ascii) : ascii :=
  if isLower c then ascii_of_nat (nat_of_ascii c - 32) else c.

(** The bytes allowed in a header field name (RFC 7230 token). *)
Definition validHeaderFieldByte (c : ascii) : bool :=
  let n := nat_of_ascii c in
  isLower c || strings.isUpper c || (Nat.leb 48 n && Nat.leb n 57)
  || existsb (Ascii.eqb c)
       ["!"; "#"; "$"; "%"; "&"; "'"; "*"; "+"; "-"; "."; "^"; "_"; "`"; "|"; "~"]%char.

Fixpoint allValid (s : string) : bool :=
  match s with
  | EmptyString => true
  | String c s' => validHeaderFieldByte c && allValid s'
  end.

Fixpoint canonical (upper : bool) (s : string) : string :=
  match s with
  | EmptyString => EmptyString
  | String c s' =>
      String (if upper then upperByte c else strings.lowerByte c)
             (canonical (Ascii.eqb c "-") s')
  end.

(** [textproto.CanonicalMIMEHeaderKey]: a name with a byte outside the
    token alphabet is returned unchanged. *)
Definition CanonicalHeaderKey (s : string) : string :=
  if allValid s then canonical true s else s.

(** What a handler has sent: [status = 0] until the header is written. *)
Record ResponseWriter : Type := mkResponseWriter {
  header : Header;
  status : Z;
  body : list byte
}.

Definition newResponseWriter : ResponseWriter :=
  {| header := ∅; status := 0; body := [] |}.

Definition withHeader (w : ResponseWriter) (h : Header) : ResponseWriter :=
  {| header := h; status := status w; body := body w |}.

(** [w.WriteHeader(code)]: only the first call counts. *)
Definition WriteHeader (w : ResponseWriter) (code : Z) : ResponseWriter :=
  if status w =? 0 then {| header := header w; status := code; body := body w |} else w.

(** [w.Write(b)]: writes the header with [200] when none was written. *)
Definition Write (w : ResponseWriter) (b : list byte) : ResponseWriter :=
  let w := WriteHeader w StatusOK in
  {| header := header w; status := status w; body := body w ++ b |}.

(** [http.StatusText] for the codes the proxy emits. *)
Definition StatusText (code : Z) : string :=
  if code =? 400 then "Bad Request"
  else if code =? 401 then "Unauthorized"
  else if code =? 404 then "Not Found"
  else if code =? 405 then "Method Not Allowed"
  else if code =? 412 then "Precondition Failed"
  else if code =? 429 then "Too Many Requests"
  else if code =? 502 then "Bad Gateway"
  else "".

(** [http.Error(w, error, code)] *)
Definition Error (w : ResponseWriter) (error : string) (code : Z) : ResponseWriter :=
  let h := Del (header w) "Content-Length" in
  let h := Set_ h "Content-Type" "text/plain; charset=utf-8" in
  let h := Set_ h "X-Content-Type-Options" "nosniff" in
  let w := WriteHeader (withHeader w h) code in
  Write w (list_byte_of_string (error ++ String "010" EmptyString)).

(** [http.NotFound(w, r)] *)
Definition NotFound (w : ResponseWriter) : ResponseWriter :=
  Error w "404 page not found" StatusNotFound.

(** The request as the handlers read it: [r.Method], [r.URL.Path],
    [r.Header] and the parsed query [r.URL.Query()]. *)
Record Request : Type := mkRequest {
  Method : string;
  Path : string;
  ReqHeader : Header;
  Query : gmap string (list string)
}.

End http.

(* ===================================================================== *)
(** * Package [io] *)
(* ===================================================================== *)

Module io.

(** A byte stream that delivers [pending] and then ends, with a read
    error instead of [io.EOF] when [broken]. *)
Record Reader : Type := mkReader {
  pending : list byte;
  broken : bool
}.

(** Result of draining a reader: the bytes, whether a read error came
    back, and the reader as it is left. *)
Record Drained : Type := mkDrained {
  data : list byte;
  failed : bool;
  rest : Reader
}.

(** [io.ReadAll(io.LimitReader(r, n))]: at most [n] bytes are taken from
    [r]; once the limit is used up the limited reader reports [io.EOF]
    without touching [r] again, and for [n <= 0] at once. *)
Definition ReadAllLimit (r : Reader) (n : Z) : Drained :=
  if n <=? 0 then {| data := []; failed := false; rest := r |}
  else if Z.of_nat (length (pending r)) <? n
  then {| data := pending r; failed := broken r;
          rest := {| pending := []; broken := broken r |} |}
  else {| data := firstn (Z.to_nat n) (pending r); failed := false;
          rest := {| pending := skipn (Z.to_nat n) (pending r); broken := broken r |} |}.

(** [io.Copy(dst, src)] to a client that accepts everything: the bytes
    copied and whether the copy ended in an error. *)
Definition Copy (r : Reader) : list byte * bool := (pending r, broken r).

End io.

(* ===================================================================== *)
(** * The LRU container *)
(* ===================================================================== *)

(** The container behind [cache.Cache] is the third-party package
    [github.com/hashicorp/golang-lru/v2], whose code is not among the
    sources of this repository; its operations are modelled from what
    the specification says of the cache. *)
Module lru.
Section container.
Context {V : Type}.

(** Modelled from the spec: the type [lru.Cache] of the absent package
    github.com/hashicorp/golang-lru/v2, "a mapping from string key to
    CacheEntry, bounded by Capacity (entries, not bytes)". [items] lists
    the bindings from the most to the least recently used. *)
Record Cache : Type := mkCache {
  size : Z;
  items : list (string * V)
}.

(** Modelled from the spec: [lru.New] of the absent package;
    "construction fails if Capacity <= 0". *)
Definition New (size : Z) : option Cache :=
  if size <=? 0 then None else Some {| size := size; items := [] |}.

Fixpoint find (key : string) (l : list (string * V)) : option V :=
  match l with
  | [] => None
  | (k, v) :: l' => if String.eqb k key then Some v else find key l'
  end.

Fixpoint remove (key : string) (l : list (string * V)) : list (string * V) :=
  match l with
  | [] => []
  | (k, v) :: l' => if String.eqb k key then remove key l' else (k, v) :: remove key l'
  end.

(** Modelled from the spec: [Peek] of the absent package, a lookup that
    leaves the recency order alone. *)
Definition Peek (c : Cache) (key : string) : option V := find key (items c).

(** Modelled from the spec: [Get] of the absent package; "Get both reads
    and promotes": a key that is present moves to the front. *)
Definition Get (c : Cache) (key : string) : option V * Cache :=
  match find key (items c) with
  | Some v => (Some v, {| size := size c; items := (key, v) :: remove key (items c) |})
  | None => (None, c)
  end.

(** Modelled from the spec: [Add] of the absent package; "Set is total;
    on capacity overflow, the least-recently-used key is evicted and the
    new entry is admitted". A key that is present is rebound and
    promoted. *)
Definition Add (c : Cache) (key : string) (value : V) : Cache :=
  match find key (items c) with
  | Some _ => {| size := size c; items := (key, value) :: remove key (items c) |}
  | None =>
      let pushed := (key, value) :: items c in
      if Z.of_nat (length pushed) >? size c
      then {| size := size c; items := removelast pushed |}
      else {| size := size c; items := pushed |}
  end.

(** Modelled from the spec: [Remove] of the absent package, behind
    [Delete]. *)
Definition Remove (c : Cache) (key : string) : Cache :=
  {| size := size c; items := remove key (items c) |}.

(** Modelled from the spec: [Len] of the absent package, the number of
    entries held. *)
Definition Len (c : Cache) : Z := Z.of_nat (length (items c)).

Definition Keys (c : Cache) : list string := map fst (items c).

End container.
Arguments Cache : clear implicits.
End lru.

(* ===================================================================== *)
(** * Package [cache] (internal/cache/cache.go) *)
(* ===================================================================== *)

Module cache.

(** A [*Entry]: the address of an entry record in the heap. *)
Definition loc : Type := positive.

Record Entry : Type := mkEntry {
  Body : list byte;
  Header : http.Header;
  Status : Z;
  StoredAt : time.Time;
  TTL : time.Duration;
  StaleTTL : time.Duration;
  Size : Z;
  ETag : string;
  LastModified : time.Time
}.

Definition setTTL (v : time.Duration) (e : Entry) : Entry :=
  mkEntry (Body e) (Header e) (Status e) (StoredAt e) v (StaleTTL e)
          (Size e) (ETag e) (LastModified e).

Definition setStaleTTL (v : time.Duration) (e : Entry) : Entry :=
  mkEntry (Body e) (Header e) (Status e) (StoredAt e) (TTL e) v
          (Size e) (ETag e) (LastModified e).

Definition setStoredAt (v : time.Time) (e : Entry) : Entry :=
  mkEntry (Body e) (Header e) (Status e) v (TTL e) (StaleTTL e)
          (Size e) (ETag e) (LastModified e).

(** [func (e *Entry) Fresh(now time.Time) bool] *)
Definition Fresh (e : Entry) (now : time.Time) : bool :=
  time.Before now (time.Add (StoredAt e) (TTL e)).

(** [func (e *Entry) StaleButValid(now time.Time) bool]; the sum of the
    two durations is a 64-bit addition. *)
Definition StaleButValid (e : Entry) (now : time.Time) : bool :=
  time.Before now (time.Add (StoredAt e) (wrap64 (TTL e + StaleTTL e))).

(** [func (e *Entry) Age(now time.Time) int]: the seconds since
    [StoredAt] as a [float64], truncated. *)
Definition Age (e : Entry) (now : time.Time) : Z :=
  if time.Before now (StoredAt e) then 0
  else float64.toInt (time.Seconds (time.Sub now (StoredAt e))).

(** The records that [*Entry] pointers point to. *)
Abbreviation Heap := (gmap loc Entry).

Record Cache : Type := mkCache {
  lru : lru.Cache loc;
  ttl : time.Duration;
  stale : time.Duration;
  cap : Z
}.

(** [func New(capacity int, ttl, stale time.Duration) ( *Cache, error)] *)
Definition New (capacity : Z) (ttl stale : time.Duration) : option Cache :=
  match lru.New capacity with
  | None => None
  | Some l => Some {| lru := l; ttl := ttl; stale := stale; cap := capacity |}
  end.

(** [func (c *Cache) Get(key string) ( *Entry, bool)]: [None] is
    [(nil, false)]. *)
Definition Get (c : Cache) (key : string) : option loc * Cache :=
  let '(r, l) := lru.Get (lru c) key in
  (r, {| lru := l; ttl := ttl c; stale := stale c; cap := cap c |}).

(** The two assignments of [Set] to the record behind [entry]. *)
Definition defaults (c : Cache) (e : Entry) : Entry :=
  let e1 := if TTL e =? 0 then setTTL (ttl c) e else e in
  if StaleTTL e1 =? 0 then setStaleTTL (stale c) e1 else e1.

(** [func (c *Cache) Set(key string, entry *Entry)]: writes through the
    pointer, then hands the same pointer to the container. *)
Definition Set_ (c : Cache) (key : string) (entry : loc) (h : Heap) : Cache * Heap :=
  let h' := alter (defaults c) entry h in
  ({| lru := lru.Add (lru c) key entry; ttl := ttl c; stale := stale c; cap := cap c |}, h').

(** [func (c *Cache) Delete(key string)] *)
Definition Delete (c : Cache) (key : string) : Cache :=
  {| lru := lru.Remove (lru c) key; ttl := ttl c; stale := stale c; cap := cap c |}.

(** [func (c *Cache) Stats() (size int, capacity int)] *)
Definition Stats (c : Cache) : Z * Z := (lru.Len (lru c), cap c).

End cache.

(* ===================================================================== *)
(** * Package [origin] (internal/origin/s3.go) *)
(* ===================================================================== *)

Module aws.

(** [aws.ToString]: the string behind a [*string], [""] for [nil]. *)
Definition ToString (p : option string) : string := default "" p.

(** [aws.ToInt64] *)
Definition ToInt64 (p : option Z) : Z := default 0 p.

(** [aws.String] *)
Definition String_ (s : string) : option string := Some s.

End aws.

(** The part of the S3 SDK that the adapter touches. *)
Module s3.

Record GetObjectInput : Type := mkGetObjectInput {
  Bucket : option string;
  Key : option string;
  IfNoneMatch : option string;
  IfModifiedSince : option time.Time;
  Range : option string
}.

Record HeadObjectInput : Type := mkHeadObjectInput {
  HBucket : option string;
  HKey : option string;
  HIfNoneMatch : option string;
  HIfModifiedSince : option time.Time
}.

Record GetObjectOutput : Type := mkGetObjectOutput {
  Body : io.Reader;
  ContentType : option string;
  CacheControl : option string;
  LastModified : option time.Time;
  ETag : option string;
  ContentEncoding : option string;
  AcceptRanges : option string;
  ContentRange : option string;
  ContentDisposition : option string;
  ContentLanguage : option string;
  ExpiresString : option string;
  (** [nil], or the user metadata in the order the map is ranged over *)
  Metadata : option (list (string * string));
  ContentLength : option Z
}.

Record HeadObjectOutput : Type := mkHeadObjectOutput {
  HContentType : option string;
  HCacheControl : option string;
  HLastModified : option time.Time;
  HETag : option string;
  HContentEncoding : option string;
  HAcceptRanges : option string;
  HContentDisposition : option string;
  HContentLanguage : option string;
  HExpiresString : option string;
  HContentLength : option Z
}.

(** The errors of an SDK call, as [translateError] tells them apart. *)
Inductive Error : Type :=
| EndpointNotFoundError
| APIError (code : string)
| OtherError.

End s3.

Module origin.

Inductive Error : Type :=
| ErrNotFound
| ErrNotModified
| ErrPrecondition
| ErrWrapped (prefix : string) (cause : s3.Error).

(** [errors.Is(err, origin.ErrNotModified)] and its siblings; no wrapped
    SDK error has one of the three sentinels in its chain. *)
Definition isNotModified (e : Error) : bool :=
  match e with ErrNotModified => true | _ => false end.
Definition isNotFound (e : Error) : bool :=
  match e with ErrNotFound => true | _ => false end.
Definition isPrecondition (e : Error) : bool :=
  match e with ErrPrecondition => true | _ => false end.

Record Conditional : Type := mkConditional {
  IfNoneMatch : string;
  IfModifiedSince : option time.Time;
  Range : string
}.

Record Object : Type := mkObject {
  Body : option io.Reader;
  Headers : http.Header;
  StatusCode : Z;
  ContentLength : Z;
  ETag : string;
  LastModified : option time.Time;
  CacheControl : string;
  AcceptRanges : string;
  ContentType : string;
  ContentRange : string
}.

Definition withBody (o : Object) (b : option io.Reader) : Object :=
  mkObject b (Headers o) (StatusCode o) (ContentLength o) (ETag o)
           (LastModified o) (CacheControl o) (AcceptRanges o)
           (ContentType o) (ContentRange o).

(** The adapter with the SDK client behind it; every call of the SDK is
    a function of its input here. The context and the per-request
    deadline only decide which result the SDK gives. *)
Record Client : Type := mkClient {
  s3GetObject : s3.GetObjectInput -> s3.GetObjectOutput + s3.Error;
  s3HeadObject : s3.HeadObjectInput -> s3.HeadObjectOutput + s3.Error;
  bucket : string;
  timeout : time.Duration
}.

(** [func setHeader(h http.Header, key string, value string)] *)
Definition setHeader (h : http.Header) (key value : string) : http.Header :=
  if String.eqb value "" then h else http.Set_ h key value.

(** [func translateError(err error) error] *)
Definition translateError (err : s3.Error) : Error :=
  match err with
  | s3.EndpointNotFoundError => ErrWrapped "endpoint: " err
  | s3.APIError code =>
      if String.eqb code "NotFound" || String.eqb code "NoSuchKey"
         || String.eqb code "NoSuchBucket" || String.eqb code "404"
      then ErrNotFound
      else if String.eqb code "NotModified" then ErrNotModified
      else if String.eqb code "PreconditionFailed" then ErrPrecondition
      else ErrWrapped "s3 api: " err
  | s3.OtherError => ErrWrapped "s3: " err
  end.

Section adapter.

(** [t.UTC().Format(http.TimeFormat)]: the calendar arithmetic of package
    [time] is a parameter of the adapter. *)
Variable FormatHTTPTime : time.Time -> string.

(** [func formatTime(t *time.Time) string] *)
Definition formatTime (t : option time.Time) : string :=
  match t with
  | None => ""
  | Some t => FormatHTTPTime t
  end.

(** [func toObject(resp *s3.GetObjectOutput, status int) *Object] *)
Definition toObject (resp : s3.GetObjectOutput) (status : Z) : Object :=
  let headers : http.Header := ∅ in
  let headers := setHeader headers "Content-Type" (aws.ToString (s3.ContentType resp)) in
  let headers := setHeader headers "Cache-Control" (aws.ToString (s3.CacheControl resp)) in
  let headers := setHeader headers "Last-Modified" (formatTime (s3.LastModified resp)) in
  let headers := setHeader headers "Etag" (aws.ToString (s3.ETag resp)) in
  let headers := setHeader headers "Content-Encoding" (aws.ToString (s3.ContentEncoding resp)) in
  let headers := setHeader headers "Accept-Ranges" (aws.ToString (s3.AcceptRanges resp)) in
  let headers := setHeader headers "Content-Range" (aws.ToString (s3.ContentRange resp)) in
  let headers := setHeader headers "Content-Disposition" (aws.ToString (s3.ContentDisposition resp)) in
  let headers := setHeader headers "Content-Language" (aws.ToString (s3.ContentLanguage resp)) in
  let headers :=
    let exp := aws.ToString (s3.ExpiresString resp) in
    if negb (String.eqb exp "") then setHeader headers "Expires" exp else headers in
  let headers :=
    match s3.Metadata resp with
    | Some md =>
        fold_left (fun h kv => http.Set_ h (http.CanonicalHeaderKey ("x-amz-meta-" ++ fst kv)) (snd kv))
                  md headers
    | None => headers
    end in
  let contentLength := aws.ToInt64 (s3.ContentLength resp) in
  let headers :=
    match s3.ContentLength resp with
    | Some _ => http.Set_ headers "Content-Length" (strconv.Itoa contentLength)
    | None => headers
    end in
  let status :=
    if negb (String.eqb (aws.ToString (s3.ContentRange resp)) "")
    then http.StatusPartialContent else status in
  {| Body := Some (s3.Body resp);
     Headers := headers;
     StatusCode := status;
     ContentLength := contentLength;
     ETag := aws.ToString (s3.ETag resp);
     LastModified := s3.LastModified resp;
     CacheControl := aws.ToString (s3.CacheControl resp);
     AcceptRanges := aws.ToString (s3.AcceptRanges resp);
     ContentType := aws.ToString (s3.ContentType resp);
     ContentRange := aws.ToString (s3.ContentRange resp) |}.

(** [func toHeadObject(resp *s3.HeadObjectOutput) *Object] *)
Definition toHeadObject (resp : s3.HeadObjectOutput) : Object :=
  let headers : http.Header := ∅ in
  let headers := setHeader headers "Content-Type" (aws.ToString (s3.HContentType resp)) in
  let headers := setHeader headers "Cache-Control" (aws.ToString (s3.HCacheControl resp)) in
  let headers := setHeader headers "Last-Modified" (formatTime (s3.HLastModified resp)) in
  let headers := setHeader headers "Etag" (aws.ToString (s3.HETag resp)) in
  let headers := setHeader headers "Content-Encoding" (aws.ToString (s3.HContentEncoding resp)) in
  let headers := setHeader headers "Accept-Ranges" (aws.ToString (s3.HAcceptRanges resp)) in
  let headers := setHeader headers "Content-Disposition" (aws.ToString (s3.HContentDisposition resp)) in
  let headers := setHeader headers "Content-Language" (aws.ToString (s3.HContentLanguage resp)) in
  let headers :=
    let exp := aws.ToString (s3.HExpiresString resp) in
    if negb (String.eqb exp "") then setHeader headers "Expires" exp else headers in
  {| Body := None;
     Headers := headers;
     StatusCode := http.StatusOK;
     ContentLength := aws.ToInt64 (s3.HContentLength resp);
     ETag := aws.ToString (s3.HETag resp);
     LastModified := s3.HLastModified resp;
     CacheControl := aws.ToString (s3.HCacheControl resp);
     AcceptRanges := aws.ToString (s3.HAcceptRanges resp);
     ContentType := aws.ToString (s3.HContentType resp);
     ContentRange := "" |}.

(** [func (c *Client) GetObject(ctx, key string, cond *Conditional)
    ( *Object, error)]. The body handed out wraps [resp.Body] with the
    cancel function of the deadline; it reads like [resp.Body]. *)
Definition GetObject (c : Client) (key : string) (cond : option Conditional)
  : Object + Error :=
  let input :=
    {| s3.Bucket := aws.String_ (bucket c);
       s3.Key := aws.String_ key;
       s3.IfNoneMatch :=
         match cond with
         | Some cd => if negb (String.eqb (IfNoneMatch cd) "")
                      then aws.String_ (IfNoneMatch cd) else None
         | None => None
         end;
       s3.IfModifiedSince :=
         match cond with
         | Some cd => IfModifiedSince cd
         | None => None
         end;
       s3.Range :=
         match cond with
         | Some cd => if negb (String.eqb (Range cd) "")
                      then aws.String_ (Range cd) else None
         | None => None
         end |} in
  match s3GetObject c input with
  | inr err => inr (translateError err)
  | inl resp =>
      let obj := toObject resp http.StatusOK in
      inl (withBody obj (Some (s3.Body resp)))
  end.

(** [func (c *Client) HeadObject(ctx, key string, cond *Conditional)
    ( *Object, error)] *)
Definition HeadObject (c : Client) (key : string) (cond : option Conditional)
  : Object + Error :=
  let input :=
    {| s3.HBucket := aws.String_ (bucket c);
       s3.HKey := aws.String_ key;
       s3.HIfNoneMatch :=
         match cond with
         | Some cd => if negb (String.eqb (IfNoneMatch cd) "")
                      then aws.String_ (IfNoneMatch cd) else None
         | None => None
         end;
       s3.HIfModifiedSince :=
         match cond with
         | Some cd => IfModifiedSince cd
         | None => None
         end |} in
  match s3HeadObject c input with
  | inr err => inr (translateError err)
  | inl resp => inl (toHeadObject resp)
  end.

End adapter.
End origin.

(* ===================================================================== *)
(** * Package [config] *)
(* ===================================================================== *)

Module config.

(** The fields of [config.Config] that the serving path reads. *)
Record Config : Type := mkConfig {
  CacheCapacity : Z;
  CacheTTL : time.Duration;
  CacheStaleTTL : time.Duration;
  MaxObjectSize : Z;
  AuthToken : string;
  RequestTimeout : time.Duration
}.

(** The whole of [config.Config] and its loader. Environment lookups are
    a function [env] ([os.Getenv]: [""] for an unset variable); the
    parsers of durations and floating-point numbers and the type
    [float64] with its zero and its test [x < 0] are parameters. *)
Module full.
Section loader.

Variable float64 : Type.
Variable float_zero : float64.
Variable float_negative : float64 -> bool.
Variable ParseFloat : string -> option float64.
Variable ParseDuration : string -> option time.Duration.

Record Config : Type := mkConfig {
  Addr : string;
  Bucket : string;
  Region : string;
  Endpoint : string;
  AccessKey : string;
  SecretKey : string;
  CacheCapacity : Z;
  CacheTTL : time.Duration;
  CacheStaleTTL : time.Duration;
  MaxObjectSize : Z;
  AuthToken : string;
  RequestTimeout : time.Duration;
  ReadTimeout : time.Duration;
  WriteTimeout : time.Duration;
  IdleTimeout : time.Duration;
  RateLimitRPS : float64
}.

Definition defaultAddr : string := ":8080".
Definition defaultCacheCapacity : Z := 2048.
Definition defaultCacheTTL : time.Duration := 5 * (60 * time.Second).
Definition defaultCacheStaleTTL : time.Duration := 2 * (60 * time.Second).
Definition defaultMaxObjectSize : Z := 16 * 1024 * 1024.
Definition defaultRequestTimeout : time.Duration := 15 * time.Second.
Definition defaultReadTimeout : time.Duration := 5 * time.Second.
Definition defaultWriteTimeout : time.Duration := 15 * time.Second.
Definition defaultIdleTimeout : time.Duration := 60 * time.Second.
Definition defaultRateLimitRPS : float64 := float_zero.

(** The failures of [Load], by the variable named in the message. *)
Inductive LoadError : Type :=
| NoAuthToken
| NoEndpoint
| NoCredentials
| NoBucket
| BadCacheCapacity
| BadCacheTTL
| BadCacheStaleTTL
| BadMaxObjectSize
| BadRateLimitRPS.

Variable env : string -> string.

(** [func getString(key, def string) string] *)
Definition getString (key def : string) : string :=
  if negb (String.eqb (env key) "") then env key else def.

(** [func getInt(key string, def int) int] *)
Definition getInt (key : string) (def : Z) : Z :=
  if negb (String.eqb (env key) "") then
    match strconv.Atoi (env key) with
    | Some parsed => parsed
    | None => def
    end
  else def.

(** [func getInt64(key string, def int64) int64]; [strconv.ParseInt] in
    base 10 with 64 bits reads what [strconv.Atoi] reads. *)
Definition getInt64 (key : string) (def : Z) : Z :=
  if negb (String.eqb (env key) "") then
    match strconv.Atoi (env key) with
    | Some parsed => parsed
    | None => def
    end
  else def.

(** [func getFloat(key string, def float64) float64] *)
Definition getFloat (key : string) (def : float64) : float64 :=
  if negb (String.eqb (env key) "") then
    match ParseFloat (env key) with
    | Some parsed => parsed
    | None => def
    end
  else def.

(** [func getDuration(key string, def time.Duration) time.Duration] *)
Definition getDuration (key : string) (def : time.Duration) : time.Duration :=
  if negb (String.eqb (env key) "") then
    match ParseDuration (env key) with
    | Some dur => dur
    | None => def
    end
  else def.

(** [func Load() ( *Config, error)] *)
Definition Load : Config + LoadError :=
  let cfg :=
    {| Addr := getString "SERVER_ADDR" defaultAddr;
       AuthToken := env "AUTH_TOKEN";
       Endpoint := env "S3_ENDPOINT";
       Region := getString "S3_REGION" "auto";
       AccessKey := env "S3_ACCESS_KEY";
       SecretKey := env "S3_SECRET_KEY";
       Bucket := env "S3_BUCKET";
       CacheCapacity := getInt "CACHE_CAPACITY" defaultCacheCapacity;
       CacheTTL := getDuration "CACHE_TTL" defaultCacheTTL;
       CacheStaleTTL := getDuration "CACHE_STALE_TTL" defaultCacheStaleTTL;
       MaxObjectSize := getInt64 "MAX_OBJECT_SIZE" defaultMaxObjectSize;
       RequestTimeout := getDuration "REQUEST_TIMEOUT" defaultRequestTimeout;
       ReadTimeout := getDuration "READ_TIMEOUT" defaultReadTimeout;
       WriteTimeout := getDuration "WRITE_TIMEOUT" defaultWriteTimeout;
       IdleTimeout := getDuration "IDLE_TIMEOUT" defaultIdleTimeout;
       RateLimitRPS := getFloat "RATE_LIMIT_RPS" defaultRateLimitRPS |} in
  if String.eqb (AuthToken cfg) "" then inr NoAuthToken
  else if String.eqb (Endpoint cfg) "" then inr NoEndpoint
  else if String.eqb (AccessKey cfg) "" || String.eqb (SecretKey cfg) "" then inr NoCredentials
  else if String.eqb (Bucket cfg) "" then inr NoBucket
  else if CacheCapacity cfg <=? 0 then inr BadCacheCapacity
  else if CacheTTL cfg <=? 0 then inr BadCacheTTL
  else if CacheStaleTTL cfg <? 0 then inr BadCacheStaleTTL
  else if MaxObjectSize cfg <=? 0 then inr BadMaxObjectSize
  else if float_negative (RateLimitRPS cfg) then inr BadRateLimitRPS
  else inl cfg.

End loader.
End full.

End config.

(* ===================================================================== *)
(** * Package [server] (internal/server) *)
(* ===================================================================== *)

Module server.

(** The server with the mutable state its handlers share: the cache and
    the entry records its pointers lead to. *)
Record Server : Type := mkServer {
  cfg : config.Config;
  origin : origin.Client;
  cache : cache.Cache;
  heap : cache.Heap;
  authTok : string
}.

Definition withCache (s : Server) (c : cache.Cache) (h : cache.Heap) : Server :=
  {| cfg := cfg s; origin := origin s; cache := c; heap := h; authTok := authTok s |}.

(** The record behind a pointer. Pointers held by the cache or by a
    handler always lead to an allocated record; the zero [Entry] stands
    for the others. *)
Definition zeroEntry : cache.Entry :=
  cache.mkEntry [] ∅ 0 time.zero 0 0 0 "" time.zero.

Definition deref (h : cache.Heap) (p : cache.loc) : cache.Entry :=
  default zeroEntry (h !! p).

(** [&cache.Entry{...}]: a record at an address not in use. *)
Definition alloc (h : cache.Heap) (e : cache.Entry) : cache.loc * cache.Heap :=
  let p := fresh (dom h) in (p, <[p := e]> h).

(** What one run of a handler leaves behind: the response, the server
    state, and the revalidation task it started with [go], if any. *)
Record Outcome : Type := mkOutcome {
  writer : http.ResponseWriter;
  after : Server;
  spawned : option (string * cache.loc)
}.

(** Where [objectHandler] stands after the cache consultation. *)
Inductive Consulted : Type :=
| Answered (out : Outcome)
| Proceed (s : Server) (useCache : bool) (key : string) (entry : option cache.loc).

(** ** Admin token check *)

(** [func subtleConstantTimeEquals(a, b string) bool] *)
Definition subtleConstantTimeEquals (a b : string) : bool :=
  if (strings.len a =? 0) || (strings.len b =? 0) then false
  else if negb (strings.len a =? strings.len b) then false
  else String.eqb a b.

(** [func checkToken(r *http.Request, expected string) bool] *)
Definition checkToken (r : http.Request) (expected : string) : bool :=
  if String.eqb expected "" then true
  else
    let token := http.Get (http.ReqHeader r) "X-Auth-Token" in
    let token :=
      if String.eqb token "" then
        let auth := http.Get (http.ReqHeader r) "Authorization" in
        match strings.CutPrefix (strings.ToLower auth) "bearer " with
        | Some value => strings.TrimSpace value
        | None => token
        end
      else token in
    let token :=
      if String.eqb token "" then http.Get (http.Query r) "token" else token in
    subtleConstantTimeEquals token expected.

(** [func (s *Server) authMiddleware(next http.Handler) http.Handler] *)
Definition authMiddleware (s : Server) (next : http.Request -> http.ResponseWriter)
    (r : http.Request) : http.ResponseWriter :=
  if checkToken r (authTok s) then next r
  else http.Error http.newResponseWriter (http.StatusText http.StatusUnauthorized)
                  http.StatusUnauthorized.

(** ** Policy helpers *)

(** [func shouldUseCache(r *http.Request) bool] *)
Definition shouldUseCache (r : http.Request) : bool :=
  if negb (String.eqb (http.Method r) http.MethodGet) then false
  else if negb (String.eqb (http.Get (http.ReqHeader r) "Range") "") then false
  else
    let cc := strings.ToLower (http.Get (http.ReqHeader r) "Cache-Control") in
    if strings.Contains cc "no-cache" || strings.Contains cc "max-age=0" then false
    else
      let pragma := strings.ToLower (http.Get (http.ReqHeader r) "Pragma") in
      if strings.Contains pragma "no-cache" then false
      else true.

(** [func cacheKey(key string) string] *)
Definition cacheKey (key : string) : string := key.

(** [func cloneHeader(h http.Header) http.Header]: values are immutable
    here, so the deep copy is the map itself. *)
Definition cloneHeader (h : http.Header) : http.Header := h.

(** [func copyHeaders(dst, src http.Header)]: every key of [src]
    overwrites the one of [dst]. *)
Definition copyHeaders (dst src : http.Header) : http.Header := src ∪ dst.

(** The loop of [ttlFromHeaders] over the pieces of [Cache-Control]. *)
Fixpoint ttlFromParts (parts : list string) (fallback : time.Duration) : time.Duration :=
  match parts with
  | [] => fallback
  | part :: parts' =>
      let part := strings.TrimSpace (strings.ToLower part) in
      match strings.CutPrefix part "max-age=" with
      | Some value =>
          match strconv.Atoi value with
          | Some secs =>
              if secs <=? 0 then 0 else wrap64 (secs * time.Second)
          | None => ttlFromParts parts' fallback
          end
      | None => ttlFromParts parts' fallback
      end
  end.

(** [func ttlFromHeaders(h http.Header, fallback time.Duration) time.Duration] *)
Definition ttlFromHeaders (h : http.Header) (fallback : time.Duration) : time.Duration :=
  let cc := http.Get h "Cache-Control" in
  if negb (String.eqb cc "") then ttlFromParts (strings.Split cc ",") fallback
  else fallback.

(** [func hasNoStore(h http.Header) bool] *)
Definition hasNoStore (h : http.Header) : bool :=
  let cc := strings.ToLower (http.Get h "Cache-Control") in
  strings.Contains cc "no-store".

(** [func valueOrZero(t *time.Time) time.Time] *)
Definition valueOrZero (t : option time.Time) : time.Time :=
  match t with
  | None => time.zero
  | Some t => t
  end.

Section handlers.

(** [time.Parse(http.TimeFormat, _)] and [Time.Format(http.TimeFormat)]:
    the calendar arithmetic of package [time] is a parameter. *)
Variable ParseHTTPTime : string -> option time.Time.
Variable FormatHTTPTime : time.Time -> string.

(** [func buildConditional(r *http.Request) *origin.Conditional] *)
Definition buildConditional (r : http.Request) : origin.Conditional :=
  let inm := http.Get (http.ReqHeader r) "If-None-Match" in
  let ims := http.Get (http.ReqHeader r) "If-Modified-Since" in
  {| origin.IfNoneMatch := if negb (String.eqb inm "") then inm else "";
     origin.IfModifiedSince :=
       if negb (String.eqb ims "") then ParseHTTPTime ims else None;
     origin.Range := "" |}.

(** [func (s *Server) writeCacheEntry(w, r, entry, now, state)] *)
Definition writeCacheEntry (w : http.ResponseWriter) (r : http.Request)
    (entry : cache.Entry) (now : time.Time) (state : string) : http.ResponseWriter :=
  let h := copyHeaders (http.header w) (cache.Header entry) in
  let h := http.Set_ h "Age" (strconv.Itoa (cache.Age entry now)) in
  let h := http.Set_ h "X-Cache" state in
  let w := http.WriteHeader (http.withHeader w h) (cache.Status entry) in
  if String.eqb (http.Method r) http.MethodHead then w
  else http.Write w (cache.Body entry).

(** [func (s *Server) fetchFromOrigin(ctx, key, cond, method)] *)
Definition fetchFromOrigin (s : Server) (key : string) (cond : origin.Conditional)
    (method : string) : origin.Object + origin.Error :=
  if String.eqb method http.MethodHead
  then origin.HeadObject FormatHTTPTime (origin s) key (Some cond)
  else origin.GetObject FormatHTTPTime (origin s) key (Some cond).

(** [func (s *Server) handleOriginError(w, r, err, entry, now, cacheKey)];
    [entry] is [None] for a [nil] pointer. The first branch writes
    [StoredAt] through the pointer before it hands it to [Set]. *)
Definition handleOriginError (s : Server) (w : http.ResponseWriter) (r : http.Request)
    (err : origin.Error) (entry : option cache.loc) (now : time.Time)
    (cacheKey : string) : Outcome :=
  match (if origin.isNotModified err then entry else None) with
  | Some p =>
      let h := alter (cache.setStoredAt now) p (heap s) in
      let '(c, h) := cache.Set_ (cache s) cacheKey p h in
      {| writer := writeCacheEntry w r (deref h p) now "REVALIDATED";
         after := withCache s c h; spawned := None |}
  | None =>
      if origin.isNotModified err then
        {| writer := http.WriteHeader w http.StatusNotModified;
           after := s; spawned := None |}
      else if origin.isNotFound err then
        {| writer := http.NotFound w; after := s; spawned := None |}
      else if origin.isPrecondition err then
        {| writer := http.Error w (http.StatusText http.StatusPreconditionFailed)
                                http.StatusPreconditionFailed;
           after := s; spawned := None |}
      else
        {| writer := http.Error w (http.StatusText http.StatusBadGateway)
                                http.StatusBadGateway;
           after := s; spawned := None |}
  end.

(** The condition [shouldStore] of [objectHandler] (line 214). *)
Definition shouldStore (s : Server) (useCache : bool) (method : string)
    (cond : origin.Conditional) (obj : origin.Object) : bool :=
  useCache && String.eqb method http.MethodGet
  && String.eqb (origin.Range cond) ""
  && (origin.StatusCode obj =? http.StatusOK)
  && (origin.ContentLength obj >? 0)
  && (origin.ContentLength obj <=? config.MaxObjectSize (cfg s))
  && negb (hasNoStore (origin.Headers obj)).

(** The entry that the miss path of [objectHandler] builds from the
    buffered body (lines 226-239), with its guard on [TTL]. *)
Definition newEntry (s : Server) (obj : origin.Object) (body : list byte)
    (now : time.Time) : cache.Entry :=
  let e :=
    {| cache.Body := body;
       cache.Header := cloneHeader (origin.Headers obj);
       cache.Status := origin.StatusCode obj;
       cache.StoredAt := now;
       cache.TTL := ttlFromHeaders (origin.Headers obj) (config.CacheTTL (cfg s));
       cache.StaleTTL := config.CacheStaleTTL (cfg s);
       cache.Size := Z.of_nat (length body);
       cache.ETag := origin.ETag obj;
       cache.LastModified := valueOrZero (origin.LastModified obj) |} in
  if cache.TTL e <=? 0 then cache.setTTL (config.CacheTTL (cfg s)) e else e.

(** The tail of [objectHandler] that serves without the cache
    (lines 246-260), reading what is left of the body in [body]. A [nil]
    body panics in [io.Copy] after the header has gone out. *)
Definition passThrough (s : Server) (w : http.ResponseWriter) (method : string)
    (obj : origin.Object) (body : option io.Reader) : Outcome :=
  let h := copyHeaders (http.header w) (origin.Headers obj) in
  let h := http.Set_ h "X-Cache" "MISS" in
  let h :=
    if origin.ContentLength obj >? 0
    then http.Set_ h "Content-Length" (strconv.Itoa (origin.ContentLength obj))
    else h in
  let w := http.WriteHeader (http.withHeader w h) (origin.StatusCode obj) in
  if String.eqb method http.MethodHead
  then {| writer := w; after := s; spawned := None |}
  else
    match body with
    | Some rd => {| writer := http.Write w (fst (io.Copy rd)); after := s; spawned := None |}
    | None => {| writer := w; after := s; spawned := None |}
    end.

(** [objectHandler] from line 210 on: what it does with an object that
    the origin delivered. A [nil] body in the storing branch panics
    before anything is written; the router's recoverer answers 500. *)
Definition serveObject (s : Server) (w : http.ResponseWriter) (r : http.Request)
    (now : time.Time) (cKey : string) (useCache : bool) (method : string)
    (cond : origin.Conditional) (obj : origin.Object) : Outcome :=
  if shouldStore s useCache method cond obj then
    match origin.Body obj with
    | None => {| writer := http.WriteHeader w 500; after := s; spawned := None |}
    | Some rd =>
        let d := io.ReadAllLimit rd (wrap64 (config.MaxObjectSize (cfg s) + 1)) in
        if io.failed d then
          {| writer := http.Error w (http.StatusText http.StatusBadGateway)
                                  http.StatusBadGateway;
             after := s; spawned := None |}
        else if Z.of_nat (length (io.data d)) >? config.MaxObjectSize (cfg s) then
          passThrough s w method obj (Some (io.rest d))
        else
          let '(p, h) := alloc (heap s) (newEntry s obj (io.data d) now) in
          let '(c, h) := cache.Set_ (cache s) cKey p h in
          {| writer := writeCacheEntry w r (deref h p) now "MISS";
             after := withCache s c h; spawned := None |}
    end
  else passThrough s w method obj (origin.Body obj).

(** The conditional that goes to the origin (lines 191-203). *)
Definition outgoingConditional (s : Server) (r : http.Request)
    (entry : option cache.loc) (method : string) : origin.Conditional :=
  let cond := buildConditional r in
  let cond :=
    match entry with
    | Some p =>
        let e := deref (heap s) p in
        {| origin.IfNoneMatch :=
             if negb (String.eqb (cache.ETag e) "") && String.eqb (origin.IfNoneMatch cond) ""
             then cache.ETag e else origin.IfNoneMatch cond;
           origin.IfModifiedSince :=
             match origin.IfModifiedSince cond with
             | None => if negb (time.IsZero (cache.LastModified e))
                       then Some (cache.LastModified e) else None
             | Some t => Some t
             end;
           origin.Range := origin.Range cond |}
    | None => cond
    end in
  if String.eqb method http.MethodGet
  then {| origin.IfNoneMatch := origin.IfNoneMatch cond;
          origin.IfModifiedSince := origin.IfModifiedSince cond;
          origin.Range := http.Get (http.ReqHeader r) "Range" |}
  else cond.

(** [objectHandler] from line 191 on: the origin fetch and the dispatch
    on its result. *)
Definition fetchAndServe (s : Server) (w : http.ResponseWriter) (r : http.Request)
    (now : time.Time) (key cKey : string) (useCache : bool) (method : string)
    (entry : option cache.loc) : Outcome :=
  let cond := outgoingConditional s r entry method in
  match fetchFromOrigin s key cond method with
  | inr err => handleOriginError s w r err entry now cKey
  | inl obj => serveObject s w r now cKey useCache method cond obj
  end.

(** The cache probe of [objectHandler] (lines 175-176): the pointer
    found, [None] for [nil], and the server with the promoted key. *)
Definition probe (s : Server) (lookupCache : bool) (cKey : string)
  : option cache.loc * Server :=
  if lookupCache then
    let '(e, c) := cache.Get (cache s) cKey in (e, withCache s c (heap s))
  else (None, s).

(** [objectHandler] up to line 189: admission control and the cache
    consultation. Either the request is answered here, or the handler
    goes on to the origin with the server as the probe left it, the
    value of [useCache], the object key and the entry found ([None] for
    [nil]). *)
Definition consult (s : Server) (r : http.Request) (now : time.Time) : Consulted :=
  let w := http.newResponseWriter in
  let key := strings.TrimPrefix (http.Path r) "/" in
  if String.eqb key "" then
    Answered {| writer := http.NotFound w; after := s; spawned := None |}
  else if strings.Contains key ".." then
    Answered {| writer := http.Error w (http.StatusText http.StatusBadRequest)
                                     http.StatusBadRequest;
                after := s; spawned := None |}
  else
    let method := http.Method r in
    if negb (String.eqb method http.MethodGet) && negb (String.eqb method http.MethodHead) then
      Answered {| writer := http.Error w (http.StatusText http.StatusMethodNotAllowed)
                                       http.StatusMethodNotAllowed;
                  after := s; spawned := None |}
    else
      let useCache := shouldUseCache r in
      let lookupCache := useCache || String.eqb method http.MethodHead in
      let cKey := cacheKey key in
      let '(entry, s) := probe s lookupCache cKey in
      match entry with
      | Some p =>
          let e := deref (heap s) p in
          if cache.Fresh e now then
            Answered {| writer := writeCacheEntry w r e now "HIT";
                        after := s; spawned := None |}
          else if useCache && cache.StaleButValid e now
                  && String.eqb method http.MethodGet then
            Answered {| writer := writeCacheEntry w r e now "STALE";
                        after := s; spawned := Some (key, p) |}
          else Proceed s useCache key entry
      | None => Proceed s useCache key entry
      end.

(** [func (s *Server) objectHandler(w http.ResponseWriter, r *http.Request)],
    run at the instant [now] that [time.Now()] returns. *)
Definition objectHandler (s : Server) (r : http.Request) (now : time.Time) : Outcome :=
  match consult s r now with
  | Answered out => out
  | Proceed s useCache key entry =>
      fetchAndServe s http.newResponseWriter r now key (cacheKey key) useCache
                    (http.Method r) entry
  end.

(** [func (s *Server) revalidate(key string, entry *cache.Entry)], the
    task started by a STALE serve; [now] is what [time.Now()] returns
    when it stores. It writes to no client. *)
Definition revalidate (s : Server) (key : string) (entry : cache.loc)
    (now : time.Time) : Server :=
  let e := deref (heap s) entry in
  let cond :=
    {| origin.IfNoneMatch := if negb (String.eqb (cache.ETag e) "") then cache.ETag e else "";
       origin.IfModifiedSince :=
         if negb (time.IsZero (cache.LastModified e)) then Some (cache.LastModified e) else None;
       origin.Range := "" |} in
  match origin.GetObject FormatHTTPTime (origin s) key (Some cond) with
  | inr err =>
      if origin.isNotModified err then
        let h := alter (cache.setStoredAt now) entry (heap s) in
        let '(c, h) := cache.Set_ (cache s) (cacheKey key) entry h in
        withCache s c h
      else s
  | inl obj =>
      if (origin.ContentLength obj <=? 0)
         || (origin.ContentLength obj >? config.MaxObjectSize (cfg s)) then s
      else
        match origin.Body obj with
        | None => s
        | Some rd =>
            let d := io.ReadAllLimit rd (wrap64 (config.MaxObjectSize (cfg s) + 1)) in
            if io.failed d then s
            else if Z.of_nat (length (io.data d)) >? config.MaxObjectSize (cfg s) then s
            else
              let updated :=
                {| cache.Body := io.data d;
                   cache.Header := cloneHeader (origin.Headers obj);
                   cache.Status := origin.StatusCode obj;
                   cache.StoredAt := now;
                   cache.TTL := ttlFromHeaders (origin.Headers obj) (config.CacheTTL (cfg s));
                   cache.StaleTTL := config.CacheStaleTTL (cfg s);
                   cache.Size := Z.of_nat (length (io.data d));
                   cache.ETag := origin.ETag obj;
                   cache.LastModified := valueOrZero (origin.LastModified obj) |} in
              let '(p, h) := alloc (heap s) updated in
              let '(c, h) := cache.Set_ (cache s) (cacheKey key) p h in
              withCache s c h
        end
  end.

End handlers.
(** ** Client address and the admin handlers *)

(** [func realIP(r *http.Request) string], with [r.RemoteAddr] passed
    beside the request. The loop over the pieces of [X-Forwarded-For]
    returns in its first round; a split always has a first piece. *)
Definition realIP (r : http.Request) (remoteAddr : string) : string :=
  let xf := http.Get (http.ReqHeader r) "X-Forwarded-For" in
  let rest :=
    let xr := http.Get (http.ReqHeader r) "X-Real-Ip" in
    if negb (String.eqb xr "") then xr else remoteAddr in
  if negb (String.eqb xf "") then
    match strings.Split xf "," with
    | part :: _ => strings.TrimSpace part
    | [] => rest
    end
  else rest.

(** The loop of [purgeHandler] over the keys of the payload. *)
Definition purgeKeys (c : cache.Cache) (keys : list string) : cache.Cache :=
  fold_left
    (fun c key =>
       let k := strings.TrimSpace key in
       if String.eqb k "" then c else cache.Delete c (cacheKey k))
    keys c.

(** [func (s *Server) purgeHandler(w http.ResponseWriter, r *http.Request)];
    [payload] is what the JSON decoder finds under ["keys"] in the body,
    [None] when it reports an error. *)
Definition purgeHandler (s : Server) (payload : option (list string)) : Outcome :=
  match payload with
  | None =>
      {| writer := http.Error http.newResponseWriter
                     (http.StatusText http.StatusBadRequest) http.StatusBadRequest;
         after := s; spawned := None |}
  | Some keys =>
      {| writer := http.WriteHeader http.newResponseWriter http.StatusNoContent;
         after := withCache s (purgeKeys (cache s) keys) (heap s);
         spawned := None |}
  end.

(** [func (s *Server) healthHandler(w http.ResponseWriter, _ *http.Request)] *)
Definition healthHandler : http.ResponseWriter :=
  http.Write (http.WriteHeader http.newResponseWriter http.StatusOK)
             (list_byte_of_string "ok").

(** ** Routing (server.go) *)



End server.

(* ===================================================================== *)
(** * Vocabulary of the properties *)
(* ===================================================================== *)

(** A run of [Set] calls, in order, with nothing in between. *)
Definition setAll (c : cache.Cache) (h : cache.Heap) (ops : list (string * cache.loc))
  : cache.Cache * cache.Heap :=
  fold_left (fun st op => cache.Set_ (fst st) (fst op) (snd op) (snd st)) ops (c, h).

(** The same run seen by the container alone. *)
Definition addAll {V : Type} (l : lru.Cache V) (ops : list (string * V)) : lru.Cache V :=
  fold_left (fun l op => lru.Add l (fst op) (snd op)) ops l.

(** The pointer that the cache holds for a key, without promotion. *)
Definition cached (c : cache.Cache) (key : string) : option cache.loc :=
  lru.Peek (cache.lru c) key.

(** An entry stored at instant 0 with a freshness window of 10 ns and a
    stale window of 5 ns. *)
Definition entry_10_5 : cache.Entry :=
  cache.mkEntry [] ∅ 200 0 10 5 0 "" 0.

(** [sub] occurs in [s] as a run of consecutive bytes. *)
Definition occursIn (sub s : string) : Prop :=
  exists pre post : string, s = pre ++ sub ++ post.

(** The directives of a header value as the specification reads them:
    the comma-separated pieces, lower-cased, without surrounding white
    space. *)
Definition directives (value : string) : list string :=
  map (fun piece => strings.TrimSpace (strings.ToLower piece)) (strings.Split value ",").

Definition hasDirective (tok value : string) : bool :=
  existsb (String.eqb tok) (directives value).

(** [shouldUseCache] in the words of the specification (4.3): GET, no
    [Range], and neither [no-cache] nor [max-age=0] among the directives
    of [Cache-Control], nor [no-cache] among those of [Pragma], by
    token membership. *)
Definition shouldUseCache_by_tokens (r : http.Request) : bool :=
  String.eqb (http.Method r) http.MethodGet
  && String.eqb (http.Get (http.ReqHeader r) "Range") ""
  && negb (hasDirective "no-cache" (http.Get (http.ReqHeader r) "Cache-Control"))
  && negb (hasDirective "max-age=0" (http.Get (http.ReqHeader r) "Cache-Control"))
  && negb (hasDirective "no-cache" (http.Get (http.ReqHeader r) "Pragma")).

(** The entry record that the cache holds for a key. *)
Definition cachedEntry (s : server.Server) (key : string) : option cache.Entry :=
  match cached (server.cache s) key with
  | Some p => server.heap s !! p
  | None => None
  end.

(** A record that did not exist in [before] is held under [key] in
    [after]. *)
Definition admitted (before after : server.Server) (key : string) : Prop :=
  exists (p : cache.loc) (e : cache.Entry),
    server.heap before !! p = None
    /\ server.heap after !! p = Some e
    /\ cached (server.cache after) key = Some p.

(** The buffered read of the admission path, [io.ReadAll] behind
    [io.LimitReader(obj.Body, MaxObjectSize+1)], comes back without a
    read error and with at most [MaxObjectSize] bytes. *)
Definition bufferedWithinBudget (s : server.Server) (obj : origin.Object) : Prop :=
  exists rd : io.Reader,
    origin.Body obj = Some rd
    /\ io.failed (io.ReadAllLimit rd (wrap64 (config.MaxObjectSize (server.cfg s) + 1))) = false
    /\ Z.of_nat (length (io.data (io.ReadAllLimit rd
                   (wrap64 (config.MaxObjectSize (server.cfg s) + 1)))))
       <= config.MaxObjectSize (server.cfg s).

(** The same read comes back with a read error. *)
Definition bufferedReadFails (s : server.Server) (obj : origin.Object) : Prop :=
  exists rd : io.Reader,
    origin.Body obj = Some rd
    /\ io.failed (io.ReadAllLimit rd (wrap64 (config.MaxObjectSize (server.cfg s) + 1))) = true.

(** ** Concrete requests, origins and servers *)

Definition headerOf (l : list (string * string)) : http.Header :=
  list_to_map (map (fun kv => (fst kv, [snd kv])) l).

Definition request (method path : string) (h : list (string * string)) : http.Request :=
  {| http.Method := method; http.Path := path;
     http.ReqHeader := headerOf h; http.Query := ∅ |}.

(** Stand-ins for the calendar functions of package [time]. *)
Definition noParse : string -> option time.Time := fun _ => None.
Definition noFormat : time.Time -> string := fun _ => "".

(** An S3 answer with the given body stream, declared length,
    [Cache-Control] and [Content-Range]. *)
Definition getOutput (body : string) (broken : bool) (len : option Z)
    (cc cr : option string) : s3.GetObjectOutput :=
  {| s3.Body := {| io.pending := list_byte_of_string body; io.broken := broken |};
     s3.ContentType := None; s3.CacheControl := cc; s3.LastModified := None;
     s3.ETag := None; s3.ContentEncoding := None; s3.AcceptRanges := None;
     s3.ContentRange := cr; s3.ContentDisposition := None;
     s3.ContentLanguage := None; s3.ExpiresString := None;
     s3.Metadata := None; s3.ContentLength := len |}.

(** An origin that gives the same answer to every [GetObject]. *)
Definition originOf (answer : s3.GetObjectOutput + s3.Error) : origin.Client :=
  {| origin.s3GetObject := fun _ => answer;
     origin.s3HeadObject := fun _ => inr s3.OtherError;
     origin.bucket := "bucket"; origin.timeout := 0 |}.

(** A new cache of capacity 2 with the default durations of 5 and 2
    minutes, as [cache.New] makes it. *)
Definition cache2 : cache.Cache :=
  {| cache.lru := {| lru.size := 2; lru.items := [] |};
     cache.ttl := 300 * time.Second; cache.stale := 120 * time.Second;
     cache.cap := 2 |}.

(** A server with an empty cache and a given [MaxObjectSize]. *)
Definition serverOf (max : Z) (o : origin.Client) : server.Server :=
  {| server.cfg :=
       {| config.CacheCapacity := 2; config.CacheTTL := 300 * time.Second;
          config.CacheStaleTTL := 120 * time.Second; config.MaxObjectSize := max;
          config.AuthToken := "Secret"; config.RequestTimeout := 15 |};
     server.origin := o; server.cache := cache2; server.heap := ∅;
     server.authTok := "Secret" |}.

Definition ops_abc : list (string * cache.loc) :=
  [("a", 1%positive); ("b", 2%positive); ("c", 3%positive)].

(** An entry record handed to [Set] with both durations left at zero,
    and a heap that holds it at address 1. *)
Definition entry_unset : cache.Entry :=
  cache.mkEntry [] ∅ 200 0 0 0 0 "" 0.

Definition heap_unset : cache.Heap := {[ 1%positive := entry_unset ]}.

(** The object key of a request: the path without its leading slash. *)
Definition objectKey (r : http.Request) : string :=
  strings.TrimPrefix (http.Path r) "/".

(** A handler answered with [code] and left the server as it was. *)
Definition answers (out : server.Outcome) (code : Z) (s : server.Server) : Prop :=
  http.status (server.writer out) = code
  /\ server.after out = s
  /\ server.spawned out = None.

(** A GET whose [Cache-Control] has a directive that merely starts with
    [no-cache]. *)
Definition req_no_cacheable : http.Request :=
  request "GET" "/a.txt" [("Cache-Control", "no-cacheable")].

(** Admin requests that carry the token in [Authorization] and in
    [X-Auth-Token]. *)
Definition req_bearer_Secret : http.Request :=
  request "GET" "/metrics" [("Authorization", "Bearer Secret")].

Definition req_xauth_Secret : http.Request :=
  request "GET" "/metrics" [("X-Auth-Token", "Secret")].

(** A POST to the root path, and one to a path with a [..] segment. *)
Definition req_post_root : http.Request := request "POST" "/" [].

(** The conditions under which the specification lets a delivered object
    into the cache (4.4, step 6), for the request [r], the conditional
    [cond] sent to the origin and the object [obj] that came back. *)
Definition mayAdmit (s : server.Server) (r : http.Request)
    (cond : origin.Conditional) (obj : origin.Object) : Prop :=
  server.shouldUseCache r = true
  /\ http.Method r = "GET"
  /\ origin.Range cond = ""
  /\ origin.StatusCode obj = 200
  /\ 0 < origin.ContentLength obj <= config.MaxObjectSize (server.cfg s)
  /\ server.hasNoStore (origin.Headers obj) = false.

(** Scenario S1: an origin that holds a five-byte object with
    [Cache-Control: max-age=60], an empty cache with a 16-byte admission
    limit, and a plain GET for the object. *)
Definition out_hello : s3.GetObjectOutput :=
  getOutput "hello" false (Some 5) (Some "max-age=60") None.

Definition srv_hello : server.Server := serverOf 16 (originOf (inl out_hello)).

Definition req_hello : http.Request := request "GET" "/a.txt" [].

Definition obj_hello : origin.Object :=
  origin.withBody (origin.toObject noFormat out_hello 200) (Some (s3.Body out_hello)).

(** An origin whose body stream breaks after one byte of the two it
    declared, behind a server with a 2-byte admission limit. *)
Definition out_broken : s3.GetObjectOutput :=
  getOutput "a" true (Some 2) None None.

Definition srv_broken : server.Server := serverOf 2 (originOf (inl out_broken)).

Definition obj_broken : origin.Object :=
  origin.withBody (origin.toObject noFormat out_broken 200) (Some (s3.Body out_broken)).

(** An origin that declares two bytes and streams four, behind a server
    with a 2-byte admission limit. *)
Definition out_overflow : s3.GetObjectOutput :=
  getOutput "abcd" false (Some 2) None None.


Definition obj_overflow : origin.Object :=
  origin.withBody (origin.toObject noFormat out_overflow 200) (Some (s3.Body out_overflow)).

Definition req_big : http.Request := request "GET" "/big.bin" [].

(** Every entry that the cache holds has status 200. *)
Definition entries200 (c : cache.Cache) (h : cache.Heap) : Prop :=
  forall (key : string) (p : cache.loc) (e : cache.Entry),
    cached c key = Some p -> h !! p = Some e -> cache.Status e = 200.

Definition allCached200 (s : server.Server) : Prop :=
  entries200 (server.cache s) (server.heap s).

(** A server whose cache holds [x.txt], stored at instant 0 with a 10 ns
    freshness window and a 5 ns stale window, in front of an origin that
    answers every [GetObject] with four bytes and a [Content-Range]. *)
Definition entry_x : cache.Entry :=
  cache.mkEntry (list_byte_of_string "old!") ∅ 200 0 10 5 4 "v1" 0.

Definition out_partial : s3.GetObjectOutput :=
  getOutput "part" false (Some 4) None (Some "bytes 0-3/10").

Definition srv_stale : server.Server :=
  {| server.cfg :=
       {| config.CacheCapacity := 2; config.CacheTTL := 300 * time.Second;
          config.CacheStaleTTL := 120 * time.Second; config.MaxObjectSize := 16;
          config.AuthToken := "Secret"; config.RequestTimeout := 15 |};
     server.origin := originOf (inl out_partial);
     server.cache :=
       {| cache.lru := {| lru.size := 2; lru.items := [("x.txt", 1%positive)] |};
          cache.ttl := 300 * time.Second; cache.stale := 120 * time.Second;
          cache.cap := 2 |};
     server.heap := {[ 1%positive := entry_x ]};
     server.authTok := "Secret" |}.

Definition req_x : http.Request := request "GET" "/x.txt" [].

(** The servers of scenarios S2 and S3: [srv_hello] after it has served
    and admitted [a.txt] at instant 100 (S1). *)
Definition srv_after_S1 : server.Server :=
  server.after (server.objectHandler noParse noFormat srv_hello req_hello 100).

(** ** Vocabulary of the further properties *)

(** The operations of the cache, to speak of arbitrary runs of them. *)
Inductive cacheOp : Type :=
| OpGet (key : string)
| OpSet (key : string) (entry : cache.loc)
| OpDelete (key : string).

Definition applyOp (st : cache.Cache * cache.Heap) (op : cacheOp)
  : cache.Cache * cache.Heap :=
  match op with
  | OpGet k => (snd (cache.Get (fst st) k), snd st)
  | OpSet k p => cache.Set_ (fst st) k p (snd st)
  | OpDelete k => (cache.Delete (fst st) k, snd st)
  end.

Definition applyOps (ops : list cacheOp) (st : cache.Cache * cache.Heap)
  : cache.Cache * cache.Heap :=
  fold_left applyOp ops st.

(** A cache of capacity 2 that holds [a] (older) and [b] (newer). *)
Definition cache_ab : cache.Cache :=
  {| cache.lru := {| lru.size := 2;
                     lru.items := [("b", 2%positive); ("a", 1%positive)] |};
     cache.ttl := 300 * time.Second; cache.stale := 120 * time.Second;
     cache.cap := 2 |}.

(** The shape every operation of the container keeps: pairwise distinct
    keys, at most [size] of them. *)
Definition bounded {V : Type} (c : lru.Cache V) : Prop :=
  List.NoDup (lru.Keys c) /\ Z.of_nat (length (lru.items c)) <= lru.size c.

(** An admin request with a wrong [X-Auth-Token] and the right token
    everywhere else. *)
Definition req_wrong_xauth : http.Request :=
  {| http.Method := "GET"; http.Path := "/metrics";
     http.ReqHeader := headerOf [("X-Auth-Token", "nope"); ("Authorization", "Bearer secret")];
     http.Query := headerOf [("token", "secret")] |}.

(** An admin request that carries the token in the query only. *)
Definition req_query_Secret : http.Request :=
  {| http.Method := "GET"; http.Path := "/metrics";
     http.ReqHeader := ∅;
     http.Query := headerOf [("token", "Secret")] |}.

(** A request that came through two proxies. *)
Definition req_forwarded : http.Request :=
  request "GET" "/a.txt" [("X-Forwarded-For", " 203.0.113.7 , 10.0.0.1"); ("X-Real-Ip", "10.0.0.9")].

(** The status that [handleOriginError] answers an origin error with
    when it has no cached entry to fall back on. *)
Definition statusOfError (e : origin.Error) : Z :=
  match e with
  | origin.ErrNotFound => 404
  | origin.ErrNotModified => 304
  | origin.ErrPrecondition => 412
  | origin.ErrWrapped _ _ => 502
  end.

(** A GET for a byte range, and an origin that answers it with a
    [Content-Range]. *)
Definition req_range : http.Request :=
  request "GET" "/x.txt" [("Range", "bytes=0-3")].

Definition srv_partial : server.Server := serverOf 16 (originOf (inl out_partial)).

(** An origin that does not have the object. *)
Definition srv_gone : server.Server :=
  serverOf 16 (originOf (inr (s3.APIError "NoSuchKey"))).

(** The same server in front of another origin. *)
Definition withOrigin (s : server.Server) (o : origin.Client) : server.Server :=
  {| server.cfg := server.cfg s; server.origin := o; server.cache := server.cache s;
     server.heap := server.heap s; server.authTok := server.authTok s |}.

(** The request may be answered from the cache: a GET that may use it,
    or a HEAD. *)
Definition mayLookUp (r : http.Request) : Prop :=
  (http.Method r = "GET" /\ server.shouldUseCache r = true) \/ http.Method r = "HEAD".

(** The body that a cached entry is served with: none for a HEAD. *)
Definition servedBody (r : http.Request) (e : cache.Entry) : list byte :=
  if String.eqb (http.Method r) "HEAD" then [] else cache.Body e.

(** A HEAD for the cached object of [srv_stale]. *)
Definition req_head_x : http.Request := request "HEAD" "/x.txt" [].

(** An origin that answers "not modified". *)
Definition srv_stale_304 : server.Server :=
  withOrigin srv_stale (originOf (inr (s3.APIError "NotModified"))).

(** The conditional that [revalidate] sends for an entry: its ETag and
    its modification time as validators, no range. *)
Definition staleConditional (e : cache.Entry) : origin.Conditional :=
  {| origin.IfNoneMatch := if negb (String.eqb (cache.ETag e) "") then cache.ETag e else "";
     origin.IfModifiedSince :=
       if negb (time.IsZero (cache.LastModified e)) then Some (cache.LastModified e) else None;
     origin.Range := "" |}.

(** [srv_stale] after [x.txt] was purged, still in front of an origin
    that answers "not modified". *)
Definition srv_purged_304 : server.Server :=
  server.withCache srv_stale_304 (cache.Delete (server.cache srv_stale_304) "x.txt")
                   (server.heap srv_stale_304).

(** An origin that knows a 5-byte object and answers only HEAD, behind
    the cache of [srv_stale]. *)
Definition out_head : s3.HeadObjectOutput :=
  {| s3.HContentType := Some "text/plain"; s3.HCacheControl := None;
     s3.HLastModified := None; s3.HETag := None; s3.HContentEncoding := None;
     s3.HAcceptRanges := None; s3.HContentDisposition := None;
     s3.HContentLanguage := None; s3.HExpiresString := None;
     s3.HContentLength := Some 5 |}.

Definition srv_head : server.Server :=
  withOrigin srv_stale
    {| origin.s3GetObject := fun _ => inr s3.OtherError;
       origin.s3HeadObject := fun _ => inl out_head;
       origin.bucket := "bucket"; origin.timeout := 0 |}.

(** A HEAD for an object that is not cached. *)
Definition req_head_a : http.Request := request "HEAD" "/a.txt" [].

(** An S3 answer whose [Cache-Control] names no [max-age]. *)
Definition out_public : s3.GetObjectOutput :=
  getOutput "hello" false (Some 5) (Some "public, S-MaxAge=60") None.

Definition obj_public : origin.Object :=
  origin.withBody (origin.toObject noFormat out_public 200) (Some (s3.Body out_public)).

(** An environment with the five required variables and two values
    that do not parse; parsers of durations and floating-point numbers
    that reject everything, over [Z] for [float64]. *)
Definition env_required (key : string) : string :=
  if existsb (String.eqb key)
       ["AUTH_TOKEN"; "S3_ENDPOINT"; "S3_ACCESS_KEY"; "S3_SECRET_KEY"; "S3_BUCKET"]
  then "set"
  else if String.eqb key "CACHE_CAPACITY" then "lots"
  else if String.eqb key "CACHE_TTL" then "five minutes"
  else "".

Definition noFloat : string -> option Z := fun _ => None.
Definition noDuration : string -> option time.Duration := fun _ => None.

(** The variable is unset, or what it holds does not parse. *)
Definition unusable {A : Type} (parse : string -> option A) (value : string) : Prop :=
  value = "" \/ parse value = None.

(** An environment with the five required variables, a capacity that
    does not parse, and a TTL and a size limit that do; a duration
    parser that knows one spelling. *)
Definition env_mixed (key : string) : string :=
  if existsb (String.eqb key)
       ["AUTH_TOKEN"; "S3_ENDPOINT"; "S3_ACCESS_KEY"; "S3_SECRET_KEY"; "S3_BUCKET"]
  then "set"
  else if String.eqb key "CACHE_CAPACITY" then "lots"
  else if String.eqb key "CACHE_TTL" then "90s"
  else if String.eqb key "MAX_OBJECT_SIZE" then "1024"
  else "".

Definition parse90s (value : string) : option time.Duration :=
  if String.eqb value "90s" then Some (90 * time.Second) else None.

(* ===================================================================== *)
(** * Properties *)
(* ===================================================================== *)

Lemma wrap64_id (z : Z) : in_int64 z -> wrap64 z = z.
Proof.
  unfold in_int64, int64_min, int64_max, wrap64. intros Hz.
  rewrite Z.mod_small; lia.
Qed.

Lemma wrap64_range (z : Z) : in_int64 (wrap64 z).
Proof.
  unfold in_int64, int64_min, int64_max, wrap64.
  pose proof (Z.mod_pos_bound (z + 2 ^ 63) (2 ^ 64)). lia.
Qed.

(** ** Freshness and the stale window *)

Section freshness.

Implicit Types (e : cache.Entry) (t : time.Time).

Lemma Fresh_iff e t :
  cache.Fresh e t = true <-> t < cache.StoredAt e + cache.TTL e.
Proof. unfold cache.Fresh, time.Before, time.Add. apply Z.ltb_lt. Qed.

Lemma StaleButValid_iff e t :
  in_int64 (cache.TTL e + cache.StaleTTL e) ->
  cache.StaleButValid e t = true
  <-> t < cache.StoredAt e + cache.TTL e + cache.StaleTTL e.
Proof.
  intros Hr. unfold cache.StaleButValid, time.Before, time.Add.
  rewrite (wrap64_id _ Hr), Z.ltb_lt. lia.
Qed.

End freshness.

(** C2, as stated, fails: [StaleButValid] tests only the end of the stale
    window, so an entry that is fresh at [t] is also stale-but-valid at
    [t]. Entry stored at 0 with a 10 ns freshness window and a 5 ns stale
    window, read at instant 3. *)
Lemma fresh_entry_is_stale_but_valid :
  ~ (forall (e : cache.Entry) (t : time.Time),
        0 <= cache.TTL e -> 0 <= cache.StaleTTL e ->
        cache.Fresh e t = true -> cache.StaleButValid e t = false).
Proof.
  intros H.
  specialize (H entry_10_5 3).
  cbn in H. discriminate H; [lia | lia | reflexivity].
Qed.

(** C2, amended: for an entry with [ttl >= 0], [staleTtl >= 0] whose sum
    fits a 64-bit duration, [StaleButValid(e, t)] holds exactly when
    [t < storedAt + ttl + staleTtl]; hence [Fresh(e, t)] implies
    [StaleButValid(e, t)], and for an entry that is not fresh at [t],
    [StaleButValid(e, t)] holds exactly when
    [storedAt + ttl <= t < storedAt + ttl + staleTtl]. *)
Theorem StaleButValid_is_upper_bound (e : cache.Entry) (t : time.Time) :
  0 <= cache.TTL e -> 0 <= cache.StaleTTL e ->
  cache.TTL e + cache.StaleTTL e <= int64_max ->
  (cache.StaleButValid e t = true
     <-> t < cache.StoredAt e + cache.TTL e + cache.StaleTTL e)
  /\ (cache.Fresh e t = true -> cache.StaleButValid e t = true)
  /\ (cache.Fresh e t = false ->
      (cache.StaleButValid e t = true
         <-> cache.StoredAt e + cache.TTL e <= t
             < cache.StoredAt e + cache.TTL e + cache.StaleTTL e)).
Proof.
  intros Httl Hstale Hsum.
  assert (Hr : in_int64 (cache.TTL e + cache.StaleTTL e)).
  { unfold in_int64, int64_min, int64_max in *. lia. }
  pose proof (StaleButValid_iff e t Hr) as Hs.
  pose proof (Fresh_iff e t) as Hf.
  split; [exact Hs |]. split.
  - intros Hfresh. apply Hs. apply Hf in Hfresh. lia.
  - intros Hnot. rewrite Hs.
    assert (~ t < cache.StoredAt e + cache.TTL e) as Hge.
    { intros Hlt. apply Hf in Hlt. congruence. }
    lia.
Qed.

(** The statement above for [entry_10_5], read at instant 12, inside its
    stale window. *)
Lemma StaleButValid_is_upper_bound_witness :
  (0 <= cache.TTL entry_10_5 /\ 0 <= cache.StaleTTL entry_10_5
   /\ cache.TTL entry_10_5 + cache.StaleTTL entry_10_5 <= int64_max)
  /\ (cache.StaleButValid entry_10_5 12 = true <-> 12 < 0 + 10 + 5)
  /\ (cache.Fresh entry_10_5 12 = true -> cache.StaleButValid entry_10_5 12 = true)
  /\ (cache.Fresh entry_10_5 12 = false ->
      (cache.StaleButValid entry_10_5 12 = true <-> 0 + 10 <= 12 < 0 + 10 + 5)).
Proof.
  split.
  - cbn. unfold int64_max. lia.
  - apply (StaleButValid_is_upper_bound entry_10_5 12); cbn; unfold int64_max; lia.
Defined.

(** ** The LRU container *)

Lemma In_firstn {A : Type} (n : nat) (l : list A) (x : A) :
  In x (firstn n l) -> In x l.
Proof.
  intros H. rewrite <- (firstn_skipn n l). apply in_or_app. left. exact H.
Qed.

Section lru_facts.

Context {V : Type}.
Implicit Types (c : lru.Cache V) (l : list (string * V)) (k key : string).

Lemma find_None l key : lru.find key l = None <-> ~ In key (map fst l).
Proof.
  induction l as [| [k v] l IH]; cbn.
  - tauto.
  - destruct (String.eqb k key) eqn:E.
    + apply String.eqb_eq in E. split; [discriminate | intros H; exfalso; auto].
    + apply String.eqb_neq in E. rewrite IH. tauto.
Qed.

Lemma find_Some_In l key v : lru.find key l = Some v -> In key (map fst l).
Proof.
  intros H. destruct (in_dec string_dec key (map fst l)) as [Hin | Hout]; [exact Hin |].
  apply find_None in Hout. congruence.
Qed.

Lemma map_fst_removelast l : map fst (removelast l) = removelast (map fst l).
Proof.
  induction l as [| a [| b l] IH]; [reflexivity | reflexivity |].
  change (removelast (a :: b :: l)) with (a :: removelast (b :: l)).
  cbn [map]. rewrite IH. reflexivity.
Qed.

Lemma find_head l key v : lru.find key ((key, v) :: l) = Some v.
Proof. cbn [lru.find]. rewrite String.eqb_refl. reflexivity. Qed.

(** After [Add] the key is bound to the value just given. *)
Lemma Peek_Add c key v : 0 < lru.size c -> lru.Peek (lru.Add c key v) key = Some v.
Proof.
  intros Hsz. unfold lru.Peek, lru.Add.
  destruct (lru.find key (lru.items c)) eqn:E; cbn [lru.items].
  - apply find_head.
  - destruct (lru.items c) as [| b l] eqn:El.
    + destruct (Z.gtb_spec (Z.of_nat (length [(key, v)])) (lru.size c)) as [G | G];
        cbn [lru.items].
      * cbn [length] in G. lia.
      * apply find_head.
    + destruct (_ >? _); cbn [lru.items].
      * change (removelast ((key, v) :: b :: l)) with ((key, v) :: removelast (b :: l)).
        apply find_head.
      * apply find_head.
Qed.

Lemma size_Add c key v : lru.size (lru.Add c key v) = lru.size c.
Proof.
  unfold lru.Add. destruct (lru.find _ _); [reflexivity |].
  destruct (_ >? _); reflexivity.
Qed.

(** Adding a key that is not bound keeps the newest [size] keys. *)
Lemma Keys_Add_new c key v (older : list string) :
  0 < lru.size c ->
  ~ In key older ->
  lru.Keys c = firstn (Z.to_nat (lru.size c)) older ->
  lru.Keys (lru.Add c key v) = firstn (Z.to_nat (lru.size c)) (key :: older).
Proof.
  intros Hsz Hnew Hkeys.
  assert (Hfind : lru.find key (lru.items c) = None).
  { apply find_None. fold (lru.Keys c). rewrite Hkeys.
    intros Hin. apply Hnew. eapply In_firstn; eauto. }
  unfold lru.Add. rewrite Hfind.
  set (n := Z.to_nat (lru.size c)) in *.
  assert (Hn : (0 < n)%nat) by lia.
  assert (Hlen : length (lru.items c) = length (firstn n older)).
  { rewrite <- Hkeys. unfold lru.Keys. rewrite length_map. reflexivity. }
  rewrite length_firstn in Hlen.
  destruct (Z.gtb_spec (Z.of_nat (length ((key, v) :: lru.items c))) (lru.size c)) as [G | G];
    unfold lru.Keys; cbn [lru.items length] in *.
  - rewrite map_fst_removelast. cbn [map fst]. fold (lru.Keys c). rewrite Hkeys.
    assert (Hfull : (n <= length older)%nat) by lia.
    destruct n as [| m]; [lia |].
    change (key :: firstn (S m) older) with (firstn (S (S m)) (key :: older)).
    rewrite removelast_firstn; [reflexivity | cbn; lia].
  - cbn [map fst]. fold (lru.Keys c). rewrite Hkeys.
    assert (Hshort : (length older < n)%nat) by lia.
    destruct n as [| m]; [lia |]. cbn [firstn]. f_equal.
    rewrite !firstn_all2 by lia. reflexivity.
Qed.

(** A run of [Add] on fresh, pairwise distinct keys leaves the newest
    [size] of all keys seen so far, newest first. *)
Lemma Keys_addAll (ops : list (string * V)) : forall c (seen : list string),
  0 < lru.size c ->
  lru.Keys c = firstn (Z.to_nat (lru.size c)) (rev seen) ->
  List.NoDup (seen ++ map fst ops) ->
  lru.size (addAll c ops) = lru.size c
  /\ lru.Keys (addAll c ops)
     = firstn (Z.to_nat (lru.size c)) (rev (seen ++ map fst ops)).
Proof.
  induction ops as [| [k v] ops IH]; intros c seen Hsz Hkeys Hnd.
  - cbn. rewrite app_nil_r. auto.
  - cbn [addAll fold_left map fst snd] in *.
    assert (Hk : ~ In k (rev seen)).
    { rewrite <- in_rev. apply NoDup_remove_2 in Hnd.
      intros Hin. apply Hnd. apply in_or_app. auto. }
    pose proof (Keys_Add_new c k v (rev seen) Hsz Hk Hkeys) as Hstep.
    specialize (IH (lru.Add c k v) (seen ++ [k])%list).
    rewrite size_Add in IH.
    rewrite rev_app_distr in IH. cbn [rev app] in IH.
    rewrite <- app_assoc in IH. cbn [app] in IH.
    apply IH; auto.
Qed.

Lemma find_remove_ne l key k : k <> key -> lru.find k (lru.remove key l) = lru.find k l.
Proof.
  intros Hne. induction l as [| [k0 v0] l IH]; [reflexivity |].
  cbn [lru.remove lru.find].
  destruct (String.eqb_spec k0 key) as [-> | Hk0].
  - rewrite IH. destruct (String.eqb_spec key k) as [<- | _]; [contradiction | reflexivity].
  - cbn [lru.find]. rewrite IH. reflexivity.
Qed.

(** Moving a binding to the front changes no lookup. *)
Lemma find_promote l key v k :
  lru.find key l = Some v -> lru.find k ((key, v) :: lru.remove key l) = lru.find k l.
Proof.
  intros Hfind. cbn [lru.find].
  destruct (String.eqb_spec key k) as [<- | Hne]; [symmetry; exact Hfind |].
  apply find_remove_ne. congruence.
Qed.

Lemma Peek_Get c key k : lru.Peek (snd (lru.Get c key)) k = lru.Peek c k.
Proof.
  unfold lru.Peek, lru.Get.
  destruct (lru.find key (lru.items c)) as [v |] eqn:E; [| reflexivity].
  cbn [snd lru.items]. apply find_promote. exact E.
Qed.

Lemma Get_fst_Peek c key : fst (lru.Get c key) = lru.Peek c key.
Proof.
  unfold lru.Peek, lru.Get. destruct (lru.find key (lru.items c)); reflexivity.
Qed.

Lemma size_Get c key : lru.size (snd (lru.Get c key)) = lru.size c.
Proof. unfold lru.Get. destruct (lru.find key (lru.items c)); reflexivity. Qed.

Lemma find_removelast l k v :
  lru.find k (removelast l) = Some v -> lru.find k l = Some v.
Proof.
  induction l as [| [k0 v0] [| b l] IH]; [discriminate | discriminate |].
  change (removelast ((k0, v0) :: b :: l)) with ((k0, v0) :: removelast (b :: l)).
  cbn [lru.find] in *. destruct (String.eqb k0 k); [auto | exact IH].
Qed.

(** A binding found under another key after [Add] was there before. *)
Lemma Peek_Add_ne c key v k q :
  k <> key -> lru.Peek (lru.Add c key v) k = Some q -> lru.Peek c k = Some q.
Proof.
  intros Hne. unfold lru.Peek, lru.Add.
  assert (Hhead : forall l, lru.find k ((key, v) :: l) = lru.find k l).
  { intros l. cbn [lru.find].
    destruct (String.eqb_spec key k) as [<- | _]; [contradiction | reflexivity]. }
  destruct (lru.find key (lru.items c)) eqn:E; cbn [lru.items].
  - rewrite Hhead, find_remove_ne by exact Hne. auto.
  - destruct (_ >? _); cbn [lru.items].
    + intros H. apply find_removelast in H. rewrite Hhead in H. exact H.
    + rewrite Hhead. auto.
Qed.

End lru_facts.

Lemma NoDup_app_disjoint {A : Type} (l1 l2 : list A) (x : A) :
  List.NoDup (l1 ++ l2) -> In x l1 -> ~ In x l2.
Proof.
  induction l1 as [| a l1 IH]; cbn; intros Hnd Hin; [contradiction |].
  inversion Hnd as [| ? ? Hnotin Hnd']; subst.
  destruct Hin as [-> | Hin].
  - intros Hx. apply Hnotin. apply in_or_app. auto.
  - apply IH; assumption.
Qed.

(** The newest [n] of a list of [n] or more keys, seen from both ends. *)
Lemma firstn_rev_skipn {A : Type} (n : nat) (l : list A) :
  (n <= length l)%nat ->
  firstn n (rev l) = rev (skipn (length l - n) l).
Proof.
  intros Hn.
  rewrite <- (firstn_skipn (length l - n) l) at 1.
  rewrite rev_app_distr.
  assert (Hlen : length (rev (skipn (length l - n) l)) = n).
  { rewrite length_rev, length_skipn. lia. }
  rewrite firstn_app, Hlen, Nat.sub_diag, firstn_O, app_nil_r.
  apply firstn_all2. lia.
Qed.

(** ** The cache wrapper *)

Section cache_facts.

Implicit Types (c : cache.Cache) (h : cache.Heap) (p : cache.loc) (key k : string).

Lemma Get_fst c key : fst (cache.Get c key) = cached c key.
Proof.
  unfold cache.Get, cached, lru.Peek, lru.Get.
  destruct (lru.find key (lru.items (cache.lru c))); reflexivity.
Qed.

Lemma setAll_lru (ops : list (string * cache.loc)) : forall c h,
  cache.lru (fst (setAll c h ops)) = addAll (cache.lru c) ops
  /\ cache.cap (fst (setAll c h ops)) = cache.cap c.
Proof.
  induction ops as [| [k p] ops IH]; intros c h; [split; reflexivity |].
  unfold setAll, addAll in *. cbn [fold_left fst snd].
  unfold cache.Set_ at 2. cbn [fst snd].
  specialize (IH {| cache.lru := lru.Add (cache.lru c) k p; cache.ttl := cache.ttl c;
                    cache.stale := cache.stale c; cache.cap := cache.cap c |}
                 (alter (cache.defaults c) p h)).
  exact IH.
Qed.

End cache_facts.

(** C9: starting from a new cache of capacity [Capacity], after [Set] on
    [N > Capacity] pairwise distinct keys and nothing else, [Stats]
    reports size [Capacity], and among the keys set the absent ones are
    exactly the first [N - Capacity], the least recently set; no other
    key is present. *)
Theorem Set_beyond_capacity_evicts_oldest
    (capacity : Z) (ttl stale : time.Duration) (c : cache.Cache) (h : cache.Heap)
    (ops : list (string * cache.loc)) :
  cache.New capacity ttl stale = Some c ->
  List.NoDup (map fst ops) ->
  capacity < Z.of_nat (length ops) ->
  cache.Stats (fst (setAll c h ops)) = (capacity, capacity)
  /\ (forall k, In k (map fst ops) ->
        (fst (cache.Get (fst (setAll c h ops)) k) = None
         <-> In k (firstn (length ops - Z.to_nat capacity) (map fst ops))))
  /\ (forall k, ~ In k (map fst ops) ->
        fst (cache.Get (fst (setAll c h ops)) k) = None).
Proof.
  intros Hnew Hnd Hlen.
  unfold cache.New, lru.New in Hnew.
  destruct (Z.leb_spec capacity 0) as [Hle | Hpos]; [discriminate |].
  injection Hnew as <-.
  set (c0 := {| cache.lru := _ |}).
  destruct (setAll_lru ops c0 h) as [Hlru Hcap].
  set (c' := fst (setAll c0 h ops)) in *.
  set (keys := map fst ops) in *.
  set (n := Z.to_nat capacity).
  assert (Hkn : (n <= length keys)%nat).
  { unfold keys. rewrite length_map. lia. }
  assert (Hinit : lru.Keys (cache.lru c0)
                  = firstn (Z.to_nat (lru.size (cache.lru c0))) (rev [])).
  { cbn [rev]. rewrite firstn_nil. reflexivity. }
  destruct (Keys_addAll ops (cache.lru c0) [] Hpos Hinit Hnd) as [Hsz Hkeys].
  rewrite <- Hlru in Hsz, Hkeys. cbn [app cache.lru c0 lru.size] in Hsz, Hkeys.
  fold keys n in Hkeys.
  rewrite (firstn_rev_skipn n keys Hkn) in Hkeys.
  assert (Habsent : forall k, fst (cache.Get c' k) = None
                              <-> ~ In k (skipn (length keys - n) keys)).
  { intros k. rewrite Get_fst. unfold cached, lru.Peek.
    rewrite find_None. fold (lru.Keys (cache.lru c')). rewrite Hkeys.
    rewrite <- in_rev. reflexivity. }
  split; [| split].
  - unfold cache.Stats. rewrite Hcap. cbn [cache.cap c0]. f_equal.
    unfold lru.Len. rewrite <- (length_map fst). fold (lru.Keys (cache.lru c')).
    rewrite Hkeys, length_rev, length_skipn. lia.
  - intros k Hin. rewrite Habsent.
    assert (Hn : (length ops - n = length keys - n)%nat).
    { unfold keys. rewrite length_map. reflexivity. }
    rewrite Hn.
    pose proof (firstn_skipn (length keys - n) keys) as Hsplit.
    split.
    + intros Hout. rewrite <- Hsplit in Hin. apply in_app_or in Hin. tauto.
    + intros Hfirst. rewrite <- Hsplit in Hnd.
      eapply NoDup_app_disjoint; eauto.
  - intros k Hout. apply Habsent. intros Hin. apply Hout.
    rewrite <- (firstn_skipn (length keys - n) keys). apply in_or_app. auto.
Qed.

(** C10: [Set] writes through the caller's pointer. The record behind
    [entry] gets the cache's default [TTL] when its [TTL] is exactly 0 and
    the default [StaleTTL] when its [StaleTTL] is exactly 0, nothing else
    changes in it or in any other record, and the cache then holds that
    very pointer under [key]; a negative [TTL] stays as it is. *)
Theorem Set_writes_defaults_through_pointer
    (c : cache.Cache) (key : string) (p : cache.loc) (h : cache.Heap) (e : cache.Entry) :
  h !! p = Some e ->
  0 < lru.size (cache.lru c) ->
  exists e' : cache.Entry,
    snd (cache.Set_ c key p h) !! p = Some e'
    /\ cache.TTL e' = (if cache.TTL e =? 0 then cache.ttl c else cache.TTL e)
    /\ cache.StaleTTL e'
       = (if cache.StaleTTL e =? 0 then cache.stale c else cache.StaleTTL e)
    /\ (cache.Body e', cache.Header e', cache.Status e', cache.StoredAt e',
        cache.Size e', cache.ETag e', cache.LastModified e')
       = (cache.Body e, cache.Header e, cache.Status e, cache.StoredAt e,
          cache.Size e, cache.ETag e, cache.LastModified e)
    /\ fst (cache.Get (fst (cache.Set_ c key p h)) key) = Some p
    /\ (forall q : cache.loc, q <> p -> snd (cache.Set_ c key p h) !! q = h !! q)
    /\ (cache.TTL e < 0 -> cache.TTL e' = cache.TTL e).
Proof.
  intros Hp Hsz. exists (cache.defaults c e).
  unfold cache.Set_. cbn [fst snd].
  split; [rewrite lookup_alter_eq, Hp; reflexivity |].
  assert (Hfields :
    cache.TTL (cache.defaults c e) = (if cache.TTL e =? 0 then cache.ttl c else cache.TTL e)
    /\ cache.StaleTTL (cache.defaults c e)
       = (if cache.StaleTTL e =? 0 then cache.stale c else cache.StaleTTL e)
    /\ (cache.Body (cache.defaults c e), cache.Header (cache.defaults c e),
        cache.Status (cache.defaults c e), cache.StoredAt (cache.defaults c e),
        cache.Size (cache.defaults c e), cache.ETag (cache.defaults c e),
        cache.LastModified (cache.defaults c e))
       = (cache.Body e, cache.Header e, cache.Status e, cache.StoredAt e,
          cache.Size e, cache.ETag e, cache.LastModified e)).
  { unfold cache.defaults.
    destruct (cache.TTL e =? 0) eqn:Ettl; cbn;
      destruct (cache.StaleTTL e =? 0) eqn:Estale; cbn; rewrite ?Ettl; auto. }
  destruct Hfields as (Httl & Hstale & Hrest).
  repeat split; try assumption.
  - rewrite Get_fst. unfold cached. cbn [cache.lru]. apply Peek_Add. exact Hsz.
  - intros q Hq. apply lookup_alter_ne. congruence.
  - intros Hneg. rewrite Httl.
    destruct (Z.eqb_spec (cache.TTL e) 0); [lia | reflexivity].
Qed.

(** The statement above for three keys set on a new cache of capacity 2:
    [a] is evicted, [b] and [c] stay. *)
Lemma Set_beyond_capacity_evicts_oldest_witness :
  (cache.New 2 (300 * time.Second) (120 * time.Second) = Some cache2
   /\ List.NoDup (map fst ops_abc)
   /\ 2 < Z.of_nat (length ops_abc))
  /\ cache.Stats (fst (setAll cache2 ∅ ops_abc)) = (2, 2)
  /\ (forall k, In k (map fst ops_abc) ->
        (fst (cache.Get (fst (setAll cache2 ∅ ops_abc)) k) = None
         <-> In k (firstn (length ops_abc - Z.to_nat 2) (map fst ops_abc))))
  /\ (forall k, ~ In k (map fst ops_abc) ->
        fst (cache.Get (fst (setAll cache2 ∅ ops_abc)) k) = None).
Proof.
  assert (Hnd : List.NoDup (map fst ops_abc)).
  { cbn. repeat constructor; cbn; intuition discriminate. }
  split.
  - split; [reflexivity | split; [exact Hnd | cbn; lia]].
  - apply (Set_beyond_capacity_evicts_oldest 2 (300 * time.Second) (120 * time.Second)
             cache2 ∅ ops_abc);
      [reflexivity | exact Hnd | cbn; lia].
Defined.

(** The statement above for a record with both durations unset, handed
    to a new cache. *)
Lemma Set_writes_defaults_through_pointer_witness :
  (heap_unset !! 1%positive = Some entry_unset
   /\ 0 < lru.size (cache.lru cache2))
  /\ exists e' : cache.Entry,
       snd (cache.Set_ cache2 "a" 1%positive heap_unset) !! 1%positive = Some e'
       /\ cache.TTL e' = (if cache.TTL entry_unset =? 0 then cache.ttl cache2
                          else cache.TTL entry_unset)
       /\ cache.StaleTTL e' = (if cache.StaleTTL entry_unset =? 0 then cache.stale cache2
                               else cache.StaleTTL entry_unset)
       /\ (cache.Body e', cache.Header e', cache.Status e', cache.StoredAt e',
           cache.Size e', cache.ETag e', cache.LastModified e')
          = (cache.Body entry_unset, cache.Header entry_unset, cache.Status entry_unset,
             cache.StoredAt entry_unset, cache.Size entry_unset, cache.ETag entry_unset,
             cache.LastModified entry_unset)
       /\ fst (cache.Get (fst (cache.Set_ cache2 "a" 1%positive heap_unset)) "a")
          = Some 1%positive
       /\ (forall q : cache.loc, q <> 1%positive ->
             snd (cache.Set_ cache2 "a" 1%positive heap_unset) !! q = heap_unset !! q)
       /\ (cache.TTL entry_unset < 0 -> cache.TTL e' = cache.TTL entry_unset).
Proof.
  split.
  - split; [reflexivity | cbn; lia].
  - apply (Set_writes_defaults_through_pointer cache2 "a" 1%positive heap_unset entry_unset);
      [reflexivity | cbn; lia].
Defined.

(** ** Package [strings] *)

Section string_facts.

Implicit Types (s p sub pre post : string) (c : ascii).

Lemma append_cons c s1 s2 : String c s1 ++ s2 = String c (s1 ++ s2).
Proof. reflexivity. Qed.

Lemma append_nil_l s : "" ++ s = s.
Proof. reflexivity. Qed.

Lemma append_nil_r s : s ++ "" = s.
Proof.
  induction s as [| c s IH]; [reflexivity |].
  rewrite append_cons, IH. reflexivity.
Qed.

Lemma append_assoc s1 s2 s3 : (s1 ++ s2) ++ s3 = s1 ++ s2 ++ s3.
Proof.
  induction s1 as [| c s1 IH]; [reflexivity |].
  rewrite !append_cons, IH. reflexivity.
Qed.

Lemma append_eq_nil s1 s2 : s1 ++ s2 = "" -> s1 = "" /\ s2 = "".
Proof.
  destruct s1; [rewrite append_nil_l; auto |].
  rewrite append_cons. discriminate.
Qed.

(** [CutPrefix] splits off exactly the prefix. *)
Lemma CutPrefix_Some s p r : strings.CutPrefix s p = Some r <-> s = p ++ r.
Proof.
  revert s. induction p as [| a p IH]; intros s; cbn.
  - split; [intros [= ->]; reflexivity | intros ->; reflexivity].
  - destruct s as [| b s]; [split; discriminate |].
    destruct (Ascii.eqb_spec a b) as [-> | Hne].
    + rewrite IH. split; [intros ->; reflexivity | intros [= ->]; reflexivity].
    + split; [discriminate | intros [= Hab _]; congruence].
Qed.

Lemma CutPrefix_app p r : strings.CutPrefix (p ++ r) p = Some r.
Proof. apply CutPrefix_Some. reflexivity. Qed.

(** [Contains] decides occurrence as a substring. *)
Lemma Contains_occursIn s sub : strings.Contains s sub = true <-> occursIn sub s.
Proof.
  induction s as [| c s IH]; cbn [strings.Contains].
  - destruct (strings.CutPrefix "" sub) as [r |] eqn:E.
    + apply CutPrefix_Some in E. split; [| reflexivity].
      intros _. exists "", r. exact E.
    + split; [discriminate |]. intros (pre & post & H).
      symmetry in H. apply append_eq_nil in H as [-> H].
      apply append_eq_nil in H as [-> ->]. discriminate E.
  - destruct (strings.CutPrefix (String c s) sub) as [r |] eqn:E.
    + apply CutPrefix_Some in E. split; [| reflexivity].
      intros _. exists "", r. exact E.
    + rewrite IH. split.
      * intros (pre & post & ->). exists (String c pre), post. reflexivity.
      * intros (pre & post & H). destruct pre as [| c' pre].
        -- rewrite append_nil_l in H. apply CutPrefix_Some in H. congruence.
        -- rewrite append_cons in H. injection H as _ ->. exists pre, post. reflexivity.
Qed.

Lemma Contains_false s sub : strings.Contains s sub = false <-> ~ occursIn sub s.
Proof.
  rewrite <- Contains_occursIn. destruct (strings.Contains s sub); split; congruence.
Qed.

Lemma ToLower_app s1 s2 :
  strings.ToLower (s1 ++ s2) = strings.ToLower s1 ++ strings.ToLower s2.
Proof.
  induction s1 as [| c s1 IH]; [reflexivity |].
  rewrite append_cons. cbn [strings.ToLower]. rewrite append_cons, IH. reflexivity.
Qed.

Lemma eqb_false_iff (a b : string) : String.eqb a b = false <-> a <> b.
Proof. apply String.eqb_neq. Qed.

(** The first piece of a split is a prefix of the string. *)
Lemma Split_head s c piece rest :
  strings.Split s c = piece :: rest -> exists post, s = piece ++ post.
Proof.
  revert piece rest. induction s as [| a s IH]; intros piece rest; cbn.
  - intros [= <- _]. exists "". reflexivity.
  - destruct (Ascii.eqb a c).
    + intros [= <- _]. exists (String a s). reflexivity.
    + destruct (strings.Split s c) as [| q qs] eqn:E.
      * intros [= <- _]. exists s. reflexivity.
      * intros [= <- _]. destruct (IH q qs eq_refl) as [post ->].
        exists post. reflexivity.
Qed.

(** Every piece of a split occurs in the string. *)
Lemma Split_occursIn s c piece :
  In piece (strings.Split s c) -> occursIn piece s.
Proof.
  revert piece. induction s as [| a s IH]; intros piece; cbn.
  - intros [<- | []]. exists "", "". reflexivity.
  - destruct (Ascii.eqb a c).
    + intros [<- | Hin].
      * exists "", (String a s). reflexivity.
      * destruct (IH _ Hin) as (pre & post & ->).
        exists (String a pre), post. reflexivity.
    + destruct (strings.Split s c) as [| q qs] eqn:E.
      * intros [<- | []]. exists "", s. reflexivity.
      * intros [<- | Hin].
        -- destruct (Split_head s c q qs E) as [post ->].
           exists "", post. reflexivity.
        -- destruct (IH piece (or_intror Hin)) as (pre & post & ->).
           exists (String a pre), post. reflexivity.
Qed.

Lemma length_append s1 s2 :
  String.length (s1 ++ s2) = (String.length s1 + String.length s2)%nat.
Proof.
  induction s1 as [| c s1 IH]; [reflexivity |].
  rewrite append_cons. cbn [String.length]. rewrite IH. reflexivity.
Qed.

Lemma length_ToLower s : String.length (strings.ToLower s) = String.length s.
Proof. induction s as [| c s IH]; cbn; [reflexivity | rewrite IH; reflexivity]. Qed.

Lemma TrimLeftSpace_suffix s : exists pre, s = pre ++ strings.TrimLeftSpace s.
Proof.
  induction s as [| c s [pre IH]]; [exists ""; reflexivity |].
  cbn [strings.TrimLeftSpace]. destruct (strings.isSpace c).
  - exists (String c pre). rewrite append_cons, <- IH. reflexivity.
  - exists "". reflexivity.
Qed.

Lemma TrimRightSpace_prefix s : exists post, s = strings.TrimRightSpace s ++ post.
Proof.
  induction s as [| c s [post IH]]; [exists ""; reflexivity |].
  cbn [strings.TrimRightSpace]. destruct (strings.TrimRightSpace s) as [| c' t] eqn:E.
  - destruct (strings.isSpace c).
    + exists (String c s). reflexivity.
    + exists post. rewrite append_cons, <- IH. reflexivity.
  - exists post. rewrite append_cons, <- IH. reflexivity.
Qed.

(** Trimming that removes nothing returns the string itself. *)
Lemma TrimSpace_same_length s :
  String.length (strings.TrimSpace s) = String.length s -> strings.TrimSpace s = s.
Proof.
  unfold strings.TrimSpace.
  destruct (TrimLeftSpace_suffix s) as [pre Hpre].
  destruct (TrimRightSpace_prefix (strings.TrimLeftSpace s)) as [post Hpost].
  set (t := strings.TrimRightSpace (strings.TrimLeftSpace s)) in *.
  intros Hlen.
  assert (Hs : s = pre ++ t ++ post) by (rewrite <- Hpost; exact Hpre).
  rewrite Hs in Hlen. rewrite !length_append in Hlen.
  destruct pre; [| cbn [String.length] in Hlen; lia].
  destruct post; [| cbn [String.length] in Hlen; lia].
  rewrite Hs, append_nil_l, append_nil_r. reflexivity.
Qed.

End string_facts.

(** ** Policy helpers *)

(** C6, as stated, fails: the source matches substrings, not directives.
    For [Cache-Control: no-cacheable] token membership finds neither
    [no-cache] nor [max-age=0], yet [shouldUseCache] answers [false]. *)
Lemma shouldUseCache_is_not_token_membership :
  ~ (server.shouldUseCache req_no_cacheable = true
     <-> shouldUseCache_by_tokens req_no_cacheable = true).
Proof.
  assert (Hcode : server.shouldUseCache req_no_cacheable = false) by reflexivity.
  assert (Hspec : shouldUseCache_by_tokens req_no_cacheable = true) by reflexivity.
  intros [_ H]. specialize (H Hspec). congruence.
Qed.

(** C6, amended: [shouldUseCache(req)] is true if and only if the method
    is GET, the [Range] header is absent or empty, the lower-cased
    [Cache-Control] value contains neither [no-cache] nor [max-age=0] as
    a substring, and the lower-cased [Pragma] value does not contain
    [no-cache] as a substring. *)
Theorem shouldUseCache_iff_no_substring (r : http.Request) :
  server.shouldUseCache r = true
  <-> http.Method r = "GET"
      /\ http.Get (http.ReqHeader r) "Range" = ""
      /\ ~ occursIn "no-cache" (strings.ToLower (http.Get (http.ReqHeader r) "Cache-Control"))
      /\ ~ occursIn "max-age=0" (strings.ToLower (http.Get (http.ReqHeader r) "Cache-Control"))
      /\ ~ occursIn "no-cache" (strings.ToLower (http.Get (http.ReqHeader r) "Pragma")).
Proof.
  unfold server.shouldUseCache, http.MethodGet.
  rewrite <- !Contains_false.
  destruct (String.eqb_spec (http.Method r) "GET") as [Hm | Hm]; cbn [negb];
    [| split; [discriminate | tauto]].
  destruct (String.eqb_spec (http.Get (http.ReqHeader r) "Range") "") as [Hr | Hr];
    cbn [negb]; [| split; [discriminate | tauto]].
  set (cc := strings.ToLower (http.Get (http.ReqHeader r) "Cache-Control")).
  set (pragma := strings.ToLower (http.Get (http.ReqHeader r) "Pragma")).
  destruct (strings.Contains cc "no-cache") eqn:E1; cbn [orb];
    [split; [discriminate | intros (_ & _ & ? & _); discriminate] |].
  destruct (strings.Contains cc "max-age=0") eqn:E2;
    [split; [discriminate | intros (_ & _ & _ & ? & _); discriminate] |].
  destruct (strings.Contains pragma "no-cache") eqn:E3;
    [split; [discriminate | intros (_ & _ & _ & _ & ?); discriminate] |].
  split; [intros _; repeat split; auto | reflexivity].
Qed.

(** ** The admin token check *)

Lemma subtleConstantTimeEquals_true (a b : string) :
  server.subtleConstantTimeEquals a b = true -> a = b /\ a <> "".
Proof.
  unfold server.subtleConstantTimeEquals, strings.len.
  destruct a as [| c a]; [cbn; discriminate |].
  destruct (_ || _); [discriminate |].
  destruct (negb _); [discriminate |].
  intros H. apply String.eqb_eq in H. split; [exact H | discriminate].
Qed.

(** What reaches the comparison when the token comes in [Authorization]:
    the lower-cased, trimmed rest of the header, whatever the case of
    the scheme word. *)
Lemma checkToken_bearer_compares_lowered
    (r : http.Request) (expected scheme tok : string) :
  http.Get (http.ReqHeader r) "X-Auth-Token" = "" ->
  http.Get (http.ReqHeader r) "Authorization" = scheme ++ " " ++ tok ->
  strings.ToLower scheme = "bearer" ->
  server.checkToken r expected = true ->
  expected = ""
  \/ expected = strings.TrimSpace (strings.ToLower tok)
  \/ (strings.TrimSpace (strings.ToLower tok) = ""
      /\ expected = http.Get (http.Query r) "token").
Proof.
  intros Hx Hauth Hscheme. unfold server.checkToken.
  destruct (String.eqb_spec expected "") as [-> | Hne]; [auto |].
  rewrite Hx, Hauth. cbn [String.eqb].
  rewrite !ToLower_app, Hscheme.
  change ("bearer" ++ strings.ToLower " " ++ strings.ToLower tok)
    with ("bearer " ++ strings.ToLower tok).
  rewrite CutPrefix_app.
  destruct (String.eqb_spec (strings.TrimSpace (strings.ToLower tok)) "") as [He | He].
  - intros H. apply subtleConstantTimeEquals_true in H as [H _]. auto.
  - intros H. apply subtleConstantTimeEquals_true in H as [H _]. auto.
Qed.

(** Whenever the configured token changes under lower-casing, that is,
    contains an upper-case letter, sending it verbatim as a bearer token
    is rejected. *)
Lemma checkToken_rejects_bearer_token_with_capitals
    (r : http.Request) (scheme tok : string) :
  http.Get (http.ReqHeader r) "X-Auth-Token" = "" ->
  http.Get (http.ReqHeader r) "Authorization" = scheme ++ " " ++ tok ->
  strings.ToLower scheme = "bearer" ->
  http.Get (http.Query r) "token" = "" ->
  strings.ToLower tok <> tok ->
  server.checkToken r tok = false.
Proof.
  intros Hx Hauth Hscheme Hquery Hcaps.
  destruct (server.checkToken r tok) eqn:E; [exfalso | reflexivity].
  apply (checkToken_bearer_compares_lowered r tok scheme tok Hx Hauth Hscheme)
    in E as [-> | [Heq | [_ ->]]].
  - apply Hcaps. reflexivity.
  - apply Hcaps. rewrite <- (TrimSpace_same_length (strings.ToLower tok)).
    + symmetry. exact Heq.
    + rewrite <- Heq. symmetry. apply length_ToLower.
  - rewrite Hquery in Hcaps. apply Hcaps. reflexivity.
Qed.

(** A token that is its own lower-case form and has no white space at
    its ends is accepted as a bearer token, whatever the letter case of
    the scheme word. *)
Lemma checkToken_accepts_lowercase_bearer_token
    (r : http.Request) (scheme tok : string) :
  http.Get (http.ReqHeader r) "X-Auth-Token" = "" ->
  http.Get (http.ReqHeader r) "Authorization" = scheme ++ " " ++ tok ->
  strings.ToLower scheme = "bearer" ->
  tok <> "" -> strings.ToLower tok = tok -> strings.TrimSpace tok = tok ->
  server.checkToken r tok = true.
Proof.
  intros Hx Hauth Hscheme Hne Hlow Htrim. unfold server.checkToken.
  apply String.eqb_neq in Hne. rewrite Hne, Hx, Hauth. cbn [String.eqb].
  rewrite !ToLower_app, Hscheme.
  change ("bearer" ++ strings.ToLower " " ++ strings.ToLower tok)
    with ("bearer " ++ strings.ToLower tok).
  rewrite CutPrefix_app, Hlow, Htrim, Hne.
  unfold server.subtleConstantTimeEquals, strings.len.
  destruct tok as [| c tok]; [discriminate |].
  cbn [String.length]. rewrite Z.eqb_refl, String.eqb_refl.
  destruct (Z.eqb_spec (Z.of_nat (S (String.length tok))) 0); [lia | reflexivity].
Qed.

(** C3, at the failing input: with the configured token [Secret] and no
    [X-Auth-Token], the header [Authorization: Bearer Secret] is
    rejected, because the whole header value is lower-cased before the
    scheme is cut off; the same token in [X-Auth-Token] is accepted. *)
Theorem checkToken_rejects_verbatim_bearer_token :
  server.checkToken req_bearer_Secret "Secret" = false
  /\ server.checkToken req_bearer_Secret "secret" = true
  /\ server.checkToken req_xauth_Secret "Secret" = true.
Proof. repeat split; reflexivity. Qed.

(** Behind [authMiddleware] the same request never reaches the admin
    handler: it is answered 401. *)
Example bearer_Secret_is_unauthorized (next : http.Request -> http.ResponseWriter) :
  http.status (server.authMiddleware (serverOf 16 (originOf (inr s3.OtherError)))
                 next req_bearer_Secret)
  = 401.
Proof. reflexivity. Qed.

(** ** The object handler: admission control *)

Section handler_facts.

Variable ParseHTTPTime : string -> option time.Time.
Variable FormatHTTPTime : time.Time -> string.

Local Abbreviation consult := (server.consult).
Local Abbreviation objectHandler := (server.objectHandler ParseHTTPTime FormatHTTPTime).



Lemma other_method_405 (s : server.Server) (r : http.Request) (now : time.Time) :
  objectKey r <> "" -> ~ occursIn ".." (objectKey r) ->
  http.Method r <> "GET" -> http.Method r <> "HEAD" ->
  answers (objectHandler s r now) 405 s.
Proof.
  unfold objectKey. intros Hk Hdd Hget Hhead.
  apply Contains_false in Hdd. apply String.eqb_neq in Hk, Hget, Hhead.
  unfold server.objectHandler, consult, http.MethodGet, http.MethodHead.
  rewrite Hk, Hdd, Hget, Hhead.
  repeat split.
Qed.

End handler_facts.

(** The handler called directly answers a POST to the root path with
    404: its own method guard comes last. The router never hands it such
    a request. *)
Lemma direct_call_checks_empty_path_first :
  http.status (server.writer (server.objectHandler noParse noFormat
    (serverOf 16 (originOf (inr s3.OtherError))) req_post_root 0)) = 404.
Proof. reflexivity. Qed.






(** ** The object handler: what happens to a delivered object *)

Section delivered.

Implicit Types (s : server.Server) (r : http.Request) (now : time.Time)
  (obj : origin.Object) (cond : origin.Conditional) (w : http.ResponseWriter).

Lemma probe_frame s (lookupCache : bool) (cKey : string) :
  server.cfg (snd (server.probe s lookupCache cKey)) = server.cfg s
  /\ server.heap (snd (server.probe s lookupCache cKey)) = server.heap s
  /\ server.origin (snd (server.probe s lookupCache cKey)) = server.origin s
  /\ lru.size (cache.lru (server.cache (snd (server.probe s lookupCache cKey))))
     = lru.size (cache.lru (server.cache s)).
Proof.
  unfold server.probe. destruct lookupCache; [| auto].
  unfold cache.Get, lru.Get.
  destruct (lru.find cKey (lru.items (cache.lru (server.cache s)))); cbn; auto.
Qed.

(** What the handler knows when it turns to the origin. *)
Lemma consult_Proceed s r now s1 (useCache : bool) (key : string)
    (entry : option cache.loc) :
  server.consult s r now = server.Proceed s1 useCache key entry ->
  key = objectKey r
  /\ useCache = server.shouldUseCache r
  /\ (http.Method r = "GET" \/ http.Method r = "HEAD")
  /\ server.cfg s1 = server.cfg s
  /\ server.heap s1 = server.heap s
  /\ lru.size (cache.lru (server.cache s1)) = lru.size (cache.lru (server.cache s)).
Proof.
  unfold server.consult, objectKey, http.MethodGet, http.MethodHead.
  destruct (String.eqb _ ""); [discriminate |].
  destruct (strings.Contains _ ".."); [discriminate |].
  destruct (String.eqb_spec (http.Method r) "GET") as [Hg | Hg];
    destruct (String.eqb_spec (http.Method r) "HEAD") as [Hh | Hh];
    cbn [negb andb]; try discriminate.
  all: match goal with
       | |- context [server.probe ?s0 ?l ?k] =>
           pose proof (probe_frame s0 l k) as (Hcfg & Hheap & _ & Hsize);
           destruct (server.probe s0 l k) as [e s'] eqn:Ep
       end; cbn [snd] in *.
  all: destruct e as [p |];
       [ destruct (cache.Fresh _ _); [discriminate |];
         destruct (_ && _); [discriminate |] | ];
       intros [= <- <- <- <-]; auto 10.
Qed.

Lemma shouldStore_true s (useCache : bool) (method : string) cond obj :
  server.shouldStore s useCache method cond obj = true
  <-> useCache = true
      /\ method = "GET"
      /\ origin.Range cond = ""
      /\ origin.StatusCode obj = 200
      /\ 0 < origin.ContentLength obj <= config.MaxObjectSize (server.cfg s)
      /\ server.hasNoStore (origin.Headers obj) = false.
Proof.
  unfold server.shouldStore, http.MethodGet, http.StatusOK.
  rewrite !andb_true_iff, negb_true_iff, !String.eqb_eq, Z.eqb_eq, Z.leb_le.
  rewrite Z.gtb_ltb, Z.ltb_lt. tauto.
Qed.

Lemma passThrough_after s w (method : string) obj (body : option io.Reader) :
  server.after (server.passThrough s w method obj body) = s
  /\ server.spawned (server.passThrough s w method obj body) = None.
Proof.
  unfold server.passThrough.
  destruct (String.eqb method http.MethodHead); [auto |].
  destruct body; auto.
Qed.

Lemma alloc_fresh (h : cache.Heap) (e : cache.Entry) :
  h !! fst (server.alloc h e) = None
  /\ snd (server.alloc h e) !! fst (server.alloc h e) = Some e.
Proof.
  unfold server.alloc. cbn [fst snd]. split.
  - apply not_elem_of_dom. apply is_fresh.
  - apply lookup_insert_eq.
Qed.

(** The handler either leaves the server as it found it or admits a
    record that did not exist. *)
Lemma serveObject_after s w r now (cKey : string) (useCache : bool)
    (method : string) cond obj :
  0 < lru.size (cache.lru (server.cache s)) ->
  (server.shouldStore s useCache method cond obj = true
   /\ bufferedWithinBudget s obj
   /\ admitted s (server.after (server.serveObject s w r now cKey useCache method cond obj)) cKey)
  \/ (~ (server.shouldStore s useCache method cond obj = true
         /\ bufferedWithinBudget s obj)
      /\ server.after (server.serveObject s w r now cKey useCache method cond obj) = s).
Proof.
  intros Hsz. unfold server.serveObject, bufferedWithinBudget.
  destruct (server.shouldStore s useCache method cond obj) eqn:Estore;
    [| right; split; [intros [? _]; discriminate | apply passThrough_after]].
  destruct (origin.Body obj) as [rd |] eqn:Ebody;
    [| right; split; [intros (_ & rd & ? & _); discriminate | reflexivity]].
  set (d := io.ReadAllLimit rd _).
  destruct (io.failed d) eqn:Efail.
  { right. split; [| reflexivity].
    intros (_ & rd' & [= <-] & Hf & _). fold d in Hf. congruence. }
  destruct (Z.gtb_spec (Z.of_nat (length (io.data d))) (config.MaxObjectSize (server.cfg s)))
    as [Hover | Hfit].
  { right. split; [| apply passThrough_after].
    intros (_ & rd' & [= <-] & _ & Hle). fold d in Hle. lia. }
  left. split; [reflexivity |]. split; [exists rd; auto |].
  pose proof (alloc_fresh (server.heap s) (server.newEntry s obj (io.data d) now))
    as [Hnone Hsome].
  destruct (server.alloc _ _) as [p h] eqn:Ealloc. cbn [fst snd] in *.
  unfold cache.Set_. cbv beta iota.
  cbn [server.after server.withCache server.heap server.cache].
  exists p, (cache.defaults (server.cache s) (server.newEntry s obj (io.data d) now)).
  split; [exact Hnone |]. split.
  - unfold server.withCache. cbn [server.heap].
    rewrite lookup_alter_eq, Hsome. reflexivity.
  - unfold cached, server.withCache. cbn [server.cache cache.lru].
    apply Peek_Add. exact Hsz.
Qed.

Lemma not_admitted_same s (key : string) : ~ admitted s s key.
Proof. intros (p & e & Hnone & Hsome & _). congruence. Qed.

Lemma probe_bindings s (lookupCache : bool) (cKey : string) :
  (forall k, cached (server.cache (snd (server.probe s lookupCache cKey))) k
             = cached (server.cache s) k)
  /\ (forall p, fst (server.probe s lookupCache cKey) = Some p ->
                cached (server.cache s) cKey = Some p).
Proof.
  unfold server.probe, cached. destruct lookupCache; [| split; [auto | discriminate]].
  unfold cache.Get.
  pose proof (Peek_Get (cache.lru (server.cache s)) cKey) as Hkeep.
  pose proof (Get_fst_Peek (cache.lru (server.cache s)) cKey) as Hfst.
  destruct (lru.Get (cache.lru (server.cache s)) cKey) as [e l].
  cbn [fst snd server.withCache server.cache cache.lru] in *.
  split; [exact Hkeep | intros p ->; auto].
Qed.

(** The cache consultation moves a key to the front at most: no binding
    and no record changes. *)
Lemma consult_Proceed_bindings s r now s1 (useCache : bool) (key : string)
    (entry : option cache.loc) :
  server.consult s r now = server.Proceed s1 useCache key entry ->
  (forall k, cached (server.cache s1) k = cached (server.cache s) k)
  /\ (forall p, entry = Some p -> cached (server.cache s1) (server.cacheKey key) = Some p).
Proof.
  unfold server.consult, http.MethodGet, http.MethodHead.
  destruct (String.eqb _ ""); [discriminate |].
  destruct (strings.Contains _ ".."); [discriminate |].
  destruct (negb _ && negb _); [discriminate |].
  match goal with
  | |- context [server.probe ?s0 ?l ?k] =>
      pose proof (probe_bindings s0 l k) as [Hkeep Hfst];
      destruct (server.probe s0 l k) as [e s'] eqn:Ep
  end; cbn [fst snd] in *.
  destruct e as [p |];
    [ destruct (cache.Fresh _ _); [discriminate |];
      destruct (_ && _); [discriminate |] | ];
    intros [= <- <- <- <-]; (split; [exact Hkeep |]).
  - intros q [= <-]. unfold server.cacheKey. rewrite Hkeep. apply Hfst. reflexivity.
  - discriminate.
Qed.

Lemma consult_Answered_bindings s r now (out : server.Outcome) :
  server.consult s r now = server.Answered out ->
  server.heap (server.after out) = server.heap s
  /\ (forall k, cached (server.cache (server.after out)) k = cached (server.cache s) k).
Proof.
  unfold server.consult, http.MethodGet, http.MethodHead.
  destruct (String.eqb _ ""); [intros [= <-]; auto |].
  destruct (strings.Contains _ ".."); [intros [= <-]; auto |].
  destruct (negb _ && negb _); [intros [= <-]; auto |].
  match goal with
  | |- context [server.probe ?s0 ?l ?k] =>
      pose proof (probe_bindings s0 l k) as [Hkeep _];
      pose proof (probe_frame s0 l k) as (_ & Hheap & _);
      destruct (server.probe s0 l k) as [e s'] eqn:Ep
  end; cbn [fst snd] in *.
  destruct e as [p |]; [| discriminate].
  destruct (cache.Fresh _ _); [intros [= <-]; auto |].
  destruct (_ && _); [intros [= <-]; auto | discriminate].
Qed.

Lemma Status_defaults (c : cache.Cache) (e : cache.Entry) :
  cache.Status (cache.defaults c e) = cache.Status e.
Proof.
  unfold cache.defaults.
  destruct (cache.TTL e =? 0); cbn; destruct (_ =? 0); reflexivity.
Qed.

Lemma statuses_alter (f : cache.Entry -> cache.Entry) (p : cache.loc) (h : cache.Heap) :
  (forall e, cache.Status (f e) = cache.Status e) ->
  forall q, cache.Status <$> alter f p h !! q = cache.Status <$> h !! q.
Proof.
  intros Hf q. destruct (decide (q = p)) as [-> | Hne].
  - rewrite lookup_alter_eq. destruct (h !! p); cbn; [rewrite Hf |]; reflexivity.
  - rewrite lookup_alter_ne by congruence. reflexivity.
Qed.

Lemma Peek_Add_same {V : Type} (c : lru.Cache V) (key : string) (v q : V) :
  lru.Peek (lru.Add c key v) key = Some q -> q = v.
Proof.
  unfold lru.Peek, lru.Add.
  destruct (lru.find key (lru.items c)); cbn [lru.items].
  - rewrite find_head. congruence.
  - destruct (_ >? _); cbn [lru.items].
    + intros H. apply find_removelast in H. rewrite find_head in H. congruence.
    + rewrite find_head. congruence.
Qed.

(** [Set] on a pointer whose record has status 200 keeps every cached
    entry at status 200, whatever else was written through pointers
    meanwhile, as long as no status changed. *)
Lemma Set_keeps_200 (c : cache.Cache) (h h' : cache.Heap) (key : string) (p : cache.loc) :
  entries200 c h ->
  (forall e, h !! p = Some e -> cache.Status e = 200) ->
  (forall q, cache.Status <$> h' !! q = cache.Status <$> h !! q) ->
  entries200 (fst (cache.Set_ c key p h')) (snd (cache.Set_ c key p h')).
Proof.
  intros Hinv Hp Hst k q e. unfold cache.Set_, cached. cbn [fst snd cache.lru].
  intros Hk Hq.
  assert (Hstatus : cache.Status <$> h !! q = Some (cache.Status e)).
  { rewrite <- Hst, <- (statuses_alter (cache.defaults c) p h' (Status_defaults c) q), Hq.
    reflexivity. }
  destruct (h !! q) as [e0 |] eqn:E0; [| discriminate].
  injection Hstatus as <-.
  destruct (String.eqb_spec k key) as [-> | Hne].
  - apply Peek_Add_same in Hk. subst q. apply Hp. exact E0.
  - apply Peek_Add_ne in Hk; [| exact Hne]. eapply Hinv; eauto.
Qed.

End delivered.

(** C8: when the origin delivers an object, a new entry is admitted if
    and only if [shouldUseCache(req)] holds, the method is GET, the
    outgoing [Range] is empty, the status is 200,
    [0 < contentLength <= MaxObjectSize], [Cache-Control] has no
    [no-store], and the buffered read succeeds within [MaxObjectSize];
    in every other case the server state is left as the cache
    consultation left it, with the same records and the same bindings
    as before the request. *)
Theorem admission_iff
    (parse : string -> option time.Time) (fmt : time.Time -> string)
    (s : server.Server) (r : http.Request) (now : time.Time)
    (s1 : server.Server) (useCache : bool) (key : string)
    (entry : option cache.loc) (obj : origin.Object) :
  0 < lru.size (cache.lru (server.cache s)) ->
  server.consult s r now = server.Proceed s1 useCache key entry ->
  server.fetchFromOrigin fmt s1 key
    (server.outgoingConditional parse s1 r entry (http.Method r)) (http.Method r)
  = inl obj ->
  (admitted s1 (server.after (server.objectHandler parse fmt s r now)) (server.cacheKey key)
   <-> mayAdmit s1 r (server.outgoingConditional parse s1 r entry (http.Method r)) obj
       /\ bufferedWithinBudget s1 obj)
  /\ (~ (mayAdmit s1 r (server.outgoingConditional parse s1 r entry (http.Method r)) obj
         /\ bufferedWithinBudget s1 obj) ->
      server.after (server.objectHandler parse fmt s r now) = s1
      /\ server.heap (server.after (server.objectHandler parse fmt s r now)) = server.heap s
      /\ forall k, cached (server.cache (server.after (server.objectHandler parse fmt s r now))) k
                   = cached (server.cache s) k).
Proof.
  intros Hsz Hconsult Hfetch.
  destruct (consult_Proceed s r now s1 useCache key entry Hconsult)
    as (_ & Huse & _ & _ & Hheap & Hsize).
  destruct (consult_Proceed_bindings s r now s1 useCache key entry Hconsult)
    as [Hkeep _].
  rewrite <- Hsize in Hsz.
  unfold server.objectHandler, server.fetchAndServe. rewrite Hconsult, Hfetch.
  set (cond := server.outgoingConditional parse s1 r entry (http.Method r)).
  assert (Hstore : server.shouldStore s1 useCache (http.Method r) cond obj = true
                   <-> mayAdmit s1 r cond obj).
  { rewrite shouldStore_true, Huse. unfold mayAdmit. tauto. }
  destruct (serveObject_after s1 http.newResponseWriter r now (server.cacheKey key)
              useCache (http.Method r) cond obj Hsz)
    as [(Hs & Hb & Hadm) | (Hno & Hsame)].
  - apply Hstore in Hs. split; [tauto |].
    intros Hnot. exfalso. apply Hnot. split; assumption.
  - rewrite Hstore in Hno.
    split; [| intros _; rewrite Hsame; auto].
    split; [| intros H; contradiction].
    rewrite Hsame. intros Hadm. exfalso. eapply not_admitted_same; eauto.
Qed.

(** The statement above in scenario S1, where all conditions hold and
    [a.txt] is admitted. *)
Lemma admission_iff_witness :
  (0 < lru.size (cache.lru (server.cache srv_hello))
   /\ server.consult srv_hello req_hello 100 = server.Proceed srv_hello true "a.txt" None
   /\ server.fetchFromOrigin noFormat srv_hello "a.txt"
        (server.outgoingConditional noParse srv_hello req_hello None (http.Method req_hello))
        (http.Method req_hello)
      = inl obj_hello)
  /\ (admitted srv_hello
        (server.after (server.objectHandler noParse noFormat srv_hello req_hello 100))
        (server.cacheKey "a.txt")
      <-> mayAdmit srv_hello req_hello
            (server.outgoingConditional noParse srv_hello req_hello None (http.Method req_hello))
            obj_hello
          /\ bufferedWithinBudget srv_hello obj_hello)
  /\ (~ (mayAdmit srv_hello req_hello
           (server.outgoingConditional noParse srv_hello req_hello None (http.Method req_hello))
           obj_hello
         /\ bufferedWithinBudget srv_hello obj_hello) ->
      server.after (server.objectHandler noParse noFormat srv_hello req_hello 100) = srv_hello
      /\ server.heap (server.after (server.objectHandler noParse noFormat srv_hello req_hello 100))
         = server.heap srv_hello
      /\ forall k,
           cached (server.cache
                     (server.after (server.objectHandler noParse noFormat srv_hello req_hello 100))) k
           = cached (server.cache srv_hello) k).
Proof.
  split.
  - split; [cbn; lia | split; reflexivity].
  - apply (admission_iff noParse noFormat srv_hello req_hello 100 srv_hello true "a.txt"
             None obj_hello); [cbn; lia | reflexivity | reflexivity].
Defined.

(** ** The admission read: read errors and overflow *)

Lemma status_body_Error (text : string) (code : Z) :
  code <> 0 ->
  http.status (http.Error http.newResponseWriter text code) = code
  /\ http.body (http.Error http.newResponseWriter text code)
     = list_byte_of_string (text ++ String "010" EmptyString).
Proof.
  intros Hc. unfold http.Error, http.Write, http.WriteHeader, http.withHeader.
  cbn [http.status http.body http.header http.newResponseWriter].
  change (0 =? 0) with true. cbv iota.
  cbn [http.status http.body http.header].
  destruct (Z.eqb_spec code 0); [contradiction |].
  cbn [http.status http.body http.header]. auto.
Qed.

(** C4, as stated, fails: when the buffered read of the admission path
    comes back with a read error, the handler does not fall back to the
    origin's response; it answers 502. Here the origin declares two bytes
    and its stream breaks after the first. *)
Lemma admission_read_error_is_not_passed_through :
  ~ (forall (parse : string -> option time.Time) (fmt : time.Time -> string)
            (s : server.Server) (r : http.Request) (now : time.Time)
            (s1 : server.Server) (useCache : bool) (key : string)
            (entry : option cache.loc) (obj : origin.Object),
        server.consult s r now = server.Proceed s1 useCache key entry ->
        server.fetchFromOrigin fmt s1 key
          (server.outgoingConditional parse s1 r entry (http.Method r)) (http.Method r)
        = inl obj ->
        mayAdmit s1 r (server.outgoingConditional parse s1 r entry (http.Method r)) obj ->
        bufferedReadFails s1 obj ->
        http.status (server.writer (server.objectHandler parse fmt s r now))
        = origin.StatusCode obj).
Proof.
  intros H.
  specialize (H noParse noFormat srv_broken req_big 100 srv_broken true "big.bin"
                None obj_broken eq_refl eq_refl).
  assert (Hcode : http.status (server.writer
                    (server.objectHandler noParse noFormat srv_broken req_big 100)) = 502)
    by reflexivity.
  rewrite Hcode in H.
  assert (502 = 200) as Habs; [| discriminate Habs].
  apply H.
  - repeat split; try reflexivity; try (cbn; lia).
  - exists (s3.Body out_broken). split; reflexivity.
Qed.

(** C4, amended: when the buffered read of the admission path comes
    back with a read error, the handler answers 502 Bad Gateway with the
    status text as body; no cache entry is admitted and the server state
    stays as the cache consultation left it. *)
Theorem admission_read_error_answers_502
    (parse : string -> option time.Time) (fmt : time.Time -> string)
    (s : server.Server) (r : http.Request) (now : time.Time)
    (s1 : server.Server) (useCache : bool) (key : string)
    (entry : option cache.loc) (obj : origin.Object) :
  server.consult s r now = server.Proceed s1 useCache key entry ->
  server.fetchFromOrigin fmt s1 key
    (server.outgoingConditional parse s1 r entry (http.Method r)) (http.Method r)
  = inl obj ->
  mayAdmit s1 r (server.outgoingConditional parse s1 r entry (http.Method r)) obj ->
  bufferedReadFails s1 obj ->
  answers (server.objectHandler parse fmt s r now) 502 s1
  /\ http.body (server.writer (server.objectHandler parse fmt s r now))
     = list_byte_of_string ("Bad Gateway" ++ String "010" EmptyString).
Proof.
  intros Hconsult Hfetch Hmay (rd & Hbody & Hfail).
  destruct (consult_Proceed s r now s1 useCache key entry Hconsult)
    as (_ & Huse & _).
  unfold server.objectHandler, server.fetchAndServe. rewrite Hconsult, Hfetch.
  unfold server.serveObject.
  assert (Hstore : server.shouldStore s1 useCache (http.Method r)
                     (server.outgoingConditional parse s1 r entry (http.Method r)) obj = true).
  { apply shouldStore_true. rewrite Huse. exact Hmay. }
  rewrite Hstore, Hbody, Hfail.
  unfold answers. cbn [server.writer server.after server.spawned].
  destruct (status_body_Error (http.StatusText http.StatusBadGateway) http.StatusBadGateway)
    as [Hst Hbd]; [discriminate |].
  rewrite Hst, Hbd. repeat split.
Qed.

(** The statement above for an origin whose stream breaks after the
    first of two declared bytes. *)
Lemma admission_read_error_answers_502_witness :
  (server.consult srv_broken req_big 100 = server.Proceed srv_broken true "big.bin" None
   /\ server.fetchFromOrigin noFormat srv_broken "big.bin"
        (server.outgoingConditional noParse srv_broken req_big None (http.Method req_big))
        (http.Method req_big)
      = inl obj_broken
   /\ mayAdmit srv_broken req_big
        (server.outgoingConditional noParse srv_broken req_big None (http.Method req_big))
        obj_broken
   /\ bufferedReadFails srv_broken obj_broken)
  /\ answers (server.objectHandler noParse noFormat srv_broken req_big 100) 502 srv_broken
  /\ http.body (server.writer (server.objectHandler noParse noFormat srv_broken req_big 100))
     = list_byte_of_string ("Bad Gateway" ++ String "010" EmptyString).
Proof.
  assert (Hmay : mayAdmit srv_broken req_big
            (server.outgoingConditional noParse srv_broken req_big None (http.Method req_big))
            obj_broken).
  { repeat split; try reflexivity; try (cbn; lia). }
  assert (Hfail : bufferedReadFails srv_broken obj_broken).
  { exists (s3.Body out_broken). split; reflexivity. }
  split.
  - repeat split; try reflexivity; try exact Hfail; apply Hmay.
  - apply (admission_read_error_answers_502 noParse noFormat srv_broken req_big 100
             srv_broken true "big.bin" None obj_broken eq_refl eq_refl Hmay Hfail).
Defined.

(** What the overflow branch writes: with [MaxObjectSize + 1] bytes
    already taken out of the stream for the admission attempt, the
    pass-through copies what is left of it, under the origin's status. *)
Lemma overflow_writes_remainder
    (parse : string -> option time.Time) (fmt : time.Time -> string)
    (s : server.Server) (r : http.Request) (now : time.Time)
    (s1 : server.Server) (useCache : bool) (key : string)
    (entry : option cache.loc) (obj : origin.Object) (rd : io.Reader) :
  server.consult s r now = server.Proceed s1 useCache key entry ->
  server.fetchFromOrigin fmt s1 key
    (server.outgoingConditional parse s1 r entry (http.Method r)) (http.Method r)
  = inl obj ->
  mayAdmit s1 r (server.outgoingConditional parse s1 r entry (http.Method r)) obj ->
  origin.Body obj = Some rd ->
  config.MaxObjectSize (server.cfg s1) < int64_max ->
  config.MaxObjectSize (server.cfg s1) < Z.of_nat (length (io.pending rd)) ->
  answers (server.objectHandler parse fmt s r now) 200 s1
  /\ http.body (server.writer (server.objectHandler parse fmt s r now))
     = skipn (Z.to_nat (config.MaxObjectSize (server.cfg s1) + 1)) (io.pending rd).
Proof.
  intros Hconsult Hfetch Hmay Hbody Hmax Hlong.
  destruct (consult_Proceed s r now s1 useCache key entry Hconsult)
    as (_ & Huse & _).
  unfold server.objectHandler, server.fetchAndServe. rewrite Hconsult, Hfetch.
  unfold server.serveObject.
  assert (Hstore : server.shouldStore s1 useCache (http.Method r)
                     (server.outgoingConditional parse s1 r entry (http.Method r)) obj = true).
  { apply shouldStore_true. rewrite Huse. exact Hmay. }
  destruct Hmay as (_ & Hget & _ & Hstatus & [Hpos Hle] & _).
  rewrite Hstore, Hbody.
  set (max := config.MaxObjectSize (server.cfg s1)) in *.
  assert (Hwrap : wrap64 (max + 1) = max + 1).
  { apply wrap64_id. unfold in_int64, int64_min, int64_max in *. lia. }
  rewrite Hwrap. unfold io.ReadAllLimit.
  destruct (Z.leb_spec (max + 1) 0) as [? | _]; [lia |].
  destruct (Z.ltb_spec (Z.of_nat (length (io.pending rd))) (max + 1)) as [? | _]; [lia |].
  cbn [io.failed io.data io.rest].
  assert (Hlen : Z.of_nat (length (firstn (Z.to_nat (max + 1)) (io.pending rd))) = max + 1).
  { rewrite length_firstn. lia. }
  rewrite Hlen.
  destruct (Z.gtb_spec (max + 1) max) as [_ | ?]; [| lia].
  unfold server.passThrough. rewrite Hget. change (String.eqb "GET" http.MethodHead) with false.
  cbv iota. unfold answers, io.Copy.
  cbn [server.writer server.after server.spawned fst io.pending].
  unfold http.Write, http.WriteHeader, http.withHeader, http.newResponseWriter.
  cbn [http.status http.body http.header]. rewrite Hstatus.
  change (0 =? 0) with true. cbv iota. cbn [http.status http.body http.header].
  change (200 =? 0) with false. cbv iota. cbn [http.status http.body http.header].
  repeat split.
Qed.


(** ** Revalidation and the status of cached entries *)

(** A [Content-Range] on the S3 answer makes the object a 206. *)
Lemma toObject_partial (fmt : time.Time -> string) (resp : s3.GetObjectOutput) (status : Z) :
  aws.ToString (s3.ContentRange resp) <> "" ->
  origin.StatusCode (origin.toObject fmt resp status) = 206.
Proof.
  intros Hcr. unfold origin.toObject. cbn [origin.StatusCode].
  apply String.eqb_neq in Hcr. rewrite Hcr. reflexivity.
Qed.

(** C5, at the failing input: the cache holds [x.txt] with status 200; a
    GET in its stale window is served STALE and starts the revalidation
    task; the origin answers that task with a [Content-Range], which
    [toObject] turns into status 206; [revalidate] checks the length and
    the read, not the status, and replaces the entry with one of status
    206. The same answer on the miss path of [objectHandler] is passed
    through as 206 and not admitted. *)
Theorem revalidate_admits_partial_content :
  allCached200 srv_stale
  /\ server.spawned (server.objectHandler noParse noFormat srv_stale req_x 12)
     = Some ("x.txt", 1%positive)
  /\ option_map cache.Status
       (cachedEntry
          (server.revalidate noFormat
             (server.after (server.objectHandler noParse noFormat srv_stale req_x 12))
             "x.txt" 1%positive 20)
          "x.txt")
     = Some 206
  /\ http.status (server.writer
       (server.objectHandler noParse noFormat
          (serverOf 16 (originOf (inl out_partial))) req_x 12)) = 206
  /\ cachedEntry
       (server.after (server.objectHandler noParse noFormat
          (serverOf 16 (originOf (inl out_partial))) req_x 12))
       "x.txt"
     = None.
Proof.
  split.
  - intros key p e. unfold cached, lru.Peek. cbn [srv_stale server.cache
      cache.lru lru.items lru.find server.heap].
    destruct (String.eqb "x.txt" key); [| discriminate].
    intros [= <-]. rewrite lookup_singleton_eq. intros [= <-]. reflexivity.
  - repeat split; reflexivity.
Qed.

Lemma Status_newEntry (s : server.Server) (obj : origin.Object) (body : list byte)
    (now : time.Time) :
  cache.Status (server.newEntry s obj body now) = origin.StatusCode obj.
Proof. unfold server.newEntry. cbn. destruct (_ <=? 0); reflexivity. Qed.

(** The miss admission and the 304 re-admission of [objectHandler] keep
    the status invariant: if every cached entry has status 200 before a
    request, so it is after it. *)
Lemma objectHandler_keeps_status_200
    (parse : string -> option time.Time) (fmt : time.Time -> string)
    (s : server.Server) (r : http.Request) (now : time.Time) :
  allCached200 s ->
  allCached200 (server.after (server.objectHandler parse fmt s r now)).
Proof.
  intros Hinv. unfold server.objectHandler.
  destruct (server.consult s r now) as [out | s1 useCache key entry] eqn:Econsult.
  { destruct (consult_Answered_bindings s r now out Econsult) as [Hheap Hkeep].
    intros k p e. rewrite Hheap, Hkeep. apply Hinv. }
  destruct (consult_Proceed s r now s1 useCache key entry Econsult)
    as (_ & _ & _ & _ & Hheap & _).
  destruct (consult_Proceed_bindings s r now s1 useCache key entry Econsult)
    as [Hkeep Hentry].
  assert (Hinv1 : allCached200 s1).
  { intros k p e. rewrite Hheap, Hkeep. apply Hinv. }
  unfold server.fetchAndServe.
  destruct (server.fetchFromOrigin fmt s1 key _ _) as [obj | err].
  - unfold server.serveObject.
    destruct (server.shouldStore s1 useCache (http.Method r) _ obj) eqn:Estore;
      [| rewrite (proj1 (passThrough_after _ _ _ _ _)); exact Hinv1].
    apply shouldStore_true in Estore as (_ & _ & _ & Hstatus & _).
    destruct (origin.Body obj) as [rd |]; [| exact Hinv1].
    destruct (io.failed _); [exact Hinv1 |].
    destruct (_ >? _); [rewrite (proj1 (passThrough_after _ _ _ _ _)); exact Hinv1 |].
    set (e := server.newEntry s1 obj _ now).
    pose proof (alloc_fresh (server.heap s1) e) as [Hnone Hsome].
    assert (Hh1 : snd (server.alloc (server.heap s1) e)
                  = <[fst (server.alloc (server.heap s1) e) := e]> (server.heap s1))
      by reflexivity.
    destruct (server.alloc (server.heap s1) e) as [p h1]. cbn [fst snd] in *.
    assert (He : cache.Status e = 200).
    { unfold e. rewrite Status_newEntry. exact Hstatus. }
    pose proof (Set_keeps_200 (server.cache s1) h1 h1 (server.cacheKey key) p) as Hset.
    destruct (cache.Set_ (server.cache s1) (server.cacheKey key) p h1) as [c h2].
    cbn [fst snd] in Hset. apply Hset.
    + intros k q e' Hk Hq. destruct (decide (q = p)) as [-> | Hne].
      * rewrite Hsome in Hq. injection Hq as <-. exact He.
      * rewrite Hh1, lookup_insert_ne in Hq by congruence. eapply Hinv1; eauto.
    + intros e' Hq. rewrite Hsome in Hq. injection Hq as <-. exact He.
    + reflexivity.
  - unfold server.handleOriginError.
    destruct (origin.isNotModified err).
    + destruct entry as [p |]; [| exact Hinv1].
      pose proof (Set_keeps_200 (server.cache s1) (server.heap s1)
                    (alter (cache.setStoredAt now) p (server.heap s1))
                    (server.cacheKey key) p) as Hset.
      destruct (cache.Set_ (server.cache s1) (server.cacheKey key) p _) as [c h2].
      cbn [fst snd] in Hset. apply Hset.
      * exact Hinv1.
      * intros e Hq. eapply Hinv1; [apply Hentry; reflexivity | exact Hq].
      * apply statuses_alter. reflexivity.
    + destruct (origin.isNotFound err); [exact Hinv1 |].
      destruct (origin.isPrecondition err); exact Hinv1.
Qed.

(** [revalidate] keeps the invariant as long as the origin's answer has
    status 200, that is, carries no [Content-Range]: the one thing it
    does not check. *)
Lemma revalidate_keeps_status_200_for_full_objects
    (fmt : time.Time -> string) (s : server.Server) (key : string)
    (entry : cache.loc) (now : time.Time) :
  allCached200 s ->
  (forall e, server.heap s !! entry = Some e -> cache.Status e = 200) ->
  (forall cond obj, origin.GetObject fmt (server.origin s) key cond = inl obj ->
                    origin.StatusCode obj = 200) ->
  allCached200 (server.revalidate fmt s key entry now).
Proof.
  intros Hinv Hentry Hfull. unfold server.revalidate.
  match goal with
  | |- context [origin.GetObject fmt (server.origin s) key ?c] =>
      pose proof (Hfull c) as Hobj;
      destruct (origin.GetObject fmt (server.origin s) key c) as [obj | err]
  end.
  - specialize (Hobj obj eq_refl).
    destruct (_ || _); [exact Hinv |].
    destruct (origin.Body obj) as [rd |]; [| exact Hinv].
    destruct (io.failed _); [exact Hinv |].
    destruct (_ >? _); [exact Hinv |].
    match goal with
    | |- context [server.alloc (server.heap s) ?e0] => set (e := e0)
    end.
    pose proof (alloc_fresh (server.heap s) e) as [Hnone Hsome].
    assert (Hh1 : snd (server.alloc (server.heap s) e)
                  = <[fst (server.alloc (server.heap s) e) := e]> (server.heap s))
      by reflexivity.
    destruct (server.alloc (server.heap s) e) as [p h1]. cbn [fst snd] in *.
    pose proof (Set_keeps_200 (server.cache s) h1 h1 (server.cacheKey key) p) as Hset.
    destruct (cache.Set_ (server.cache s) (server.cacheKey key) p h1) as [c h2].
    cbn [fst snd] in Hset. apply Hset.
    + intros k q e' Hk Hq. destruct (decide (q = p)) as [-> | Hne].
      * rewrite Hsome in Hq. injection Hq as <-. exact Hobj.
      * rewrite Hh1, lookup_insert_ne in Hq by congruence. eapply Hinv; eauto.
    + intros e' Hq. rewrite Hsome in Hq. injection Hq as <-. exact Hobj.
    + reflexivity.
  - destruct (origin.isNotModified err); [| exact Hinv].
    pose proof (Set_keeps_200 (server.cache s) (server.heap s)
                  (alter (cache.setStoredAt now) entry (server.heap s))
                  (server.cacheKey key) entry) as Hset.
    destruct (cache.Set_ (server.cache s) (server.cacheKey key) entry _) as [c h2].
    cbn [fst snd] in Hset. apply Hset.
    + exact Hinv.
    + exact Hentry.
    + apply statuses_alter. reflexivity.
Qed.

(** ** The scenarios of the specification *)

(** S1: a miss on an empty cache is answered 200 with the body, and
    [a.txt] is admitted with the 60 s of [max-age=60]. *)
Example scenario_S1 :
  http.status (server.writer (server.objectHandler noParse noFormat srv_hello req_hello 100))
  = 200
  /\ http.body (server.writer (server.objectHandler noParse noFormat srv_hello req_hello 100))
     = list_byte_of_string "hello"
  /\ http.Get (http.header (server.writer
        (server.objectHandler noParse noFormat srv_hello req_hello 100))) "X-Cache" = "MISS"
  /\ http.Get (http.header (server.writer
        (server.objectHandler noParse noFormat srv_hello req_hello 100))) "Age" = "0"
  /\ option_map cache.TTL (cachedEntry srv_after_S1 "a.txt") = Some (60 * time.Second).
Proof. repeat split; reflexivity. Qed.

(** S2: ten seconds later the same request is a HIT with [Age: 10]. *)
Example scenario_S2 :
  http.status (server.writer (server.objectHandler noParse noFormat srv_after_S1 req_hello
                                (100 + 10 * time.Second))) = 200
  /\ http.body (server.writer (server.objectHandler noParse noFormat srv_after_S1 req_hello
                                 (100 + 10 * time.Second)))
     = list_byte_of_string "hello"
  /\ http.Get (http.header (server.writer
        (server.objectHandler noParse noFormat srv_after_S1 req_hello
           (100 + 10 * time.Second)))) "X-Cache" = "HIT"
  /\ http.Get (http.header (server.writer
        (server.objectHandler noParse noFormat srv_after_S1 req_hello
           (100 + 10 * time.Second)))) "Age" = "10".
Proof. repeat split; reflexivity. Qed.

(** S3: ninety seconds after admission the entry is stale but inside
    the stale window; it is served STALE and a revalidation is started
    for it. *)
Example scenario_S3 :
  http.body (server.writer (server.objectHandler noParse noFormat srv_after_S1 req_hello
                              (100 + 90 * time.Second)))
  = list_byte_of_string "hello"
  /\ http.Get (http.header (server.writer
        (server.objectHandler noParse noFormat srv_after_S1 req_hello
           (100 + 90 * time.Second)))) "X-Cache" = "STALE"
  /\ server.spawned (server.objectHandler noParse noFormat srv_after_S1 req_hello
                       (100 + 90 * time.Second))
     = cached (server.cache srv_after_S1) "a.txt"
       ≫= (fun p => Some ("a.txt", p)).
Proof. repeat split; reflexivity. Qed.

(** [Set] leaves a negative [TTL] alone and fills in only the zero
    [StaleTTL]. *)
Example Set_keeps_negative_TTL :
  cache.TTL <$> snd (cache.Set_ cache2 "a" 1%positive
                       {[ 1%positive := cache.setTTL (-5) entry_unset ]}) !! 1%positive
  = Some (-5)
  /\ cache.StaleTTL <$> snd (cache.Set_ cache2 "a" 1%positive
                       {[ 1%positive := cache.setTTL (-5) entry_unset ]}) !! 1%positive
     = Some (120 * time.Second).
Proof. split; reflexivity. Qed.

(* ===================================================================== *)
(** * Further properties of the code *)
(* ===================================================================== *)

(** ** The cache under arbitrary runs of its operations *)

Section lru_runs.

Context {V : Type}.
Implicit Types (c : lru.Cache V) (l : list (string * V)) (k key : string).

Lemma In_keys_remove l key k :
  In k (map fst (lru.remove key l)) -> In k (map fst l) /\ k <> key.
Proof.
  induction l as [| [k0 v0] l IH]; cbn [lru.remove map fst]; [contradiction |].
  destruct (String.eqb_spec k0 key) as [-> | Hne].
  - intros H. destruct (IH H). split; [right |]; assumption.
  - cbn [map fst In]. intros [<- | H]; [split; [left; reflexivity | exact Hne] |].
    destruct (IH H). split; [right |]; assumption.
Qed.

Lemma NoDup_keys_remove l key :
  List.NoDup (map fst l) -> List.NoDup (map fst (lru.remove key l)).
Proof.
  induction l as [| [k0 v0] l IH]; cbn [lru.remove map fst]; [auto |].
  intros Hnd. inversion Hnd as [| ? ? Hnotin Hnd']; subst.
  destruct (String.eqb k0 key); [auto |].
  cbn [map fst]. constructor; [| auto].
  intros Hin. apply In_keys_remove in Hin as [Hin _]. contradiction.
Qed.

Lemma length_remove_le l key : (length (lru.remove key l) <= length l)%nat.
Proof.
  induction l as [| [k0 v0] l IH]; cbn [lru.remove length]; [lia |].
  destruct (String.eqb k0 key); cbn [length]; lia.
Qed.

Lemma length_remove_found l key v :
  lru.find key l = Some v -> (length (lru.remove key l) < length l)%nat.
Proof.
  induction l as [| [k0 v0] l IH]; cbn [lru.find lru.remove length]; [discriminate |].
  destruct (String.eqb k0 key).
  - intros _. pose proof (length_remove_le l key). lia.
  - intros H. specialize (IH H). cbn [length]. lia.
Qed.

Lemma find_remove_same l key : lru.find key (lru.remove key l) = None.
Proof.
  apply find_None. intros Hin. apply In_keys_remove in Hin as [_ Hne]. congruence.
Qed.

Lemma remove_remove l key : lru.remove key (lru.remove key l) = lru.remove key l.
Proof.
  induction l as [| [k0 v0] l IH]; [reflexivity |].
  cbn [lru.remove]. destruct (String.eqb k0 key) eqn:E; [exact IH |].
  cbn [lru.remove]. rewrite E, IH. reflexivity.
Qed.

Lemma NoDup_removelast {A : Type} (l : list A) : List.NoDup l -> List.NoDup (removelast l).
Proof.
  intros Hnd. destruct l as [| a l] using rev_ind; [exact Hnd |].
  rewrite removelast_last. apply NoDup_remove_1 in Hnd. rewrite app_nil_r in Hnd. exact Hnd.
Qed.

Lemma length_removelast_cons {A : Type} (a : A) (l : list A) :
  length (removelast (a :: l)) = length l.
Proof.
  revert a. induction l as [| b l IH]; intros a; [reflexivity |].
  change (removelast (a :: b :: l)) with (a :: removelast (b :: l)).
  cbn [length]. rewrite IH. reflexivity.
Qed.

Lemma bounded_promote c key v :
  bounded c -> lru.find key (lru.items c) = Some v ->
  bounded {| lru.size := lru.size c;
             lru.items := (key, v) :: lru.remove key (lru.items c) |}.
Proof.
  intros [Hnd Hlen] Hfind. unfold bounded, lru.Keys in *. cbn [lru.items lru.size map fst].
  split.
  - constructor; [| apply NoDup_keys_remove; exact Hnd].
    intros Hin. apply In_keys_remove in Hin as [_ Hne]. congruence.
  - pose proof (length_remove_found _ _ _ Hfind). cbn [length]. lia.
Qed.

Lemma bounded_Get c key : bounded c -> bounded (snd (lru.Get c key)).
Proof.
  intros Hb. unfold lru.Get.
  destruct (lru.find key (lru.items c)) as [v |] eqn:E; cbn [snd]; [| exact Hb].
  apply bounded_promote; assumption.
Qed.

Lemma bounded_Add c key v : 0 <= lru.size c -> bounded c -> bounded (lru.Add c key v).
Proof.
  intros Hsz Hb. unfold lru.Add.
  destruct (lru.find key (lru.items c)) as [v0 |] eqn:E.
  - destruct (bounded_promote c key v0 Hb E) as [Hnd Hlen].
    split; [exact Hnd | exact Hlen].
  - destruct Hb as [Hnd Hlen].
    assert (Hpushed : List.NoDup (map fst ((key, v) :: lru.items c))).
    { cbn [map fst]. constructor; [apply find_None; exact E | exact Hnd]. }
    destruct (Z.gtb_spec (Z.of_nat (length ((key, v) :: lru.items c))) (lru.size c))
      as [Hover | Hfit]; unfold bounded, lru.Keys; cbn [lru.items lru.size].
    + split.
      * rewrite map_fst_removelast. apply NoDup_removelast. exact Hpushed.
      * rewrite length_removelast_cons. exact Hlen.
    + split; [exact Hpushed | exact Hfit].
Qed.

Lemma bounded_Remove c key : bounded c -> bounded (lru.Remove c key).
Proof.
  intros [Hnd Hlen]. unfold bounded, lru.Remove, lru.Keys in *. cbn [lru.items lru.size].
  split; [apply NoDup_keys_remove; exact Hnd |].
  pose proof (length_remove_le (lru.items c) key). lia.
Qed.

Lemma size_Remove c key : lru.size (lru.Remove c key) = lru.size c.
Proof. reflexivity. Qed.

End lru_runs.

Lemma applyOps_bounded (ops : list cacheOp) : forall (c : cache.Cache) (h : cache.Heap),
  0 <= lru.size (cache.lru c) ->
  bounded (cache.lru c) ->
  bounded (cache.lru (fst (applyOps ops (c, h))))
  /\ lru.size (cache.lru (fst (applyOps ops (c, h)))) = lru.size (cache.lru c)
  /\ cache.cap (fst (applyOps ops (c, h))) = cache.cap c.
Proof.
  induction ops as [| op ops IH]; intros c h Hsz Hb; [auto |].
  unfold applyOps in *. cbn [fold_left].
  destruct op as [k | k p | k]; cbn [applyOp fst snd].
  - unfold cache.Get.
    pose proof (bounded_Get (cache.lru c) k Hb) as Hb'.
    pose proof (size_Get (cache.lru c) k) as Hs'.
    destruct (lru.Get (cache.lru c) k) as [r l]. cbn [snd] in *.
    specialize (IH {| cache.lru := l; cache.ttl := cache.ttl c;
                      cache.stale := cache.stale c; cache.cap := cache.cap c |} h).
    cbn [cache.lru cache.cap] in IH. rewrite Hs' in IH. apply IH; assumption.
  - unfold cache.Set_.
    specialize (IH {| cache.lru := lru.Add (cache.lru c) k p; cache.ttl := cache.ttl c;
                      cache.stale := cache.stale c; cache.cap := cache.cap c |}
                   (alter (cache.defaults c) p h)).
    cbn [cache.lru cache.cap] in IH. rewrite size_Add in IH.
    apply IH; [exact Hsz | apply bounded_Add; assumption].
  - unfold cache.Delete.
    specialize (IH {| cache.lru := lru.Remove (cache.lru c) k; cache.ttl := cache.ttl c;
                      cache.stale := cache.stale c; cache.cap := cache.cap c |} h).
    cbn [cache.lru cache.cap] in IH. rewrite size_Remove in IH.
    apply IH; [exact Hsz | apply bounded_Remove; exact Hb].
Qed.

(** X1: whatever [Get], [Set] and [Delete] calls follow [New], in any
    order, [Stats] never reports more entries than the capacity, reports
    the capacity it was built with, and no key is held twice. *)
Theorem cache_never_exceeds_capacity
    (capacity : Z) (ttl stale : time.Duration) (c : cache.Cache) (h : cache.Heap)
    (ops : list cacheOp) :
  cache.New capacity ttl stale = Some c ->
  0 <= fst (cache.Stats (fst (applyOps ops (c, h)))) <= capacity
  /\ snd (cache.Stats (fst (applyOps ops (c, h)))) = capacity
  /\ List.NoDup (lru.Keys (cache.lru (fst (applyOps ops (c, h))))).
Proof.
  intros Hnew. unfold cache.New, lru.New in Hnew.
  destruct (Z.leb_spec capacity 0) as [? | Hpos]; [discriminate |].
  injection Hnew as <-.
  set (c0 := {| cache.lru := _ |}).
  destruct (applyOps_bounded ops c0 h) as ((Hnd & Hlen) & Hsize & Hcap).
  - cbn. lia.
  - split; [constructor | cbn; lia].
  - unfold cache.Stats, lru.Len. cbn [fst snd].
    rewrite Hsize in Hlen. cbn [c0 cache.lru lru.size cache.cap] in *.
    repeat split; [lia | exact Hlen | exact Hcap | exact Hnd].
Qed.

(** The statement above for a run of five operations on a cache of
    capacity 2. *)
Lemma cache_never_exceeds_capacity_witness :
  cache.New 2 (300 * time.Second) (120 * time.Second) = Some cache2
  /\ 0 <= fst (cache.Stats (fst (applyOps
            [OpSet "a" 1%positive; OpSet "b" 2%positive; OpGet "a";
             OpSet "c" 3%positive; OpDelete "b"] (cache2, heap_unset)))) <= 2
  /\ snd (cache.Stats (fst (applyOps
            [OpSet "a" 1%positive; OpSet "b" 2%positive; OpGet "a";
             OpSet "c" 3%positive; OpDelete "b"] (cache2, heap_unset)))) = 2
  /\ List.NoDup (lru.Keys (cache.lru (fst (applyOps
            [OpSet "a" 1%positive; OpSet "b" 2%positive; OpGet "a";
             OpSet "c" 3%positive; OpDelete "b"] (cache2, heap_unset))))).
Proof.
  split; [reflexivity |].
  apply (cache_never_exceeds_capacity 2 (300 * time.Second) (120 * time.Second) cache2
           heap_unset
           [OpSet "a" 1%positive; OpSet "b" 2%positive; OpGet "a";
            OpSet "c" 3%positive; OpDelete "b"]).
  reflexivity.
Defined.

(** X2: [Delete] removes exactly its key: afterwards [Get] misses that
    key, every other key is bound as before, and a second [Delete] of
    the same key changes nothing. *)
Theorem Delete_removes_exactly_its_key (c : cache.Cache) (key : string) :
  fst (cache.Get (cache.Delete c key) key) = None
  /\ (forall k, k <> key -> cached (cache.Delete c key) k = cached c k)
  /\ cache.Delete (cache.Delete c key) key = cache.Delete c key.
Proof.
  split; [| split].
  - rewrite Get_fst. unfold cached, lru.Peek, cache.Delete, lru.Remove.
    cbn [cache.lru lru.items]. apply find_remove_same.
  - intros k Hne. unfold cached, lru.Peek, cache.Delete, lru.Remove.
    cbn [cache.lru lru.items]. apply find_remove_ne. exact Hne.
  - unfold cache.Delete, lru.Remove. cbn [cache.lru lru.items lru.size cache.ttl
      cache.stale cache.cap]. rewrite remove_remove. reflexivity.
Qed.

Lemma find_skip_head {V : Type} (l : list (string * V)) (k k0 : string) (v0 : V) :
  k <> k0 -> lru.find k ((k0, v0) :: l) = lru.find k l.
Proof.
  intros Hne. cbn [lru.find].
  destruct (String.eqb_spec k0 k) as [-> | _]; [contradiction | reflexivity].
Qed.

(** X3: a [Get] that hits protects its key from the next eviction: in a
    cache of capacity 2 or more, after [Get(k)] found an entry, a [Set]
    of any other key leaves [k] bound to the same record. *)
Theorem Get_protects_from_next_eviction
    (c : cache.Cache) (h : cache.Heap) (k knew : string) (p q : cache.loc) :
  2 <= lru.size (cache.lru c) ->
  fst (cache.Get c k) = Some p ->
  knew <> k ->
  cached (fst (cache.Set_ (snd (cache.Get c k)) knew q h)) k = Some p.
Proof.
  intros Hsz Hget Hne. rewrite Get_fst in Hget. unfold cached, lru.Peek in *.
  unfold cache.Get, lru.Get. rewrite Hget. unfold cache.Set_, lru.Add.
  cbn [fst snd cache.lru lru.items lru.size].
  set (l1 := (k, p) :: lru.remove k (lru.items (cache.lru c))).
  assert (Hk : lru.find k l1 = Some p) by apply find_head.
  destruct (lru.find knew l1) eqn:E; cbn [lru.items].
  - rewrite find_skip_head by congruence. rewrite find_remove_ne by congruence. exact Hk.
  - destruct (Z.gtb_spec (Z.of_nat (length ((knew, q) :: l1))) (lru.size (cache.lru c)))
      as [Hover | Hfit]; cbn [lru.items].
    + unfold l1 in *.
      destruct (lru.remove k (lru.items (cache.lru c))) as [| b rest].
      * cbn [length] in Hover. lia.
      * change (removelast ((knew, q) :: (k, p) :: b :: rest))
          with ((knew, q) :: (k, p) :: removelast (b :: rest)).
        rewrite find_skip_head by congruence. apply find_head.
    + rewrite find_skip_head by congruence. exact Hk.
Qed.

(** The statement above on the cache that holds [a] and [b]: reading the
    older key [a] and then storing [c] evicts [b], not [a]. *)
Lemma Get_protects_from_next_eviction_witness :
  (2 <= lru.size (cache.lru cache_ab)
   /\ fst (cache.Get cache_ab "a") = Some 1%positive
   /\ "c" <> "a")
  /\ cached (fst (cache.Set_ (snd (cache.Get cache_ab "a")) "c" 3%positive ∅)) "a"
     = Some 1%positive.
Proof.
  split.
  - split; [cbn; lia | split; [reflexivity | discriminate]].
  - apply (Get_protects_from_next_eviction cache_ab ∅ "a" "c" 1%positive 3%positive);
      [cbn; lia | reflexivity | discriminate].
Defined.

(** X4: [Set] evicts only when it must: if the key is already cached, or
    the cache holds fewer entries than its capacity, every other key
    stays bound as before. *)
Theorem Set_evicts_only_when_full
    (c : cache.Cache) (h : cache.Heap) (key : string) (p : cache.loc) :
  (is_Some (cached c key)
   \/ fst (cache.Stats c) < lru.size (cache.lru c)) ->
  forall k, k <> key -> cached (fst (cache.Set_ c key p h)) k = cached c k.
Proof.
  intros Hroom k Hne. unfold cached, lru.Peek, cache.Set_, lru.Add, cache.Stats, lru.Len in *.
  cbn [fst snd cache.lru] in *.
  destruct (lru.find key (lru.items (cache.lru c))) as [p0 |] eqn:E; cbn [lru.items].
  - rewrite find_skip_head by exact Hne. apply find_remove_ne. exact Hne.
  - destruct Hroom as [[x Hx] | Hlen]; [discriminate |].
    destruct (Z.gtb_spec (Z.of_nat (length ((key, p) :: lru.items (cache.lru c))))
                         (lru.size (cache.lru c))) as [Hover | Hfit]; cbn [lru.items].
    + cbn [length] in Hover. lia.
    + apply find_skip_head. exact Hne.
Qed.

(** The statement above on the full cache that holds [a] and [b]:
    storing [b] again leaves [a] in place. *)
Lemma Set_evicts_only_when_full_witness :
  (is_Some (cached cache_ab "b") /\ "a" <> "b")
  /\ cached (fst (cache.Set_ cache_ab "b" 9%positive ∅)) "a" = cached cache_ab "a".
Proof.
  assert (Hsome : is_Some (cached cache_ab "b")) by (exists 2%positive; reflexivity).
  split.
  - split; [exact Hsome | discriminate].
  - apply (Set_evicts_only_when_full cache_ab ∅ "b" 9%positive (or_introl Hsome) "a").
    discriminate.
Defined.

(** ** Entries: freshness *)

(** X6: an entry is fresh at the instant it was stored exactly when its
    [TTL] is positive, and freshness only ever ends: an entry fresh at
    [t] was fresh at every earlier instant, and an entry with [TTL <= 0]
    is fresh at no instant from [StoredAt] on. *)
Theorem Fresh_only_ends (e : cache.Entry) (t t' : time.Time) :
  (cache.Fresh e (cache.StoredAt e) = true <-> 0 < cache.TTL e)
  /\ (cache.Fresh e t = true -> t' <= t -> cache.Fresh e t' = true)
  /\ (cache.TTL e <= 0 -> cache.StoredAt e <= t -> cache.Fresh e t = false).
Proof.
  rewrite !Fresh_iff. split; [lia |]. split; [lia |].
  intros Httl Ht. destruct (cache.Fresh e t) eqn:E; [| reflexivity].
  apply Fresh_iff in E. lia.
Qed.

(** The statement above for [entry_10_5] at the instants 9 and 3. *)
Lemma Fresh_only_ends_witness :
  (cache.Fresh entry_10_5 9 = true /\ 3 <= 9)
  /\ cache.Fresh entry_10_5 3 = true.
Proof.
  split; [split; [reflexivity | lia] |].
  apply (proj1 (proj2 (Fresh_only_ends entry_10_5 9 3))); [reflexivity | lia].
Defined.

(** ** The admin token check and the client address *)

Lemma subtleConstantTimeEquals_eqb (a b : string) :
  a <> "" -> b <> "" -> server.subtleConstantTimeEquals a b = String.eqb a b.
Proof.
  intros Ha Hb. unfold server.subtleConstantTimeEquals, strings.len.
  destruct a as [| ca a]; [contradiction |]. destruct b as [| cb b]; [contradiction |].
  cbn [String.length].
  destruct (Z.eqb_spec (Z.of_nat (S (String.length a))) 0); [lia |].
  destruct (Z.eqb_spec (Z.of_nat (S (String.length b))) 0); [lia |].
  cbn [orb].
  destruct (Z.eqb_spec (Z.of_nat (S (String.length a))) (Z.of_nat (S (String.length b))))
    as [Hlen | Hlen]; cbn [negb]; [reflexivity |].
  symmetry. apply String.eqb_neq. intros Heq. apply Hlen.
  injection Heq as _ ->. reflexivity.
Qed.

(** X7: the token comparison accepts exactly equal, non-empty strings:
    two empty strings are not equal for it. *)
Theorem subtleConstantTimeEquals_iff (a b : string) :
  server.subtleConstantTimeEquals a b = true <-> a = b /\ a <> "".
Proof.
  split; [apply subtleConstantTimeEquals_true |].
  intros [<- Hne]. rewrite subtleConstantTimeEquals_eqb by assumption.
  apply String.eqb_refl.
Qed.

(** X8: a non-empty [X-Auth-Token] header decides alone: the request is
    accepted exactly when the header equals the configured token, and
    neither [Authorization] nor the query parameter is looked at. *)
Theorem checkToken_header_decides_alone (r : http.Request) (expected : string) :
  expected <> "" ->
  http.Get (http.ReqHeader r) "X-Auth-Token" <> "" ->
  (server.checkToken r expected = true
   <-> http.Get (http.ReqHeader r) "X-Auth-Token" = expected).
Proof.
  intros Hexp Htok. unfold server.checkToken.
  apply String.eqb_neq in Hexp as Hexp'. apply String.eqb_neq in Htok as Htok'.
  rewrite Hexp', Htok'. rewrite Htok'.
  rewrite subtleConstantTimeEquals_eqb by assumption.
  apply String.eqb_eq.
Qed.

(** The statement above for a request with a wrong header and the right
    token in both other places: it is rejected. *)
Lemma checkToken_header_decides_alone_witness :
  ("secret" <> "" /\ http.Get (http.ReqHeader req_wrong_xauth) "X-Auth-Token" <> "")
  /\ (server.checkToken req_wrong_xauth "secret" = true
      <-> http.Get (http.ReqHeader req_wrong_xauth) "X-Auth-Token" = "secret").
Proof.
  split.
  - split; discriminate.
  - apply (checkToken_header_decides_alone req_wrong_xauth "secret"); discriminate.
Defined.

(** X9: without [X-Auth-Token] and without [Authorization] the query
    parameter [token] is compared as it is, letter case included: the
    request is accepted exactly when it equals the configured token. *)
Theorem checkToken_query_is_verbatim (r : http.Request) (expected : string) :
  expected <> "" ->
  http.Get (http.ReqHeader r) "X-Auth-Token" = "" ->
  http.Get (http.ReqHeader r) "Authorization" = "" ->
  (server.checkToken r expected = true
   <-> http.Get (http.Query r) "token" = expected).
Proof.
  intros Hexp Hx Hauth. unfold server.checkToken.
  apply String.eqb_neq in Hexp as Hexp'.
  rewrite Hexp', Hx, Hauth. cbn [String.eqb strings.ToLower strings.CutPrefix].
  split.
  - intros H. apply subtleConstantTimeEquals_true in H. tauto.
  - intros ->. rewrite subtleConstantTimeEquals_eqb by assumption.
    apply String.eqb_refl.
Qed.

(** The statement above for the token [Secret] sent as [?token=Secret]. *)
Lemma checkToken_query_is_verbatim_witness :
  ("Secret" <> ""
   /\ http.Get (http.ReqHeader req_query_Secret) "X-Auth-Token" = ""
   /\ http.Get (http.ReqHeader req_query_Secret) "Authorization" = "")
  /\ (server.checkToken req_query_Secret "Secret" = true
      <-> http.Get (http.Query req_query_Secret) "token" = "Secret").
Proof.
  split.
  - split; [discriminate | split; reflexivity].
  - apply (checkToken_query_is_verbatim req_query_Secret "Secret");
      [discriminate | reflexivity | reflexivity].
Defined.

Lemma Split_first (first r : string) :
  ~ occursIn "," first ->
  strings.Split first "," = [first]
  /\ strings.Split (first ++ "," ++ r) "," = first :: strings.Split r ",".
Proof.
  induction first as [| c f IH]; intros Hno.
  - split; [reflexivity |]. rewrite append_nil_l. reflexivity.
  - assert (Hc : Ascii.eqb c "," = false).
    { destruct (Ascii.eqb_spec c ",") as [-> | ?]; [| reflexivity].
      exfalso. apply Hno. exists "", f. reflexivity. }
    assert (Hf : ~ occursIn "," f).
    { intros (pre & post & ->). apply Hno. exists (String c pre), post. reflexivity. }
    destruct (IH Hf) as [H1 H2].
    rewrite append_cons. cbn [strings.Split]. rewrite Hc, H1, H2. auto.
Qed.

(** X10: the client address is the first comma-separated element of a
    non-empty [X-Forwarded-For], trimmed; [X-Real-IP] and the peer
    address are not looked at then, even when that element is blank.
    Without [X-Forwarded-For] it is [X-Real-IP] when that is set and the
    peer address otherwise. *)
Theorem realIP_takes_first_forwarded (r : http.Request) (remoteAddr first rest : string) :
  (http.Get (http.ReqHeader r) "X-Forwarded-For" <> "" ->
   http.Get (http.ReqHeader r) "X-Forwarded-For" = first ++ rest ->
   ~ occursIn "," first ->
   (rest = "" \/ exists r', rest = "," ++ r') ->
   server.realIP r remoteAddr = strings.TrimSpace first)
  /\ (http.Get (http.ReqHeader r) "X-Forwarded-For" = "" ->
      server.realIP r remoteAddr
      = if String.eqb (http.Get (http.ReqHeader r) "X-Real-Ip") "" then remoteAddr
        else http.Get (http.ReqHeader r) "X-Real-Ip").
Proof.
  unfold server.realIP. split.
  - intros Hne Hxf Hno Hrest. apply String.eqb_neq in Hne. rewrite Hne. cbn [negb].
    rewrite Hxf. destruct Hrest as [-> | [r' ->]].
    + rewrite append_nil_r, (proj1 (Split_first first "" Hno)). reflexivity.
    + rewrite (proj2 (Split_first first r' Hno)). reflexivity.
  - intros ->. cbn [String.eqb negb].
    destruct (String.eqb _ ""); reflexivity.
Qed.

(** The statement above for a request forwarded by two proxies. *)
Lemma realIP_takes_first_forwarded_witness :
  (http.Get (http.ReqHeader req_forwarded) "X-Forwarded-For" <> ""
   /\ http.Get (http.ReqHeader req_forwarded) "X-Forwarded-For"
      = " 203.0.113.7 " ++ ", 10.0.0.1"
   /\ ~ occursIn "," " 203.0.113.7 ")
  /\ server.realIP req_forwarded "192.0.2.1:4711" = "203.0.113.7".
Proof.
  assert (Hno : ~ occursIn "," " 203.0.113.7 ").
  { apply Contains_false. reflexivity. }
  split.
  - split; [discriminate | split; [reflexivity | exact Hno]].
  - apply (proj1 (realIP_takes_first_forwarded req_forwarded "192.0.2.1:4711"
                    " 203.0.113.7 " ", 10.0.0.1"));
      [discriminate | reflexivity | exact Hno | right; exists " 10.0.0.1"; reflexivity].
Defined.

(** ** The object handler: requests that bypass the cache *)

Section bypass.

Implicit Types (s : server.Server) (r : http.Request) (now : time.Time)
  (obj : origin.Object) (w : http.ResponseWriter).

Lemma handleOriginError_no_hint s w r (err : origin.Error) now (cKey : string) :
  answers (server.handleOriginError s w r err None now cKey)
          (http.status (server.writer (server.handleOriginError s w r err None now cKey))) s.
Proof.
  unfold answers, server.handleOriginError.
  destruct (origin.isNotModified err); cbn [server.after server.spawned]; [auto |].
  destruct (origin.isNotFound err); [auto |].
  destruct (origin.isPrecondition err); auto.
Qed.

Lemma handleOriginError_other s w r (err : origin.Error) (entry : option cache.loc)
    now (cKey : string) :
  origin.isNotModified err = false ->
  server.handleOriginError s w r err entry now cKey
  = server.handleOriginError s w r err None now cKey.
Proof. intros H. unfold server.handleOriginError. rewrite H. reflexivity. Qed.

Lemma status_handleOriginError s r (err : origin.Error) now (cKey : string) :
  http.status (server.writer
     (server.handleOriginError s http.newResponseWriter r err None now cKey))
  = statusOfError err.
Proof.
  unfold server.handleOriginError, http.NotFound.
  destruct err; cbn [origin.isNotModified origin.isNotFound origin.isPrecondition
                     server.writer statusOfError];
    try reflexivity;
    apply status_body_Error; discriminate.
Qed.

(** A GET that may not use the cache does not look it up. *)
Lemma consult_bypass s r now :
  http.Method r = "GET" -> server.shouldUseCache r = false ->
  (exists out, server.consult s r now = server.Answered out
               /\ server.after out = s /\ server.spawned out = None)
  \/ server.consult s r now = server.Proceed s false (objectKey r) None.
Proof.
  intros Hget Huse. unfold server.consult, objectKey.
  destruct (String.eqb _ ""); [left; eexists; repeat split |].
  destruct (strings.Contains _ ".."); [left; eexists; repeat split |].
  rewrite Hget, Huse. right. reflexivity.
Qed.

End bypass.

(** X12: a GET that may not use the cache (a [Range] header, or
    [no-cache] or [max-age=0] in [Cache-Control], or [no-cache] in
    [Pragma]) leaves the server exactly as it was, recency order
    included, whatever the origin answers, and starts no revalidation. *)
Theorem bypassing_GET_never_touches_the_cache
    (parse : string -> option time.Time) (fmt : time.Time -> string)
    (s : server.Server) (r : http.Request) (now : time.Time) :
  http.Method r = "GET" ->
  server.shouldUseCache r = false ->
  server.after (server.objectHandler parse fmt s r now) = s
  /\ server.spawned (server.objectHandler parse fmt s r now) = None.
Proof.
  intros Hget Huse. unfold server.objectHandler.
  destruct (consult_bypass s r now Hget Huse) as [(out & -> & Hafter & Hsp) | ->];
    [auto |].
  unfold server.fetchAndServe.
  destruct (server.fetchFromOrigin fmt s _ _ _) as [obj | err].
  - unfold server.serveObject, server.shouldStore. cbn [andb].
    apply passThrough_after.
  - pose proof (handleOriginError_no_hint s http.newResponseWriter r err now
                  (server.cacheKey (objectKey r))) as (_ & Ha & Hs).
    auto.
Qed.

(** The statement above for a range request answered by the origin. *)
Lemma bypassing_GET_never_touches_the_cache_witness :
  (http.Method req_range = "GET" /\ server.shouldUseCache req_range = false)
  /\ server.after (server.objectHandler noParse noFormat srv_stale req_range 12) = srv_stale
  /\ server.spawned (server.objectHandler noParse noFormat srv_stale req_range 12) = None.
Proof.
  split; [split; reflexivity |].
  apply (bypassing_GET_never_touches_the_cache noParse noFormat srv_stale req_range 12);
    reflexivity.
Defined.

(** ** The object handler: origin errors *)

(** X13: when the origin fetch fails, the answer is 404 for a missing
    object, 412 for a failed precondition, 304 for "not modified" and
    502 for anything else; unless the failure is "not modified" for a
    request that has a cached entry as hint, the server state stays as
    the cache consultation left it, so a cached entry survives the 404
    of its object. *)
Theorem origin_error_status
    (parse : string -> option time.Time) (fmt : time.Time -> string)
    (s : server.Server) (r : http.Request) (now : time.Time)
    (s1 : server.Server) (useCache : bool) (key : string)
    (entry : option cache.loc) (err : origin.Error) :
  server.consult s r now = server.Proceed s1 useCache key entry ->
  server.fetchFromOrigin fmt s1 key
    (server.outgoingConditional parse s1 r entry (http.Method r)) (http.Method r)
  = inr err ->
  (err = origin.ErrNotModified -> entry = None) ->
  answers (server.objectHandler parse fmt s r now) (statusOfError err) s1.
Proof.
  intros Hconsult Hfetch Hhint.
  unfold server.objectHandler, server.fetchAndServe. rewrite Hconsult, Hfetch.
  assert (Hsame : server.handleOriginError s1 http.newResponseWriter r err entry now
                    (server.cacheKey key)
                  = server.handleOriginError s1 http.newResponseWriter r err None now
                    (server.cacheKey key)).
  { destruct (origin.isNotModified err) eqn:E.
    - destruct err; try discriminate. rewrite (Hhint eq_refl). reflexivity.
    - apply handleOriginError_other. exact E. }
  rewrite Hsame.
  pose proof (handleOriginError_no_hint s1 http.newResponseWriter r err now
                (server.cacheKey key)) as (_ & Ha & Hs).
  unfold answers. rewrite status_handleOriginError. auto.
Qed.

(** The statement above for an origin that reports [NoSuchKey]. *)
Lemma origin_error_status_witness :
  (server.consult srv_gone req_hello 100 = server.Proceed srv_gone true "a.txt" None
   /\ server.fetchFromOrigin noFormat srv_gone "a.txt"
        (server.outgoingConditional noParse srv_gone req_hello None (http.Method req_hello))
        (http.Method req_hello)
      = inr origin.ErrNotFound)
  /\ answers (server.objectHandler noParse noFormat srv_gone req_hello 100) 404 srv_gone.
Proof.
  split; [split; reflexivity |].
  apply (origin_error_status noParse noFormat srv_gone req_hello 100 srv_gone true "a.txt"
           None origin.ErrNotFound eq_refl eq_refl).
  discriminate.
Defined.

(** ** The object handler: pass-through *)

Section pass_through.

Implicit Types (s : server.Server) (r : http.Request) (now : time.Time)
  (obj : origin.Object) (w : http.ResponseWriter).

(** What [GetObject] hands out on success is [toObject] of the SDK's
    answer with its body. *)
Lemma GetObject_inl (fmt : time.Time -> string) (c : origin.Client) (key : string)
    (cond : option origin.Conditional) obj :
  origin.GetObject fmt c key cond = inl obj ->
  exists resp : s3.GetObjectOutput,
    obj = origin.withBody (origin.toObject fmt resp http.StatusOK) (Some (s3.Body resp)).
Proof.
  unfold origin.GetObject. destruct (origin.s3GetObject c _) as [resp | e]; [| discriminate].
  intros [= <-]. exists resp. reflexivity.
Qed.

Lemma StatusCode_toObject (fmt : time.Time -> string) (resp : s3.GetObjectOutput) :
  origin.StatusCode (origin.toObject fmt resp http.StatusOK)
  = if String.eqb (aws.ToString (s3.ContentRange resp)) "" then 200 else 206.
Proof.
  unfold origin.toObject. cbn [origin.StatusCode].
  destruct (String.eqb _ ""); reflexivity.
Qed.

(** A delivered object has status 200 or 206, and a body when the
    request was not a HEAD. *)
Lemma fetch_shape (fmt : time.Time -> string) s (key : string)
    (cond : origin.Conditional) (method : string) obj :
  server.fetchFromOrigin fmt s key cond method = inl obj ->
  (origin.StatusCode obj = 200 \/ origin.StatusCode obj = 206)
  /\ (method <> "HEAD" -> exists rd, origin.Body obj = Some rd).
Proof.
  unfold server.fetchFromOrigin, http.MethodHead.
  destruct (String.eqb_spec method "HEAD") as [-> | Hne].
  - unfold origin.HeadObject. destruct (origin.s3HeadObject _ _); [| discriminate].
    intros [= <-]. split; [left; reflexivity | contradiction].
  - intros H. apply GetObject_inl in H as [resp ->].
    split; [| intros _; eexists; reflexivity].
    unfold origin.withBody. cbn [origin.StatusCode]. rewrite StatusCode_toObject.
    destruct (String.eqb _ ""); auto.
Qed.

(** The pass-through of a GET on a writer that has sent nothing: the
    origin's status, what is left of the stream, [X-Cache: MISS]. *)
Lemma passThrough_GET s (method : string) obj (rd : io.Reader) :
  method <> "HEAD" -> origin.StatusCode obj <> 0 ->
  http.status (server.writer (server.passThrough s http.newResponseWriter method obj (Some rd)))
  = origin.StatusCode obj
  /\ http.body (server.writer (server.passThrough s http.newResponseWriter method obj (Some rd)))
     = io.pending rd
  /\ http.Get (http.header (server.writer
        (server.passThrough s http.newResponseWriter method obj (Some rd)))) "X-Cache"
     = "MISS".
Proof.
  intros Hm Hst. unfold server.passThrough, http.MethodHead.
  apply String.eqb_neq in Hm. rewrite Hm.
  unfold http.Write, http.WriteHeader, http.withHeader, http.newResponseWriter, io.Copy.
  cbn [server.writer http.status http.body http.header fst].
  change (0 =? 0) with true. cbv iota. cbn [http.status http.body http.header].
  apply Z.eqb_neq in Hst. rewrite Hst. cbn [http.status http.body http.header].
  repeat split.
  unfold http.Get, http.Set_.
  destruct (_ >? 0).
  - rewrite lookup_insert_ne by discriminate. rewrite lookup_insert_eq. reflexivity.
  - rewrite lookup_insert_eq. reflexivity.
Qed.

End pass_through.

(** X14: an object that may not be admitted (too long, no declared
    length, [no-store], a 206, or a request that bypasses the cache) is
    streamed whole: a GET gets the origin's status, every byte of the
    origin's body and [X-Cache: MISS], and the server state stays as the
    cache consultation left it. *)
Theorem ineligible_object_is_streamed_whole
    (parse : string -> option time.Time) (fmt : time.Time -> string)
    (s : server.Server) (r : http.Request) (now : time.Time)
    (s1 : server.Server) (useCache : bool) (key : string)
    (entry : option cache.loc) (obj : origin.Object) :
  server.consult s r now = server.Proceed s1 useCache key entry ->
  http.Method r = "GET" ->
  server.fetchFromOrigin fmt s1 key
    (server.outgoingConditional parse s1 r entry (http.Method r)) (http.Method r)
  = inl obj ->
  ~ mayAdmit s1 r (server.outgoingConditional parse s1 r entry (http.Method r)) obj ->
  exists rd : io.Reader,
    origin.Body obj = Some rd
    /\ http.status (server.writer (server.objectHandler parse fmt s r now))
       = origin.StatusCode obj
    /\ http.body (server.writer (server.objectHandler parse fmt s r now)) = io.pending rd
    /\ http.Get (http.header (server.writer (server.objectHandler parse fmt s r now)))
         "X-Cache" = "MISS"
    /\ server.after (server.objectHandler parse fmt s r now) = s1.
Proof.
  intros Hconsult Hget Hfetch Hno.
  destruct (consult_Proceed s r now s1 useCache key entry Hconsult) as (_ & Huse & _).
  destruct (fetch_shape fmt s1 key _ _ obj Hfetch) as [Hstatus Hbody].
  destruct Hbody as [rd Hrd]; [rewrite Hget; discriminate |].
  unfold server.objectHandler, server.fetchAndServe. rewrite Hconsult, Hfetch.
  unfold server.serveObject.
  destruct (server.shouldStore s1 useCache (http.Method r) _ obj) eqn:Estore.
  { exfalso. apply Hno. apply shouldStore_true in Estore.
    unfold mayAdmit. rewrite <- Huse. exact Estore. }
  rewrite Hrd. exists rd. split; [reflexivity |].
  destruct (passThrough_GET s1 (http.Method r) obj rd) as (H1 & H2 & H3).
  - rewrite Hget. discriminate.
  - destruct Hstatus as [-> | ->]; discriminate.
  - repeat split; try assumption. apply passThrough_after.
Qed.

(** The statement above for the origin that answers with a
    [Content-Range]: the four bytes go out as a 206. *)
Lemma ineligible_object_is_streamed_whole_witness :
  (server.consult srv_partial req_x 12 = server.Proceed srv_partial true "x.txt" None
   /\ http.Method req_x = "GET"
   /\ server.fetchFromOrigin noFormat srv_partial "x.txt"
        (server.outgoingConditional noParse srv_partial req_x None (http.Method req_x))
        (http.Method req_x)
      = inl (origin.withBody (origin.toObject noFormat out_partial 200)
                             (Some (s3.Body out_partial)))
   /\ ~ mayAdmit srv_partial req_x
          (server.outgoingConditional noParse srv_partial req_x None (http.Method req_x))
          (origin.withBody (origin.toObject noFormat out_partial 200)
                           (Some (s3.Body out_partial))))
  /\ exists rd : io.Reader,
       origin.Body (origin.withBody (origin.toObject noFormat out_partial 200)
                                    (Some (s3.Body out_partial))) = Some rd
       /\ http.status (server.writer (server.objectHandler noParse noFormat srv_partial req_x 12))
          = origin.StatusCode (origin.withBody (origin.toObject noFormat out_partial 200)
                                               (Some (s3.Body out_partial)))
       /\ http.body (server.writer (server.objectHandler noParse noFormat srv_partial req_x 12))
          = io.pending rd
       /\ http.Get (http.header (server.writer
             (server.objectHandler noParse noFormat srv_partial req_x 12))) "X-Cache" = "MISS"
       /\ server.after (server.objectHandler noParse noFormat srv_partial req_x 12)
          = srv_partial.
Proof.
  assert (Hno : ~ mayAdmit srv_partial req_x
            (server.outgoingConditional noParse srv_partial req_x None (http.Method req_x))
            (origin.withBody (origin.toObject noFormat out_partial 200)
                             (Some (s3.Body out_partial)))).
  { intros (_ & _ & _ & Hst & _). discriminate Hst. }
  split.
  - split; [reflexivity | split; [reflexivity | split; [reflexivity | exact Hno]]].
  - apply (ineligible_object_is_streamed_whole noParse noFormat srv_partial req_x 12
             srv_partial true "x.txt" None _ eq_refl eq_refl eq_refl Hno).
Defined.

(** X15: a GET with a [Range] header goes to the origin with that range,
    verbatim, next to the client's own validators, and the cache is not
    asked; what the origin delivers goes out whole with [X-Cache: MISS],
    as 206 when it carries a [Content-Range] and as 200 otherwise, and
    nothing is admitted. *)
Theorem range_request_is_forwarded
    (parse : string -> option time.Time) (fmt : time.Time -> string)
    (s : server.Server) (r : http.Request) (now : time.Time)
    (resp : s3.GetObjectOutput) :
  http.Method r = "GET" ->
  objectKey r <> "" -> ~ occursIn ".." (objectKey r) ->
  http.Get (http.ReqHeader r) "Range" <> "" ->
  origin.s3GetObject (server.origin s)
    {| s3.Bucket := Some (origin.bucket (server.origin s));
       s3.Key := Some (objectKey r);
       s3.IfNoneMatch :=
         if String.eqb (http.Get (http.ReqHeader r) "If-None-Match") "" then None
         else Some (http.Get (http.ReqHeader r) "If-None-Match");
       s3.IfModifiedSince :=
         if String.eqb (http.Get (http.ReqHeader r) "If-Modified-Since") "" then None
         else parse (http.Get (http.ReqHeader r) "If-Modified-Since");
       s3.Range := Some (http.Get (http.ReqHeader r) "Range") |}
  = inl resp ->
  http.status (server.writer (server.objectHandler parse fmt s r now))
  = (if String.eqb (aws.ToString (s3.ContentRange resp)) "" then 200 else 206)
  /\ http.body (server.writer (server.objectHandler parse fmt s r now))
     = io.pending (s3.Body resp)
  /\ http.Get (http.header (server.writer (server.objectHandler parse fmt s r now)))
       "X-Cache" = "MISS"
  /\ server.after (server.objectHandler parse fmt s r now) = s.
Proof.
  intros Hget Hkey Hdd Hrange Hsdk.
  assert (Huse : server.shouldUseCache r = false).
  { unfold server.shouldUseCache, http.MethodGet. rewrite Hget. cbn [String.eqb negb].
    apply String.eqb_neq in Hrange. rewrite Hrange. reflexivity. }
  assert (Hconsult : server.consult s r now = server.Proceed s false (objectKey r) None).
  { unfold server.consult. fold (objectKey r).
    apply String.eqb_neq in Hkey. apply Contains_false in Hdd.
    rewrite Hkey, Hdd, Hget, Huse. reflexivity. }
  unfold server.objectHandler, server.fetchAndServe. rewrite Hconsult.
  assert (Hfetch : server.fetchFromOrigin fmt s (objectKey r)
                     (server.outgoingConditional parse s r None (http.Method r))
                     (http.Method r)
                   = inl (origin.withBody (origin.toObject fmt resp http.StatusOK)
                                          (Some (s3.Body resp)))).
  { unfold server.fetchFromOrigin, http.MethodHead. rewrite Hget.
    change (String.eqb "GET" "HEAD") with false. cbv iota.
    unfold server.outgoingConditional, http.MethodGet.
    change (String.eqb "GET" "GET") with true. cbv iota.
    unfold server.buildConditional, origin.GetObject.
    cbn [origin.IfNoneMatch origin.IfModifiedSince origin.Range aws.String_].
    apply String.eqb_neq in Hrange. rewrite Hrange. cbn [negb].
    unfold aws.String_.
    destruct (String.eqb (http.Get (http.ReqHeader r) "If-None-Match") "") eqn:Einm;
      cbn [negb]; [change (String.eqb "" "") with true | rewrite Einm]; cbn [negb];
      destruct (String.eqb (http.Get (http.ReqHeader r) "If-Modified-Since") "");
      cbn [negb]; rewrite Hsdk; reflexivity. }
  rewrite Hfetch.
  set (obj := origin.withBody (origin.toObject fmt resp http.StatusOK) (Some (s3.Body resp))).
  assert (Hst : origin.StatusCode obj
                = if String.eqb (aws.ToString (s3.ContentRange resp)) "" then 200 else 206).
  { unfold obj, origin.withBody. cbn [origin.StatusCode]. apply StatusCode_toObject. }
  unfold server.serveObject, server.shouldStore. cbn [andb].
  change (origin.Body obj) with (Some (s3.Body resp)).
  destruct (passThrough_GET s (http.Method r) obj (s3.Body resp)) as (H1 & H2 & H3).
  - rewrite Hget. discriminate.
  - rewrite Hst. destruct (String.eqb (aws.ToString (s3.ContentRange resp)) ""); discriminate.
  - rewrite H1, H2, H3, Hst. repeat split. apply passThrough_after.
Qed.

(** The statement above for a request of the first four bytes. *)
Lemma range_request_is_forwarded_witness :
  (http.Method req_range = "GET"
   /\ objectKey req_range <> "" /\ ~ occursIn ".." (objectKey req_range)
   /\ http.Get (http.ReqHeader req_range) "Range" <> "")
  /\ http.status (server.writer (server.objectHandler noParse noFormat srv_partial req_range 12))
     = (if String.eqb (aws.ToString (s3.ContentRange out_partial)) "" then 200 else 206)
  /\ http.body (server.writer (server.objectHandler noParse noFormat srv_partial req_range 12))
     = io.pending (s3.Body out_partial)
  /\ http.Get (http.header (server.writer
        (server.objectHandler noParse noFormat srv_partial req_range 12))) "X-Cache" = "MISS"
  /\ server.after (server.objectHandler noParse noFormat srv_partial req_range 12)
     = srv_partial.
Proof.
  assert (Hdd : ~ occursIn ".." (objectKey req_range)).
  { apply Contains_false. reflexivity. }
  split.
  - split; [reflexivity | split; [discriminate | split; [exact Hdd | discriminate]]].
  - apply (range_request_is_forwarded noParse noFormat srv_partial req_range 12 out_partial);
      [reflexivity | discriminate | exact Hdd | discriminate | reflexivity].
Defined.

(** ** Responses from the cache *)

Section from_cache.

Implicit Types (s : server.Server) (r : http.Request) (now : time.Time)
  (e : cache.Entry) (p : cache.loc).

Lemma writeCacheEntry_status_body r e now (state : string) :
  cache.Status e <> 0 ->
  http.status (server.writeCacheEntry http.newResponseWriter r e now state) = cache.Status e
  /\ http.body (server.writeCacheEntry http.newResponseWriter r e now state) = servedBody r e.
Proof.
  intros Hst. unfold server.writeCacheEntry, servedBody, http.MethodHead.
  unfold http.Write, http.WriteHeader, http.withHeader, http.newResponseWriter.
  cbn [http.status http.body http.header].
  change (0 =? 0) with true. cbv iota.
  destruct (String.eqb (http.Method r) "HEAD"); cbn [http.status http.body http.header];
    [auto |].
  apply Z.eqb_neq in Hst. rewrite Hst. cbn [http.status http.body http.header]. auto.
Qed.

Lemma header_writeCacheEntry r e now (state : string) :
  http.header (server.writeCacheEntry http.newResponseWriter r e now state)
  = http.Set_ (http.Set_ (server.copyHeaders ∅ (cache.Header e)) "Age"
                 (strconv.Itoa (cache.Age e now))) "X-Cache" state.
Proof.
  unfold server.writeCacheEntry, http.MethodHead.
  unfold http.Write, http.WriteHeader, http.withHeader, http.newResponseWriter.
  cbn [http.status http.body http.header].
  change (0 =? 0) with true. cbv iota.
  destruct (String.eqb (http.Method r) "HEAD"); cbn [http.status http.body http.header];
    [reflexivity |].
  destruct (_ =? 0); reflexivity.
Qed.

Lemma writeCacheEntry_XCache r e now (state : string) :
  http.Get (http.header (server.writeCacheEntry http.newResponseWriter r e now state)) "X-Cache"
  = state.
Proof.
  rewrite header_writeCacheEntry. unfold http.Get, http.Set_.
  rewrite lookup_insert_eq. reflexivity.
Qed.

Lemma writeCacheEntry_Age r e now (state : string) :
  http.Get (http.header (server.writeCacheEntry http.newResponseWriter r e now state)) "Age"
  = strconv.Itoa (cache.Age e now).
Proof.
  rewrite header_writeCacheEntry. unfold http.Get, http.Set_.
  rewrite lookup_insert_ne by discriminate. rewrite lookup_insert_eq. reflexivity.
Qed.

Lemma deref_Some (h : cache.Heap) p e : h !! p = Some e -> server.deref h p = e.
Proof. intros H. unfold server.deref. rewrite H. reflexivity. Qed.

Lemma probe_found s (cKey : string) p :
  cached (server.cache s) cKey = Some p ->
  fst (server.probe s true cKey) = Some p.
Proof.
  intros H. unfold server.probe, cache.Get.
  pose proof (Get_fst_Peek (cache.lru (server.cache s)) cKey) as Hfst.
  destruct (lru.Get (cache.lru (server.cache s)) cKey) as [x l]. cbn [fst] in *.
  rewrite Hfst. exact H.
Qed.

(** What the cache consultation does with a key that is cached. *)
Lemma consult_cached s r now p :
  objectKey r <> "" -> ~ occursIn ".." (objectKey r) ->
  mayLookUp r ->
  cached (server.cache s) (objectKey r) = Some p ->
  server.consult s r now
  = if cache.Fresh (server.deref (server.heap s) p) now then
      server.Answered
        {| server.writer := server.writeCacheEntry http.newResponseWriter r
                              (server.deref (server.heap s) p) now "HIT";
           server.after := snd (server.probe s true (objectKey r));
           server.spawned := None |}
    else if server.shouldUseCache r
            && cache.StaleButValid (server.deref (server.heap s) p) now
            && String.eqb (http.Method r) "GET" then
      server.Answered
        {| server.writer := server.writeCacheEntry http.newResponseWriter r
                              (server.deref (server.heap s) p) now "STALE";
           server.after := snd (server.probe s true (objectKey r));
           server.spawned := Some (objectKey r, p) |}
    else server.Proceed (snd (server.probe s true (objectKey r)))
                        (server.shouldUseCache r) (objectKey r) (Some p).
Proof.
  intros Hkey Hdd Hlook Hcached.
  unfold server.consult, http.MethodGet, http.MethodHead. fold (objectKey r).
  apply String.eqb_neq in Hkey. apply Contains_false in Hdd. rewrite Hkey, Hdd.
  assert (Hmethod : negb (String.eqb (http.Method r) "GET")
                    && negb (String.eqb (http.Method r) "HEAD") = false).
  { destruct Hlook as [[-> _] | ->]; reflexivity. }
  assert (Hlookup : server.shouldUseCache r || String.eqb (http.Method r) "HEAD" = true).
  { destruct Hlook as [[_ ->] | ->]; [reflexivity | apply orb_true_r]. }
  rewrite Hmethod, Hlookup. unfold server.cacheKey.
  pose proof (probe_found s (objectKey r) p Hcached) as Hfst.
  pose proof (probe_frame s true (objectKey r)) as (_ & Hheap & _).
  destruct (server.probe s true (objectKey r)) as [x s']. cbn [fst snd] in *.
  subst x. rewrite Hheap. reflexivity.
Qed.

End from_cache.

(** X16: a response written from a cached entry carries the entry's
    headers, except that the proxy's own [Age] (what [Entry.Age]
    gives at the instant of the response) and [X-Cache] replace whatever
    the entry had under those names. *)
Theorem cached_response_headers
    (r : http.Request) (e : cache.Entry) (now : time.Time) (state key : string) :
  http.Get (http.header (server.writeCacheEntry http.newResponseWriter r e now state)) "X-Cache"
  = state
  /\ http.Get (http.header (server.writeCacheEntry http.newResponseWriter r e now state)) "Age"
     = strconv.Itoa (cache.Age e now)
  /\ (key <> "Age" -> key <> "X-Cache" ->
      http.header (server.writeCacheEntry http.newResponseWriter r e now state) !! key
      = cache.Header e !! key).
Proof.
  split; [apply writeCacheEntry_XCache |]. split; [apply writeCacheEntry_Age |].
  intros Hage Hx. rewrite header_writeCacheEntry. unfold http.Set_, server.copyHeaders.
  rewrite !lookup_insert_ne by congruence.
  rewrite lookup_union_l; [reflexivity | apply lookup_empty].
Qed.

(** The statement above for an entry that has an [X-Cache] header of its
    own and a content type. *)
Lemma cached_response_headers_witness :
  ("Content-Type" <> "Age" /\ "Content-Type" <> "X-Cache")
  /\ http.header (server.writeCacheEntry http.newResponseWriter req_hello
        (cache.mkEntry [] (headerOf [("X-Cache", "STALE"); ("Content-Type", "text/plain")])
           200 0 10 5 0 "" 0) 3 "HIT") !! "Content-Type"
     = cache.Header (cache.mkEntry []
         (headerOf [("X-Cache", "STALE"); ("Content-Type", "text/plain")])
         200 0 10 5 0 "" 0) !! "Content-Type".
Proof.
  split; [split; discriminate |].
  apply (proj2 (proj2 (cached_response_headers req_hello
           (cache.mkEntry [] (headerOf [("X-Cache", "STALE"); ("Content-Type", "text/plain")])
              200 0 10 5 0 "" 0) 3 "HIT" "Content-Type"))); discriminate.
Defined.

(** X17: a fresh cached entry answers a GET that may use the cache, and
    any HEAD, without the origin: whatever origin stands behind the
    server, the response has the entry's status, the entry's body (none
    for a HEAD) and [X-Cache: HIT]; no revalidation is started, no
    record changes and every key stays bound as it was. *)
Theorem fresh_entry_is_served_without_origin
    (parse : string -> option time.Time) (fmt : time.Time -> string)
    (s : server.Server) (o : origin.Client) (r : http.Request) (now : time.Time)
    (p : cache.loc) (e : cache.Entry) :
  objectKey r <> "" -> ~ occursIn ".." (objectKey r) ->
  mayLookUp r ->
  cached (server.cache s) (objectKey r) = Some p ->
  server.heap s !! p = Some e ->
  cache.Status e <> 0 ->
  cache.Fresh e now = true ->
  http.status (server.writer (server.objectHandler parse fmt (withOrigin s o) r now))
  = cache.Status e
  /\ http.body (server.writer (server.objectHandler parse fmt (withOrigin s o) r now))
     = servedBody r e
  /\ http.Get (http.header (server.writer
        (server.objectHandler parse fmt (withOrigin s o) r now))) "X-Cache" = "HIT"
  /\ server.spawned (server.objectHandler parse fmt (withOrigin s o) r now) = None
  /\ server.heap (server.after (server.objectHandler parse fmt (withOrigin s o) r now))
     = server.heap s
  /\ forall k, cached (server.cache (server.after
                  (server.objectHandler parse fmt (withOrigin s o) r now))) k
               = cached (server.cache s) k.
Proof.
  intros Hkey Hdd Hlook Hcached Hp Hst Hfresh.
  unfold server.objectHandler.
  rewrite (consult_cached (withOrigin s o) r now p Hkey Hdd Hlook Hcached).
  cbn [withOrigin server.heap]. rewrite (deref_Some _ _ _ Hp).
  rewrite Hfresh. cbn [server.writer server.after server.spawned].
  destruct (writeCacheEntry_status_body r e now "HIT" Hst) as [H1 H2].
  pose proof (probe_frame (withOrigin s o) true (objectKey r)) as (_ & Hheap & _).
  pose proof (probe_bindings (withOrigin s o) true (objectKey r)) as [Hkeep _].
  repeat split; try assumption.
  apply writeCacheEntry_XCache.
Qed.

(** The statement above for [x.txt] of [srv_stale], read by a HEAD while
    it is fresh, in front of an origin that would fail. *)
Lemma fresh_entry_is_served_without_origin_witness :
  (objectKey req_head_x <> "" /\ ~ occursIn ".." (objectKey req_head_x)
   /\ mayLookUp req_head_x
   /\ cached (server.cache srv_stale) (objectKey req_head_x) = Some 1%positive
   /\ server.heap srv_stale !! 1%positive = Some entry_x
   /\ cache.Status entry_x <> 0
   /\ cache.Fresh entry_x 3 = true)
  /\ http.status (server.writer (server.objectHandler noParse noFormat
        (withOrigin srv_stale (originOf (inr s3.OtherError))) req_head_x 3))
     = cache.Status entry_x.
Proof.
  assert (Hdd : ~ occursIn ".." (objectKey req_head_x)).
  { apply Contains_false. reflexivity. }
  assert (Hlook : mayLookUp req_head_x) by (right; reflexivity).
  split.
  - repeat split; try reflexivity; try discriminate; assumption.
  - apply (fresh_entry_is_served_without_origin noParse noFormat srv_stale
             (originOf (inr s3.OtherError)) req_head_x 3 1%positive entry_x);
      try reflexivity; try discriminate; assumption.
Defined.

(** X18: a GET that may use the cache and finds an entry that is no
    longer fresh but still inside its stale window is answered from that
    entry with [X-Cache: STALE], whatever origin stands behind the
    server, and starts one revalidation for the object key with the
    pointer of the entry it served; no record changes and every key
    stays bound as it was. *)
Theorem stale_entry_is_served_and_revalidated
    (parse : string -> option time.Time) (fmt : time.Time -> string)
    (s : server.Server) (o : origin.Client) (r : http.Request) (now : time.Time)
    (p : cache.loc) (e : cache.Entry) :
  objectKey r <> "" -> ~ occursIn ".." (objectKey r) ->
  http.Method r = "GET" -> server.shouldUseCache r = true ->
  cached (server.cache s) (objectKey r) = Some p ->
  server.heap s !! p = Some e ->
  cache.Status e <> 0 ->
  cache.Fresh e now = false ->
  cache.StaleButValid e now = true ->
  http.status (server.writer (server.objectHandler parse fmt (withOrigin s o) r now))
  = cache.Status e
  /\ http.body (server.writer (server.objectHandler parse fmt (withOrigin s o) r now))
     = cache.Body e
  /\ http.Get (http.header (server.writer
        (server.objectHandler parse fmt (withOrigin s o) r now))) "X-Cache" = "STALE"
  /\ server.spawned (server.objectHandler parse fmt (withOrigin s o) r now)
     = Some (objectKey r, p)
  /\ server.heap (server.after (server.objectHandler parse fmt (withOrigin s o) r now))
     = server.heap s
  /\ forall k, cached (server.cache (server.after
                  (server.objectHandler parse fmt (withOrigin s o) r now))) k
               = cached (server.cache s) k.
Proof.
  intros Hkey Hdd Hget Huse Hcached Hp Hst Hfresh Hstale.
  unfold server.objectHandler.
  rewrite (consult_cached (withOrigin s o) r now p Hkey Hdd
             (or_introl (conj Hget Huse)) Hcached).
  cbn [withOrigin server.heap]. rewrite (deref_Some _ _ _ Hp).
  rewrite Hfresh, Huse, Hstale, Hget. change (String.eqb "GET" "GET") with true.
  cbn [andb server.writer server.after server.spawned].
  destruct (writeCacheEntry_status_body r e now "STALE" Hst) as [H1 H2].
  unfold servedBody in H2. rewrite Hget in H2. change (String.eqb "GET" "HEAD") with false in H2.
  pose proof (probe_frame (withOrigin s o) true (objectKey r)) as (_ & Hheap & _).
  pose proof (probe_bindings (withOrigin s o) true (objectKey r)) as [Hkeep _].
  repeat split; try assumption.
  apply writeCacheEntry_XCache.
Qed.

(** The statement above for [x.txt] of [srv_stale] at instant 12, past
    its 10 ns of freshness and inside its 5 ns stale window. *)
Lemma stale_entry_is_served_and_revalidated_witness :
  (objectKey req_x <> "" /\ ~ occursIn ".." (objectKey req_x)
   /\ http.Method req_x = "GET" /\ server.shouldUseCache req_x = true
   /\ cached (server.cache srv_stale) (objectKey req_x) = Some 1%positive
   /\ server.heap srv_stale !! 1%positive = Some entry_x
   /\ cache.Status entry_x <> 0
   /\ cache.Fresh entry_x 12 = false
   /\ cache.StaleButValid entry_x 12 = true)
  /\ server.spawned (server.objectHandler noParse noFormat
        (withOrigin srv_stale (originOf (inr s3.OtherError))) req_x 12)
     = Some (objectKey req_x, 1%positive).
Proof.
  assert (Hdd : ~ occursIn ".." (objectKey req_x)).
  { apply Contains_false. reflexivity. }
  split.
  - repeat split; try reflexivity; try discriminate; assumption.
  - apply (stale_entry_is_served_and_revalidated noParse noFormat srv_stale
             (originOf (inr s3.OtherError)) req_x 12 1%positive entry_x);
      try reflexivity; try discriminate; assumption.
Defined.

(** ** Re-freshening on "not modified" *)

Lemma defaults_frame (c : cache.Cache) (e : cache.Entry) :
  cache.Body (cache.defaults c e) = cache.Body e
  /\ cache.Header (cache.defaults c e) = cache.Header e
  /\ cache.StoredAt (cache.defaults c e) = cache.StoredAt e
  /\ cache.ETag (cache.defaults c e) = cache.ETag e
  /\ cache.LastModified (cache.defaults c e) = cache.LastModified e
  /\ cache.TTL (cache.defaults c e) = (if cache.TTL e =? 0 then cache.ttl c else cache.TTL e).
Proof.
  unfold cache.defaults.
  destruct (cache.TTL e =? 0) eqn:Ettl; cbn;
    destruct (cache.StaleTTL e =? 0); cbn; rewrite ?Ettl; repeat split.
Qed.

Lemma Age_at_StoredAt (e : cache.Entry) : cache.Age e (cache.StoredAt e) = 0.
Proof.
  unfold cache.Age, time.Before, time.Sub. rewrite Z.ltb_irrefl, Z.sub_diag. reflexivity.
Qed.

(** X19: when the origin answers "not modified" and the handler holds a
    cached entry for the key, it re-freshens that entry in place
    ([StoredAt] becomes the instant of the request; body, status,
    headers and ETag stay), keeps the key bound to the same record, and
    answers from it with [X-Cache: REVALIDATED] and [Age: 0]. *)
Theorem not_modified_refreshes_cached_entry
    (parse : string -> option time.Time) (fmt : time.Time -> string)
    (s : server.Server) (r : http.Request) (now : time.Time)
    (s1 : server.Server) (useCache : bool) (key : string)
    (p : cache.loc) (e : cache.Entry) :
  0 < lru.size (cache.lru (server.cache s)) ->
  server.consult s r now = server.Proceed s1 useCache key (Some p) ->
  server.fetchFromOrigin fmt s1 key
    (server.outgoingConditional parse s1 r (Some p) (http.Method r)) (http.Method r)
  = inr origin.ErrNotModified ->
  server.heap s1 !! p = Some e ->
  cache.Status e <> 0 ->
  http.status (server.writer (server.objectHandler parse fmt s r now)) = cache.Status e
  /\ http.body (server.writer (server.objectHandler parse fmt s r now)) = servedBody r e
  /\ http.Get (http.header (server.writer (server.objectHandler parse fmt s r now)))
       "X-Cache" = "REVALIDATED"
  /\ http.Get (http.header (server.writer (server.objectHandler parse fmt s r now)))
       "Age" = "0"
  /\ cached (server.cache (server.after (server.objectHandler parse fmt s r now))) key
     = Some p
  /\ exists e' : cache.Entry,
       server.heap (server.after (server.objectHandler parse fmt s r now)) !! p = Some e'
       /\ cache.StoredAt e' = now
       /\ cache.Body e' = cache.Body e
       /\ cache.Status e' = cache.Status e
       /\ cache.Header e' = cache.Header e
       /\ cache.ETag e' = cache.ETag e.
Proof.
  intros Hsz Hconsult Hfetch Hp Hst.
  destruct (consult_Proceed s r now s1 useCache key (Some p) Hconsult)
    as (_ & _ & _ & _ & _ & Hsize).
  rewrite <- Hsize in Hsz.
  unfold server.objectHandler, server.fetchAndServe. rewrite Hconsult, Hfetch.
  unfold server.handleOriginError. cbn [origin.isNotModified].
  unfold cache.Set_. cbv beta iota.
  cbn [server.writer server.after server.spawned].
  set (e' := cache.defaults (server.cache s1) (cache.setStoredAt now e)).
  assert (Hheap : alter (cache.defaults (server.cache s1)) p
                    (alter (cache.setStoredAt now) p (server.heap s1)) !! p = Some e').
  { rewrite !lookup_alter_eq, Hp. reflexivity. }
  rewrite (deref_Some _ _ _ Hheap).
  destruct (defaults_frame (server.cache s1) (cache.setStoredAt now e))
    as (Hbody & Hheader & Hstored & Hetag & _ & _).
  fold e' in Hbody, Hheader, Hstored, Hetag.
  cbn [cache.setStoredAt cache.Body cache.Header cache.StoredAt cache.ETag] in *.
  assert (Hstatus : cache.Status e' = cache.Status e).
  { unfold e'. rewrite Status_defaults. reflexivity. }
  destruct (writeCacheEntry_status_body r e' now "REVALIDATED") as [H1 H2];
    [rewrite Hstatus; exact Hst |].
  assert (Hage : cache.Age e' now = 0).
  { rewrite <- Hstored. apply Age_at_StoredAt. }
  rewrite H1, H2, writeCacheEntry_XCache, writeCacheEntry_Age, Hage.
  unfold servedBody. rewrite Hbody, Hstatus.
  repeat split.
  - unfold cached, server.withCache. cbn [server.cache cache.lru].
    apply Peek_Add. exact Hsz.
  - exists e'. unfold server.withCache. cbn [server.heap]. auto 10.
Qed.

(** The statement above for [x.txt] of [srv_stale], asked for after its
    stale window ended, with an origin that answers "not modified". *)
Lemma not_modified_refreshes_cached_entry_witness :
  (0 < lru.size (cache.lru (server.cache srv_stale_304))
   /\ server.consult srv_stale_304 req_x 20
      = server.Proceed srv_stale_304 true "x.txt" (Some 1%positive)
   /\ server.fetchFromOrigin noFormat srv_stale_304 "x.txt"
        (server.outgoingConditional noParse srv_stale_304 req_x (Some 1%positive)
           (http.Method req_x))
        (http.Method req_x)
      = inr origin.ErrNotModified
   /\ server.heap srv_stale_304 !! 1%positive = Some entry_x
   /\ cache.Status entry_x <> 0)
  /\ http.Get (http.header (server.writer
        (server.objectHandler noParse noFormat srv_stale_304 req_x 20))) "X-Cache"
     = "REVALIDATED".
Proof.
  split.
  - repeat split; try reflexivity; try discriminate.
  - apply (not_modified_refreshes_cached_entry noParse noFormat srv_stale_304 req_x 20
             srv_stale_304 true "x.txt" 1%positive entry_x);
      try reflexivity; try discriminate.
Defined.

(** ** A miss followed by a hit *)

Section miss_then_hit.

Implicit Types (s : server.Server) (r : http.Request) (now : time.Time)
  (e : cache.Entry) (p : cache.loc) (obj : origin.Object).

(** The response to a request that finds a fresh entry. *)
Lemma fresh_hit_response (parse : string -> option time.Time) (fmt : time.Time -> string)
    s r now p e :
  objectKey r <> "" -> ~ occursIn ".." (objectKey r) ->
  mayLookUp r ->
  cached (server.cache s) (objectKey r) = Some p ->
  server.heap s !! p = Some e ->
  cache.Status e <> 0 ->
  cache.Fresh e now = true ->
  http.status (server.writer (server.objectHandler parse fmt s r now)) = cache.Status e
  /\ http.body (server.writer (server.objectHandler parse fmt s r now)) = servedBody r e
  /\ http.Get (http.header (server.writer (server.objectHandler parse fmt s r now)))
       "X-Cache" = "HIT".
Proof.
  intros Hkey Hdd Hlook Hcached Hp Hst Hfresh.
  unfold server.objectHandler.
  rewrite (consult_cached s r now p Hkey Hdd Hlook Hcached).
  rewrite (deref_Some _ _ _ Hp), Hfresh. cbn [server.writer].
  destruct (writeCacheEntry_status_body r e now "HIT" Hst) as [H1 H2].
  repeat split; try assumption. apply writeCacheEntry_XCache.
Qed.

(** A request that reaches the origin has a well-formed object key. *)
Lemma consult_Proceed_key s r now s1 (useCache : bool) (key : string)
    (entry : option cache.loc) :
  server.consult s r now = server.Proceed s1 useCache key entry ->
  key = objectKey r /\ objectKey r <> "" /\ ~ occursIn ".." (objectKey r).
Proof.
  unfold server.consult. fold (objectKey r).
  destruct (String.eqb_spec (objectKey r) "") as [? | Hkey]; [discriminate |].
  destruct (strings.Contains (objectKey r) "..") eqn:Hdd; [discriminate |].
  apply Contains_false in Hdd.
  destruct (negb _ && negb _); [discriminate |].
  destruct (server.probe _ _ _) as [e s'].
  destruct e as [p |];
    [ destruct (cache.Fresh _ _); [discriminate |];
      destruct (_ && _); [discriminate |] | ];
    intros [= _ _ <- _]; auto.
Qed.

(** The entry that the miss path builds always has a positive [TTL]
    when the configured default is positive, whatever [max-age] says. *)
Lemma TTL_newEntry_pos s obj (body : list byte) now :
  0 < config.CacheTTL (server.cfg s) ->
  0 < cache.TTL (server.newEntry s obj body now).
Proof.
  intros Hcfg. unfold server.newEntry. cbn [cache.TTL].
  destruct (Z.leb_spec (server.ttlFromHeaders (origin.Headers obj)
                          (config.CacheTTL (server.cfg s))) 0).
  - cbn [cache.setTTL cache.TTL]. exact Hcfg.
  - cbn [cache.TTL]. assumption.
Qed.

End miss_then_hit.

(** X20: an object that the handler admits is served from the cache to
    the next request for it: the admitted entry is stored at the instant
    of the request with status 200, the body that went to the client and
    a positive [TTL] (whatever [max-age] the origin sent, given a
    positive configured default), and until that [TTL] has passed the
    same request is answered 200 with the same body and [X-Cache: HIT],
    whatever origin then stands behind the server. *)
Theorem admitted_object_is_served_from_cache_next
    (parse : string -> option time.Time) (fmt : time.Time -> string)
    (s : server.Server) (r : http.Request) (now : time.Time)
    (s1 : server.Server) (useCache : bool) (key : string)
    (entry : option cache.loc) (obj : origin.Object) :
  0 < lru.size (cache.lru (server.cache s)) ->
  0 < config.CacheTTL (server.cfg s) ->
  server.consult s r now = server.Proceed s1 useCache key entry ->
  server.fetchFromOrigin fmt s1 key
    (server.outgoingConditional parse s1 r entry (http.Method r)) (http.Method r)
  = inl obj ->
  mayAdmit s1 r (server.outgoingConditional parse s1 r entry (http.Method r)) obj ->
  bufferedWithinBudget s1 obj ->
  exists e : cache.Entry,
    cachedEntry (server.after (server.objectHandler parse fmt s r now)) key = Some e
    /\ cache.StoredAt e = now
    /\ 0 < cache.TTL e
    /\ cache.Status e = 200
    /\ cache.Body e = http.body (server.writer (server.objectHandler parse fmt s r now))
    /\ forall (now' : time.Time) (o : origin.Client),
         now' < now + cache.TTL e ->
         http.status (server.writer (server.objectHandler parse fmt
            (withOrigin (server.after (server.objectHandler parse fmt s r now)) o) r now'))
         = 200
         /\ http.body (server.writer (server.objectHandler parse fmt
              (withOrigin (server.after (server.objectHandler parse fmt s r now)) o) r now'))
            = cache.Body e
         /\ http.Get (http.header (server.writer (server.objectHandler parse fmt
              (withOrigin (server.after (server.objectHandler parse fmt s r now)) o) r now')))
              "X-Cache" = "HIT".
Proof.
  intros Hsz Hcfg Hconsult Hfetch Hmay Hbudget.
  destruct (consult_Proceed s r now s1 useCache key entry Hconsult)
    as (_ & Huse & _ & Hcfg1 & _ & Hsize).
  destruct (consult_Proceed_key s r now s1 useCache key entry Hconsult)
    as (Hk & Hkey & Hdd).
  rewrite <- Hsize in Hsz. rewrite <- Hcfg1 in Hcfg.
  assert (Hstore : server.shouldStore s1 useCache (http.Method r)
                     (server.outgoingConditional parse s1 r entry (http.Method r)) obj = true).
  { apply shouldStore_true. rewrite Huse. exact Hmay. }
  destruct Hmay as (Huc & Hget & _ & Hstatus & _).
  destruct Hbudget as (rd & Hbody & Hok & Hfit).
  set (out := server.objectHandler parse fmt s r now).
  assert (Hout : out = server.serveObject s1 http.newResponseWriter r now (server.cacheKey key)
                         useCache (http.Method r)
                         (server.outgoingConditional parse s1 r entry (http.Method r)) obj).
  { unfold out, server.objectHandler, server.fetchAndServe. rewrite Hconsult, Hfetch.
    reflexivity. }
  unfold server.serveObject in Hout. rewrite Hstore, Hbody, Hok in Hout.
  set (d := io.ReadAllLimit rd _) in *.
  destruct (Z.gtb_spec (Z.of_nat (length (io.data d))) (config.MaxObjectSize (server.cfg s1)))
    as [? | _]; [lia |].
  set (e0 := server.newEntry s1 obj (io.data d) now) in *.
  pose proof (alloc_fresh (server.heap s1) e0) as [_ Hsome].
  destruct (server.alloc (server.heap s1) e0) as [p h1]. cbn [fst snd] in Hsome.
  unfold cache.Set_ in Hout. cbv beta iota in Hout.
  set (e := cache.defaults (server.cache s1) e0).
  assert (Hh2 : alter (cache.defaults (server.cache s1)) p h1 !! p = Some e).
  { rewrite lookup_alter_eq, Hsome. reflexivity. }
  rewrite (deref_Some _ _ _ Hh2) in Hout.
  destruct (defaults_frame (server.cache s1) e0) as (Hb & _ & Hsa & _ & _ & Httl).
  fold e in Hb, Hsa, Httl.
  pose proof (TTL_newEntry_pos s1 obj (io.data d) now Hcfg) as Hpos. fold e0 in Hpos.
  assert (Hstat : cache.Status e = 200).
  { unfold e. rewrite Status_defaults. unfold e0. rewrite Status_newEntry. exact Hstatus. }
  assert (Hstored : cache.StoredAt e = now).
  { rewrite Hsa. unfold e0, server.newEntry. destruct (_ <=? 0); reflexivity. }
  assert (Httl' : cache.TTL e = cache.TTL e0).
  { rewrite Httl. destruct (Z.eqb_spec (cache.TTL e0) 0); [lia | reflexivity]. }
  assert (Hcached : cached (server.cache (server.after out)) (objectKey r) = Some p).
  { rewrite Hout. unfold cached, server.withCache. cbn [server.after server.cache cache.lru].
    rewrite <- Hk. apply Peek_Add. exact Hsz. }
  assert (Hheap : server.heap (server.after out) !! p = Some e).
  { rewrite Hout. unfold server.withCache. cbn [server.after server.heap]. exact Hh2. }
  assert (Hfirst : http.body (server.writer out) = cache.Body e).
  { rewrite Hout. cbn [server.writer].
    destruct (writeCacheEntry_status_body r e now "MISS") as [_ H2]; [rewrite Hstat; discriminate |].
    rewrite H2. unfold servedBody. rewrite Hget. reflexivity. }
  exists e. split.
  { unfold cachedEntry. rewrite Hk, Hcached. exact Hheap. }
  split; [exact Hstored |]. split; [lia |]. split; [exact Hstat |].
  split; [symmetry; exact Hfirst |].
  intros now' o Hnow'.
  destruct (fresh_hit_response parse fmt (withOrigin (server.after out) o) r now' p e)
    as (H1 & H2 & H3); try assumption.
  - left. split; assumption.
  - rewrite Hstat. discriminate.
  - apply Fresh_iff. lia.
  - rewrite H1, H2, H3. unfold servedBody. rewrite Hget. auto.
Qed.

(** The statement above in scenario S1. *)
Lemma admitted_object_is_served_from_cache_next_witness :
  (0 < lru.size (cache.lru (server.cache srv_hello))
   /\ 0 < config.CacheTTL (server.cfg srv_hello)
   /\ server.consult srv_hello req_hello 100 = server.Proceed srv_hello true "a.txt" None
   /\ server.fetchFromOrigin noFormat srv_hello "a.txt"
        (server.outgoingConditional noParse srv_hello req_hello None (http.Method req_hello))
        (http.Method req_hello)
      = inl obj_hello
   /\ mayAdmit srv_hello req_hello
        (server.outgoingConditional noParse srv_hello req_hello None (http.Method req_hello))
        obj_hello
   /\ bufferedWithinBudget srv_hello obj_hello)
  /\ exists e : cache.Entry,
       cachedEntry (server.after (server.objectHandler noParse noFormat srv_hello req_hello 100))
         "a.txt" = Some e
       /\ cache.StoredAt e = 100
       /\ 0 < cache.TTL e
       /\ cache.Status e = 200
       /\ cache.Body e
          = http.body (server.writer (server.objectHandler noParse noFormat srv_hello req_hello 100))
       /\ forall (now' : time.Time) (o : origin.Client),
            now' < 100 + cache.TTL e ->
            http.status (server.writer (server.objectHandler noParse noFormat
               (withOrigin (server.after
                  (server.objectHandler noParse noFormat srv_hello req_hello 100)) o)
               req_hello now')) = 200
            /\ http.body (server.writer (server.objectHandler noParse noFormat
                 (withOrigin (server.after
                    (server.objectHandler noParse noFormat srv_hello req_hello 100)) o)
                 req_hello now'))
               = cache.Body e
            /\ http.Get (http.header (server.writer (server.objectHandler noParse noFormat
                 (withOrigin (server.after
                    (server.objectHandler noParse noFormat srv_hello req_hello 100)) o)
                 req_hello now'))) "X-Cache" = "HIT".
Proof.
  assert (Hmay : mayAdmit srv_hello req_hello
            (server.outgoingConditional noParse srv_hello req_hello None (http.Method req_hello))
            obj_hello).
  { repeat split; try reflexivity; try (cbn; lia). }
  assert (Hbudget : bufferedWithinBudget srv_hello obj_hello).
  { exists (s3.Body out_hello).
    split; [reflexivity | split; [reflexivity | vm_compute; discriminate]]. }
  split.
  - repeat split; try reflexivity; try assumption; try apply Hmay.
  - apply (admitted_object_is_served_from_cache_next noParse noFormat srv_hello req_hello 100
             srv_hello true "a.txt" None obj_hello);
      try reflexivity; assumption.
Defined.

(** ** The revalidation task *)

Section revalidation.

Implicit Types (s : server.Server) (now : time.Time) (e : cache.Entry) (p : cache.loc).

Lemma revalidate_unfold (fmt : time.Time -> string) s (key : string) p now e :
  server.heap s !! p = Some e ->
  server.revalidate fmt s key p now
  = match origin.GetObject fmt (server.origin s) key (Some (staleConditional e)) with
    | inr err =>
        if origin.isNotModified err then
          server.withCache s
            (fst (cache.Set_ (server.cache s) (server.cacheKey key) p
                    (alter (cache.setStoredAt now) p (server.heap s))))
            (snd (cache.Set_ (server.cache s) (server.cacheKey key) p
                    (alter (cache.setStoredAt now) p (server.heap s))))
        else s
    | inl obj => server.revalidate fmt s key p now
    end.
Proof.
  intros Hp. unfold server.revalidate at 1. rewrite (deref_Some _ _ _ Hp).
  fold (staleConditional e).
  destruct (origin.GetObject fmt (server.origin s) key (Some (staleConditional e)))
    as [obj | err] eqn:E.
  - unfold server.revalidate. rewrite (deref_Some _ _ _ Hp). fold (staleConditional e).
    rewrite E. reflexivity.
  - destruct (origin.isNotModified err); reflexivity.
Qed.

(** What a "not modified" answer makes of the server. *)
Lemma revalidate_not_modified (fmt : time.Time -> string) s (key : string) p now e :
  0 < lru.size (cache.lru (server.cache s)) ->
  server.heap s !! p = Some e ->
  origin.GetObject fmt (server.origin s) key (Some (staleConditional e))
  = inr origin.ErrNotModified ->
  cached (server.cache (server.revalidate fmt s key p now)) key = Some p
  /\ server.heap (server.revalidate fmt s key p now) !! p
     = Some (cache.defaults (server.cache s) (cache.setStoredAt now e))
  /\ (forall q, q <> p ->
        server.heap (server.revalidate fmt s key p now) !! q = server.heap s !! q)
  /\ (forall k, k <> key ->
        cached (server.cache (server.revalidate fmt s key p now)) k = Some p \/
        cached (server.cache (server.revalidate fmt s key p now)) k = None \/
        cached (server.cache (server.revalidate fmt s key p now)) k
        = cached (server.cache s) k).
Proof.
  intros Hsz Hp Hget. rewrite (revalidate_unfold fmt s key p now e Hp), Hget.
  cbn [origin.isNotModified]. unfold cache.Set_, server.withCache, server.cacheKey.
  cbn [fst snd server.cache server.heap].
  split; [unfold cached; cbn [cache.lru]; apply Peek_Add; exact Hsz |].
  split; [rewrite !lookup_alter_eq, Hp; reflexivity |].
  split; [intros q Hq; rewrite !lookup_alter_ne by congruence; reflexivity |].
  intros k Hk. unfold cached. cbn [cache.lru].
  destruct (lru.Peek (lru.Add (cache.lru (server.cache s)) key p) k) as [q |] eqn:E;
    [| auto].
  right. right. symmetry. eapply Peek_Add_ne; eauto.
Qed.

End revalidation.

(** X21: the revalidation task changes nothing unless the origin says
    "not modified" or delivers an object it can store: after any other
    error, after an object without a positive length or longer than
    [MaxObjectSize], and after a read that fails or overflows, the
    server is exactly as before. *)
Theorem revalidate_leaves_state_otherwise
    (fmt : time.Time -> string) (s : server.Server) (key : string)
    (p : cache.loc) (now : time.Time) (e : cache.Entry) :
  server.heap s !! p = Some e ->
  (exists err, origin.GetObject fmt (server.origin s) key (Some (staleConditional e)) = inr err
               /\ err <> origin.ErrNotModified)
  \/ (exists obj, origin.GetObject fmt (server.origin s) key (Some (staleConditional e)) = inl obj
                  /\ (origin.ContentLength obj <= 0
                      \/ config.MaxObjectSize (server.cfg s) < origin.ContentLength obj
                      \/ ~ bufferedWithinBudget s obj)) ->
  server.revalidate fmt s key p now = s.
Proof.
  intros Hp [(err & Hget & Herr) | (obj & Hget & Hobj)].
  - rewrite (revalidate_unfold fmt s key p now e Hp), Hget.
    destruct err; try reflexivity. contradiction.
  - unfold server.revalidate. rewrite (deref_Some _ _ _ Hp). fold (staleConditional e).
    rewrite Hget.
    destruct (Z.leb_spec (origin.ContentLength obj) 0) as [? | Hpos]; [reflexivity |].
    destruct (Z.gtb_spec (origin.ContentLength obj) (config.MaxObjectSize (server.cfg s)))
      as [? | Hle]; [reflexivity |].
    cbn [orb].
    destruct Hobj as [? | [? | Hno]]; [lia | lia |].
    destruct (origin.Body obj) as [rd |] eqn:Ebody; [| reflexivity].
    destruct (io.failed _) eqn:Efail; [reflexivity |].
    destruct (Z.gtb_spec (Z.of_nat (length (io.data (io.ReadAllLimit rd
                (wrap64 (config.MaxObjectSize (server.cfg s) + 1))))))
              (config.MaxObjectSize (server.cfg s))) as [? | Hfit]; [reflexivity |].
    exfalso. apply Hno. exists rd. auto.
Qed.

(** The statement above for an origin that has lost the object. *)
Lemma revalidate_leaves_state_otherwise_witness :
  server.heap (withOrigin srv_stale (originOf (inr (s3.APIError "NoSuchKey")))) !! 1%positive
  = Some entry_x
  /\ server.revalidate noFormat
       (withOrigin srv_stale (originOf (inr (s3.APIError "NoSuchKey")))) "x.txt" 1%positive 20
     = withOrigin srv_stale (originOf (inr (s3.APIError "NoSuchKey"))).
Proof.
  split; [reflexivity |].
  apply (revalidate_leaves_state_otherwise noFormat
           (withOrigin srv_stale (originOf (inr (s3.APIError "NoSuchKey")))) "x.txt"
           1%positive 20 entry_x); [reflexivity |].
  left. exists origin.ErrNotFound. split; [reflexivity | discriminate].
Defined.

(** X22: on "not modified" the revalidation task writes the instant into
    [StoredAt] of the record it was started with and binds the key to
    that record, whatever the cache holds under the key by then: a key
    purged or re-admitted in the meantime ends up bound to the
    revalidated record again. No other record changes. *)
Theorem revalidate_not_modified_rebinds_key
    (fmt : time.Time -> string) (s : server.Server) (key : string)
    (p : cache.loc) (now : time.Time) (e : cache.Entry) :
  0 < lru.size (cache.lru (server.cache s)) ->
  server.heap s !! p = Some e ->
  origin.GetObject fmt (server.origin s) key (Some (staleConditional e))
  = inr origin.ErrNotModified ->
  cached (server.cache (server.revalidate fmt s key p now)) key = Some p
  /\ (exists e' : cache.Entry,
        server.heap (server.revalidate fmt s key p now) !! p = Some e'
        /\ cache.StoredAt e' = now
        /\ cache.Body e' = cache.Body e
        /\ cache.Status e' = cache.Status e
        /\ cache.Header e' = cache.Header e
        /\ cache.ETag e' = cache.ETag e)
  /\ (forall q, q <> p ->
        server.heap (server.revalidate fmt s key p now) !! q = server.heap s !! q).
Proof.
  intros Hsz Hp Hget.
  destruct (revalidate_not_modified fmt s key p now e Hsz Hp Hget) as (Hc & Hh & Hq & _).
  split; [exact Hc |]. split; [| exact Hq].
  exists (cache.defaults (server.cache s) (cache.setStoredAt now e)).
  destruct (defaults_frame (server.cache s) (cache.setStoredAt now e))
    as (Hbody & Hheader & Hstored & Hetag & _ & _).
  rewrite Status_defaults. auto 10.
Qed.

(** The statement above for a revalidation that ends after [x.txt] was
    purged: the key is back. *)
Lemma revalidate_not_modified_rebinds_key_witness :
  (0 < lru.size (cache.lru (server.cache srv_purged_304))
   /\ cached (server.cache srv_purged_304) "x.txt" = None
   /\ server.heap srv_purged_304 !! 1%positive = Some entry_x
   /\ origin.GetObject noFormat (server.origin srv_purged_304) "x.txt"
        (Some (staleConditional entry_x))
      = inr origin.ErrNotModified)
  /\ cached (server.cache (server.revalidate noFormat srv_purged_304 "x.txt" 1%positive 20))
       "x.txt" = Some 1%positive.
Proof.
  split; [repeat split; reflexivity |].
  apply (revalidate_not_modified_rebinds_key noFormat srv_purged_304 "x.txt" 1%positive 20
           entry_x); reflexivity.
Defined.

(** X23: after a revalidation that ended with "not modified" the entry
    is fresh again: for an entry with a positive [TTL], every request
    for the key that may look the cache up is a HIT, served with the
    entry's status and body, until that [TTL] has passed since the
    revalidation. *)
Theorem revalidated_entry_is_fresh_again
    (parse : string -> option time.Time) (fmt : time.Time -> string)
    (s : server.Server) (r : http.Request) (p : cache.loc) (e : cache.Entry)
    (now now' : time.Time) :
  0 < lru.size (cache.lru (server.cache s)) ->
  objectKey r <> "" -> ~ occursIn ".." (objectKey r) -> mayLookUp r ->
  server.heap s !! p = Some e ->
  cache.Status e <> 0 -> 0 < cache.TTL e ->
  origin.GetObject fmt (server.origin s) (objectKey r) (Some (staleConditional e))
  = inr origin.ErrNotModified ->
  now' < now + cache.TTL e ->
  http.status (server.writer (server.objectHandler parse fmt
     (server.revalidate fmt s (objectKey r) p now) r now')) = cache.Status e
  /\ http.body (server.writer (server.objectHandler parse fmt
       (server.revalidate fmt s (objectKey r) p now) r now')) = servedBody r e
  /\ http.Get (http.header (server.writer (server.objectHandler parse fmt
       (server.revalidate fmt s (objectKey r) p now) r now'))) "X-Cache" = "HIT".
Proof.
  intros Hsz Hkey Hdd Hlook Hp Hst Httl Hget Hnow.
  destruct (revalidate_not_modified fmt s (objectKey r) p now e Hsz Hp Hget)
    as (Hc & Hh & _ & _).
  set (e' := cache.defaults (server.cache s) (cache.setStoredAt now e)) in *.
  destruct (defaults_frame (server.cache s) (cache.setStoredAt now e))
    as (Hbody & _ & Hstored & _ & _ & Httl').
  fold e' in Hbody, Hstored, Httl'.
  cbn [cache.setStoredAt cache.Body cache.StoredAt cache.TTL] in *.
  assert (Hstatus : cache.Status e' = cache.Status e).
  { unfold e'. rewrite Status_defaults. reflexivity. }
  assert (Httl2 : cache.TTL e' = cache.TTL e).
  { rewrite Httl'. destruct (Z.eqb_spec (cache.TTL e) 0); [lia | reflexivity]. }
  destruct (fresh_hit_response parse fmt (server.revalidate fmt s (objectKey r) p now)
              r now' p e') as (H1 & H2 & H3); try assumption.
  - rewrite Hstatus. exact Hst.
  - apply Fresh_iff. rewrite Hstored, Httl2. exact Hnow.
  - rewrite H1, H2, H3, Hstatus. unfold servedBody. rewrite Hbody. auto.
Qed.

(** The statement above for [x.txt] of [srv_stale], revalidated at
    instant 20 and read again at instant 25. *)
Lemma revalidated_entry_is_fresh_again_witness :
  (0 < lru.size (cache.lru (server.cache srv_stale_304))
   /\ objectKey req_x <> "" /\ ~ occursIn ".." (objectKey req_x) /\ mayLookUp req_x
   /\ server.heap srv_stale_304 !! 1%positive = Some entry_x
   /\ cache.Status entry_x <> 0 /\ 0 < cache.TTL entry_x
   /\ origin.GetObject noFormat (server.origin srv_stale_304) (objectKey req_x)
        (Some (staleConditional entry_x))
      = inr origin.ErrNotModified
   /\ 25 < 20 + cache.TTL entry_x)
  /\ http.Get (http.header (server.writer (server.objectHandler noParse noFormat
       (server.revalidate noFormat srv_stale_304 (objectKey req_x) 1%positive 20) req_x 25)))
       "X-Cache" = "HIT".
Proof.
  assert (Hdd : ~ occursIn ".." (objectKey req_x)) by (apply Contains_false; reflexivity).
  assert (Hlook : mayLookUp req_x) by (left; split; reflexivity).
  split.
  - repeat split; try reflexivity; try discriminate; assumption.
  - apply (revalidated_entry_is_fresh_again noParse noFormat srv_stale_304 req_x 1%positive
             entry_x 20 25); try reflexivity; try discriminate; assumption.
Defined.

(** ** Purging *)

Section purging.

Implicit Types (s : server.Server) (c : cache.Cache) (keys : list string).

Lemma cached_Delete_same c (key : string) : cached (cache.Delete c key) key = None.
Proof.
  unfold cached, lru.Peek, cache.Delete, lru.Remove. cbn [cache.lru lru.items].
  apply find_remove_same.
Qed.

Lemma cached_Delete_ne c (key k : string) :
  k <> key -> cached (cache.Delete c key) k = cached c k.
Proof.
  intros Hne. unfold cached, lru.Peek, cache.Delete, lru.Remove. cbn [cache.lru lru.items].
  apply find_remove_ne. exact Hne.
Qed.

Lemma cached_Delete_None c (key k : string) :
  cached c k = None -> cached (cache.Delete c key) k = None.
Proof.
  intros H. destruct (String.eqb_spec k key) as [-> | Hne].
  - apply cached_Delete_same.
  - rewrite cached_Delete_ne by exact Hne. exact H.
Qed.

Lemma purgeKeys_cons c (key : string) keys :
  server.purgeKeys c (key :: keys)
  = server.purgeKeys
      (if String.eqb (strings.TrimSpace key) "" then c
       else cache.Delete c (server.cacheKey (strings.TrimSpace key))) keys.
Proof. reflexivity. Qed.

Lemma purgeKeys_None keys : forall c (k : string),
  cached c k = None -> cached (server.purgeKeys c keys) k = None.
Proof.
  induction keys as [| key keys IH]; intros c k H; [exact H |].
  rewrite purgeKeys_cons. apply IH.
  destruct (String.eqb (strings.TrimSpace key) ""); [exact H |].
  apply cached_Delete_None. exact H.
Qed.

Lemma purgeKeys_listed keys : forall c (k : string),
  k <> "" -> In k (map strings.TrimSpace keys) ->
  cached (server.purgeKeys c keys) k = None.
Proof.
  induction keys as [| key keys IH]; intros c k Hk Hin; [destruct Hin |].
  rewrite purgeKeys_cons. cbn [map In] in Hin.
  destruct (String.eqb_spec (strings.TrimSpace key) k) as [Heq | Hne].
  - rewrite Heq. apply String.eqb_neq in Hk. rewrite Hk.
    apply purgeKeys_None. apply cached_Delete_same.
  - destruct Hin as [? | Hin]; [contradiction |]. apply IH; assumption.
Qed.

Lemma purgeKeys_unlisted keys : forall c (k : string),
  k = "" \/ ~ In k (map strings.TrimSpace keys) ->
  cached (server.purgeKeys c keys) k = cached c k.
Proof.
  induction keys as [| key keys IH]; intros c k Hk; [reflexivity |].
  rewrite purgeKeys_cons. cbn [map In] in Hk.
  rewrite IH by (destruct Hk as [? | Hk]; [left; assumption | right; tauto]).
  destruct (String.eqb_spec (strings.TrimSpace key) "") as [He | Hne]; [reflexivity |].
  apply cached_Delete_ne. unfold server.cacheKey.
  destruct Hk as [-> | Hk]; [congruence | intros ->; tauto].
Qed.

Lemma purgeKeys_settings keys : forall c,
  cache.ttl (server.purgeKeys c keys) = cache.ttl c
  /\ cache.stale (server.purgeKeys c keys) = cache.stale c
  /\ cache.cap (server.purgeKeys c keys) = cache.cap c
  /\ lru.size (cache.lru (server.purgeKeys c keys)) = lru.size (cache.lru c).
Proof.
  induction keys as [| key keys IH]; intros c; [auto |].
  rewrite purgeKeys_cons.
  destruct (IH (if String.eqb (strings.TrimSpace key) "" then c
                else cache.Delete c (server.cacheKey (strings.TrimSpace key))))
    as (-> & -> & -> & ->).
  destruct (String.eqb (strings.TrimSpace key) ""); auto.
Qed.

(** The cache consultation for a key that is not cached. *)
Lemma consult_missing s r now :
  objectKey r <> "" -> ~ occursIn ".." (objectKey r) ->
  http.Method r = "GET" \/ http.Method r = "HEAD" ->
  cached (server.cache s) (objectKey r) = None ->
  server.consult s r now = server.Proceed s (server.shouldUseCache r) (objectKey r) None.
Proof.
  intros Hkey Hdd Hmethod Hcached.
  unfold server.consult, http.MethodGet, http.MethodHead. fold (objectKey r).
  apply String.eqb_neq in Hkey. apply Contains_false in Hdd. rewrite Hkey, Hdd.
  assert (Hm : negb (String.eqb (http.Method r) "GET")
               && negb (String.eqb (http.Method r) "HEAD") = false).
  { destruct Hmethod as [-> | ->]; reflexivity. }
  rewrite Hm.
  unfold server.probe, server.cacheKey.
  destruct (server.shouldUseCache r || String.eqb (http.Method r) "HEAD"); [| reflexivity].
  unfold cache.Get, lru.Get. unfold cached, lru.Peek in Hcached. rewrite Hcached.
  destruct s as [cf o [l t st cp] h tok]. destruct l. reflexivity.
Qed.

End purging.

(** X24: a purge that decodes answers 204 and unbinds every listed key,
    compared after trimming white space, the empty one apart; every
    other key stays bound as it was, and the records and the settings of
    the cache are not touched. *)
Theorem purge_unbinds_exactly_the_listed_keys (s : server.Server) (keys : list string) :
  http.status (server.writer (server.purgeHandler s (Some keys))) = 204
  /\ (forall k, k <> "" -> In k (map strings.TrimSpace keys) ->
        cached (server.cache (server.after (server.purgeHandler s (Some keys)))) k = None)
  /\ (forall k, ~ In k (map strings.TrimSpace keys) ->
        cached (server.cache (server.after (server.purgeHandler s (Some keys)))) k
        = cached (server.cache s) k)
  /\ server.heap (server.after (server.purgeHandler s (Some keys))) = server.heap s
  /\ cache.Stats (server.cache (server.after (server.purgeHandler s (Some keys))))
     = (Z.of_nat (length (lru.Keys (cache.lru
          (server.cache (server.after (server.purgeHandler s (Some keys))))))),
        cache.cap (server.cache s)).
Proof.
  unfold server.purgeHandler, server.withCache.
  cbn [server.writer server.after server.cache server.heap].
  split; [reflexivity |].
  split; [intros k Hk Hin; apply purgeKeys_listed; assumption |].
  split; [intros k Hin; apply purgeKeys_unlisted; right; exact Hin |].
  split; [reflexivity |].
  destruct (purgeKeys_settings keys (server.cache s)) as (_ & _ & Hcap & _).
  unfold cache.Stats, lru.Len, lru.Keys. rewrite Hcap, length_map. reflexivity.
Qed.

(** X25: a purge request whose body does not decode is answered 400 and
    changes nothing; after one that lists a key, the next GET or HEAD
    for that key finds nothing in the cache and goes to the origin
    without any validator of a cached entry. *)
Theorem purged_key_goes_to_origin
    (parse : string -> option time.Time) (fmt : time.Time -> string)
    (s : server.Server) (keys : list string) (r : http.Request) (now : time.Time) :
  objectKey r <> "" -> ~ occursIn ".." (objectKey r) ->
  http.Method r = "GET" \/ http.Method r = "HEAD" ->
  In (objectKey r) (map strings.TrimSpace keys) ->
  (http.status (server.writer (server.purgeHandler s None)) = 400
   /\ server.after (server.purgeHandler s None) = s)
  /\ server.consult (server.after (server.purgeHandler s (Some keys))) r now
     = server.Proceed (server.after (server.purgeHandler s (Some keys)))
                      (server.shouldUseCache r) (objectKey r) None
  /\ server.objectHandler parse fmt (server.after (server.purgeHandler s (Some keys))) r now
     = server.fetchAndServe parse fmt (server.after (server.purgeHandler s (Some keys)))
         http.newResponseWriter r now (objectKey r) (objectKey r)
         (server.shouldUseCache r) (http.Method r) None.
Proof.
  intros Hkey Hdd Hmethod Hin.
  assert (Hconsult :
    server.consult (server.after (server.purgeHandler s (Some keys))) r now
    = server.Proceed (server.after (server.purgeHandler s (Some keys)))
                     (server.shouldUseCache r) (objectKey r) None).
  { apply consult_missing; try assumption.
    unfold server.purgeHandler, server.withCache. cbn [server.after server.cache].
    apply purgeKeys_listed; assumption. }
  split; [split; reflexivity |]. split; [exact Hconsult |].
  unfold server.objectHandler. rewrite Hconsult. reflexivity.
Qed.

(** The statement above for [x.txt], purged from [srv_stale] with white
    space around its name. *)
Lemma purged_key_goes_to_origin_witness :
  (objectKey req_x <> "" /\ ~ occursIn ".." (objectKey req_x)
   /\ (http.Method req_x = "GET" \/ http.Method req_x = "HEAD")
   /\ In (objectKey req_x) (map strings.TrimSpace [""; " x.txt "]))
  /\ server.consult (server.after (server.purgeHandler srv_stale (Some [""; " x.txt "])))
       req_x 12
     = server.Proceed (server.after (server.purgeHandler srv_stale (Some [""; " x.txt "])))
         (server.shouldUseCache req_x) (objectKey req_x) None.
Proof.
  assert (Hdd : ~ occursIn ".." (objectKey req_x)) by (apply Contains_false; reflexivity).
  assert (Hin : In (objectKey req_x) (map strings.TrimSpace [""; " x.txt "]))
    by (right; left; reflexivity).
  split.
  - repeat split; try discriminate; try assumption. left. reflexivity.
  - apply (purged_key_goes_to_origin noParse noFormat srv_stale [""; " x.txt "] req_x 12);
      try discriminate; try assumption. left. reflexivity.
Defined.

(** ** The origin adapter *)

Section adapter_headers.

Implicit Types (h : http.Header) (resp : s3.GetObjectOutput).

Lemma Get_empty (k : string) : http.Get ∅ k = "".
Proof. unfold http.Get. rewrite lookup_empty. reflexivity. Qed.

Lemma Get_Set_eq h (k v : string) : http.Get (http.Set_ h k v) k = v.
Proof. unfold http.Get, http.Set_. rewrite lookup_insert_eq. reflexivity. Qed.

Lemma Get_Set_ne h (k k' v : string) :
  k <> k' -> http.Get (http.Set_ h k v) k' = http.Get h k'.
Proof.
  intros Hne. unfold http.Get, http.Set_. rewrite lookup_insert_ne by exact Hne. reflexivity.
Qed.

Lemma Get_setHeader_ne h (k k' v : string) :
  k <> k' -> http.Get (origin.setHeader h k v) k' = http.Get h k'.
Proof.
  intros Hne. unfold origin.setHeader.
  destruct (String.eqb v ""); [reflexivity | apply Get_Set_ne; exact Hne].
Qed.

Lemma Get_setHeader_eq h (k v : string) :
  http.Get h k = "" -> http.Get (origin.setHeader h k v) k = v.
Proof.
  intros Hunset. unfold origin.setHeader.
  destruct (String.eqb_spec v "") as [-> | _]; [exact Hunset | apply Get_Set_eq].
Qed.

(** The name under which a piece of user metadata is stored starts with
    the letter x, in either case. *)
Lemma CanonicalHeaderKey_meta (k : string) :
  exists t, http.CanonicalHeaderKey ("x-amz-meta-" ++ k) = String "X" t
            \/ http.CanonicalHeaderKey ("x-amz-meta-" ++ k) = String "x" t.
Proof.
  unfold http.CanonicalHeaderKey.
  change ("x-amz-meta-" ++ k) with (String "x" ("-amz-meta-" ++ k)).
  destruct (http.allValid _).
  - eexists. left. reflexivity.
  - eexists. right. reflexivity.
Qed.

Lemma Get_metadata (md : list (string * string)) (name : string) :
  (forall t, name <> String "X" t) -> (forall t, name <> String "x" t) ->
  forall h,
    http.Get (fold_left (fun h kv =>
                http.Set_ h (http.CanonicalHeaderKey ("x-amz-meta-" ++ fst kv)) (snd kv))
              md h) name
    = http.Get h name.
Proof.
  intros HX Hx. induction md as [| kv md IH]; intros h; [reflexivity |].
  cbn [fold_left]. rewrite IH. apply Get_Set_ne.
  destruct (CanonicalHeaderKey_meta (fst kv)) as [t [-> | ->]]; intros E; symmetry in E.
  - exact (HX t E).
  - exact (Hx t E).
Qed.

End adapter_headers.

Ltac standard_header :=
  unfold origin.toObject; cbn [origin.Headers];
  repeat match goal with
         | |- context [match ?x with Some _ => _ | None => _ end] => destruct x
         | |- context [if negb ?b then _ else _] => destruct b; cbn [negb]
         end;
  repeat first [ rewrite Get_Set_ne by discriminate
               | rewrite Get_metadata by discriminate
               | rewrite Get_setHeader_ne by discriminate ].

(** X26: the standard headers of a delivered object come from the
    fields of the S3 answer and from nowhere else: user metadata, stored
    under names that start with [x-amz-meta-], never replaces
    [Cache-Control], [Etag], [Last-Modified], [Content-Type] or
    [Content-Range], and [Content-Length] is the declared length or
    absent. *)
Theorem metadata_never_overrides_standard_headers
    (fmt : time.Time -> string) (resp : s3.GetObjectOutput) (status : Z) :
  http.Get (origin.Headers (origin.toObject fmt resp status)) "Cache-Control"
  = aws.ToString (s3.CacheControl resp)
  /\ http.Get (origin.Headers (origin.toObject fmt resp status)) "Etag"
     = aws.ToString (s3.ETag resp)
  /\ http.Get (origin.Headers (origin.toObject fmt resp status)) "Last-Modified"
     = origin.formatTime fmt (s3.LastModified resp)
  /\ http.Get (origin.Headers (origin.toObject fmt resp status)) "Content-Type"
     = aws.ToString (s3.ContentType resp)
  /\ http.Get (origin.Headers (origin.toObject fmt resp status)) "Content-Range"
     = aws.ToString (s3.ContentRange resp)
  /\ http.Get (origin.Headers (origin.toObject fmt resp status)) "Content-Length"
     = match s3.ContentLength resp with
       | Some n => strconv.Itoa n
       | None => ""
       end.
Proof.
  repeat split; standard_header;
    try (rewrite Get_Set_eq; reflexivity);
    try (rewrite Get_setHeader_eq; [reflexivity |]);
    repeat rewrite Get_setHeader_ne by discriminate;
    apply Get_empty.
Qed.

(** ** HEAD requests *)

(** X27: a HEAD that the origin answers is served with status 200,
    [X-Cache: MISS], the declared length in [Content-Length] when it is
    positive, and no body; nothing is admitted to the cache and no
    revalidation starts. *)
Theorem HEAD_from_origin_is_never_stored
    (parse : string -> option time.Time) (fmt : time.Time -> string)
    (s : server.Server) (r : http.Request) (now : time.Time)
    (s1 : server.Server) (useCache : bool) (key : string)
    (entry : option cache.loc) (obj : origin.Object) :
  server.consult s r now = server.Proceed s1 useCache key entry ->
  http.Method r = "HEAD" ->
  server.fetchFromOrigin fmt s1 key
    (server.outgoingConditional parse s1 r entry (http.Method r)) (http.Method r)
  = inl obj ->
  http.status (server.writer (server.objectHandler parse fmt s r now)) = 200
  /\ http.body (server.writer (server.objectHandler parse fmt s r now)) = []
  /\ http.Get (http.header (server.writer (server.objectHandler parse fmt s r now)))
       "X-Cache" = "MISS"
  /\ (0 < origin.ContentLength obj ->
      http.Get (http.header (server.writer (server.objectHandler parse fmt s r now)))
        "Content-Length" = strconv.Itoa (origin.ContentLength obj))
  /\ server.after (server.objectHandler parse fmt s r now) = s1
  /\ server.spawned (server.objectHandler parse fmt s r now) = None.
Proof.
  intros Hconsult Hhead Hfetch.
  assert (Hstatus : origin.StatusCode obj = 200).
  { revert Hfetch. rewrite Hhead. unfold server.fetchFromOrigin, http.MethodHead.
    change (String.eqb "HEAD" "HEAD") with true. cbv iota.
    unfold origin.HeadObject. destruct (origin.s3HeadObject _ _); [| discriminate].
    intros [= <-]. reflexivity. }
  unfold server.objectHandler, server.fetchAndServe. rewrite Hconsult, Hfetch.
  unfold server.serveObject.
  assert (Hstore : server.shouldStore s1 useCache (http.Method r)
                     (server.outgoingConditional parse s1 r entry (http.Method r)) obj
                   = false).
  { unfold server.shouldStore, http.MethodGet. rewrite Hhead.
    change (String.eqb "HEAD" "GET") with false. rewrite andb_false_r. reflexivity. }
  rewrite Hstore.
  unfold server.passThrough, http.MethodHead. rewrite Hhead.
  change (String.eqb "HEAD" "HEAD") with true. cbv iota.
  unfold http.WriteHeader, http.withHeader, http.newResponseWriter.
  cbn [server.writer server.after server.spawned http.status http.body http.header].
  change (0 =? 0) with true. cbv iota. cbn [http.status http.body http.header].
  rewrite Hstatus.
  split; [reflexivity |]. split; [reflexivity |].
  split; [| split; [| split; reflexivity]].
  - destruct (_ >? 0).
    + rewrite Get_Set_ne by discriminate. apply Get_Set_eq.
    + apply Get_Set_eq.
  - intros Hpos. destruct (Z.gtb_spec (origin.ContentLength obj) 0); [| lia].
    apply Get_Set_eq.
Qed.

(** The statement above for a HEAD of an object that is not cached. *)
Lemma HEAD_from_origin_is_never_stored_witness :
  (server.consult srv_head req_head_a 12 = server.Proceed srv_head false "a.txt" None
   /\ http.Method req_head_a = "HEAD"
   /\ server.fetchFromOrigin noFormat srv_head "a.txt"
        (server.outgoingConditional noParse srv_head req_head_a None (http.Method req_head_a))
        (http.Method req_head_a)
      = inl (origin.toHeadObject noFormat out_head))
  /\ http.status (server.writer (server.objectHandler noParse noFormat srv_head req_head_a 12))
     = 200
  /\ http.body (server.writer (server.objectHandler noParse noFormat srv_head req_head_a 12))
     = [].
Proof.
  split; [repeat split; reflexivity |].
  destruct (HEAD_from_origin_is_never_stored noParse noFormat srv_head req_head_a 12 srv_head
              false "a.txt" None (origin.toHeadObject noFormat out_head)
              eq_refl eq_refl eq_refl) as (Hstatus & Hbody & _).
  exact (conj Hstatus Hbody).
Defined.

(** ** The lifetime of an admitted entry *)

Section lifetime.

Lemma occursIn_trimmed_lowered (sub part s : string) :
  occursIn part s ->
  occursIn sub (strings.TrimSpace (strings.ToLower part)) ->
  occursIn sub (strings.ToLower s).
Proof.
  intros (pre & post & ->) (a & b & Hsub).
  unfold strings.TrimSpace in Hsub.
  destruct (TrimLeftSpace_suffix (strings.ToLower part)) as [l Hl].
  destruct (TrimRightSpace_prefix (strings.TrimLeftSpace (strings.ToLower part)))
    as [r Hr].
  rewrite Hsub in Hr. rewrite Hr in Hl.
  rewrite !ToLower_app, Hl.
  exists (strings.ToLower pre ++ l ++ a), (b ++ r ++ strings.ToLower post).
  rewrite !append_assoc. reflexivity.
Qed.

Lemma ttlFromParts_fallback (parts : list string) (fallback : time.Duration) :
  (forall part, In part parts ->
     strings.CutPrefix (strings.TrimSpace (strings.ToLower part)) "max-age=" = None) ->
  server.ttlFromParts parts fallback = fallback.
Proof.
  induction parts as [| part parts IH]; intros Hno; [reflexivity |].
  cbn [server.ttlFromParts]. rewrite (Hno part (or_introl eq_refl)).
  apply IH. intros p Hp. apply Hno. right. exact Hp.
Qed.

Lemma ttlFromHeaders_fallback (h : http.Header) (fallback : time.Duration) :
  ~ occursIn "max-age=" (strings.ToLower (http.Get h "Cache-Control")) ->
  server.ttlFromHeaders h fallback = fallback.
Proof.
  intros Hno. unfold server.ttlFromHeaders.
  destruct (negb (String.eqb (http.Get h "Cache-Control") "")); [| reflexivity].
  apply ttlFromParts_fallback. intros part Hin.
  destruct (strings.CutPrefix _ "max-age=") as [v |] eqn:E; [| reflexivity].
  exfalso. apply Hno. apply CutPrefix_Some in E.
  apply (occursIn_trimmed_lowered "max-age=" part).
  - exact (Split_occursIn _ _ _ Hin).
  - exists "", v. exact E.
Qed.

End lifetime.

(** X28: only a [max-age=] directive shortens or lengthens the life of
    an entry: when the origin's [Cache-Control], in lower case, has no
    [max-age=] anywhere ([s-maxage], [no-cache], [private] and the like
    count for nothing), [ttlFromHeaders] gives its fallback and the
    admitted entry gets the configured [CacheTTL]. *)
Theorem lifetime_without_max_age_is_the_configured_one
    (s : server.Server) (obj : origin.Object) (body : list byte) (now : time.Time)
    (fallback : time.Duration) :
  ~ occursIn "max-age=" (strings.ToLower (http.Get (origin.Headers obj) "Cache-Control")) ->
  server.ttlFromHeaders (origin.Headers obj) fallback = fallback
  /\ cache.TTL (server.newEntry s obj body now) = config.CacheTTL (server.cfg s).
Proof.
  intros Hno. split; [apply ttlFromHeaders_fallback; exact Hno |].
  unfold server.newEntry. cbn [cache.TTL].
  rewrite (ttlFromHeaders_fallback _ _ Hno).
  destruct (_ <=? 0); reflexivity.
Qed.

(** The statement above for an object sent with
    [Cache-Control: public, S-MaxAge=60]. *)
Lemma lifetime_without_max_age_is_the_configured_one_witness :
  ~ occursIn "max-age="
      (strings.ToLower (http.Get (origin.Headers obj_public) "Cache-Control"))
  /\ server.ttlFromHeaders (origin.Headers obj_public) 7 = 7
  /\ cache.TTL (server.newEntry srv_hello obj_public (list_byte_of_string "hello") 0)
     = 300 * time.Second.
Proof.
  assert (Hno : ~ occursIn "max-age="
                  (strings.ToLower (http.Get (origin.Headers obj_public) "Cache-Control")))
    by (apply Contains_false; reflexivity).
  split; [exact Hno |].
  apply (lifetime_without_max_age_is_the_configured_one srv_hello obj_public
           (list_byte_of_string "hello") 0 7 Hno).
Defined.

(** ** Loading the configuration *)

Section loading.

Variable float64 : Type.
Variable float_zero : float64.
Variable float_negative : float64 -> bool.
Variable ParseFloat : string -> option float64.
Variable ParseDuration : string -> option time.Duration.
Variable env : string -> string.

Lemma getString_nonempty (key def : string) :
  def <> "" -> config.full.getString env key def <> "".
Proof.
  intros Hdef. unfold config.full.getString.
  destruct (String.eqb_spec (env key) ""); cbn [negb]; assumption.
Qed.

Lemma getInt_unusable (key : string) (def : Z) :
  unusable strconv.Atoi (env key) -> config.full.getInt env key def = def.
Proof.
  unfold config.full.getInt. intros [-> | ->]; [reflexivity |].
  destruct (negb _); reflexivity.
Qed.

Lemma getInt64_unusable (key : string) (def : Z) :
  unusable strconv.Atoi (env key) -> config.full.getInt64 env key def = def.
Proof.
  unfold config.full.getInt64. intros [-> | ->]; [reflexivity |].
  destruct (negb _); reflexivity.
Qed.

Lemma getDuration_unusable (key : string) (def : time.Duration) :
  unusable ParseDuration (env key) ->
  config.full.getDuration ParseDuration env key def = def.
Proof.
  unfold config.full.getDuration. intros [-> | ->]; [reflexivity |].
  destruct (negb _); reflexivity.
Qed.

Lemma getFloat_unusable (key : string) (def : float64) :
  unusable ParseFloat (env key) ->
  config.full.getFloat float64 ParseFloat env key def = def.
Proof.
  unfold config.full.getFloat. intros [-> | ->]; [reflexivity |].
  destruct (negb _); reflexivity.
Qed.

End loading.

(** X29: a configuration that [Load] accepts is usable: the token, the
    endpoint, both credentials and the bucket are not empty, neither are
    the listen address and the region, the capacity, the TTL and the
    object size limit are positive, the stale window and the rate limit
    are not negative, and [cache.New] succeeds on its cache settings. *)
Theorem Load_accepts_only_usable_configurations
    (float64 : Type) (float_zero : float64) (float_negative : float64 -> bool)
    (ParseFloat : string -> option float64)
    (ParseDuration : string -> option time.Duration)
    (env : string -> string) (cfg : config.full.Config float64) :
  config.full.Load float64 float_zero float_negative ParseFloat ParseDuration env = inl cfg ->
  (config.full.AuthToken _ cfg <> "" /\ config.full.Endpoint _ cfg <> ""
   /\ config.full.AccessKey _ cfg <> "" /\ config.full.SecretKey _ cfg <> ""
   /\ config.full.Bucket _ cfg <> "")
  /\ (config.full.Addr _ cfg <> "" /\ config.full.Region _ cfg <> "")
  /\ (0 < config.full.CacheCapacity _ cfg /\ 0 < config.full.CacheTTL _ cfg
      /\ 0 <= config.full.CacheStaleTTL _ cfg /\ 0 < config.full.MaxObjectSize _ cfg
      /\ float_negative (config.full.RateLimitRPS _ cfg) = false)
  /\ exists c : cache.Cache,
       cache.New (config.full.CacheCapacity _ cfg) (config.full.CacheTTL _ cfg)
                 (config.full.CacheStaleTTL _ cfg) = Some c
       /\ cache.Stats c = (0, config.full.CacheCapacity _ cfg).
Proof.
  unfold config.full.Load.
  cbn [config.full.AuthToken config.full.Endpoint config.full.AccessKey
       config.full.SecretKey config.full.Bucket config.full.CacheCapacity
       config.full.CacheTTL config.full.CacheStaleTTL config.full.MaxObjectSize
       config.full.RateLimitRPS].
  destruct (String.eqb_spec (env "AUTH_TOKEN") "") as [| Htok]; [discriminate |].
  destruct (String.eqb_spec (env "S3_ENDPOINT") "") as [| Hend]; [discriminate |].
  destruct (String.eqb_spec (env "S3_ACCESS_KEY") "") as [| Hak]; [discriminate |].
  destruct (String.eqb_spec (env "S3_SECRET_KEY") "") as [| Hsk]; [discriminate |].
  cbn [orb].
  destruct (String.eqb_spec (env "S3_BUCKET") "") as [| Hb]; [discriminate |].
  destruct (Z.leb_spec (config.full.getInt env "CACHE_CAPACITY"
                          config.full.defaultCacheCapacity) 0) as [| Hcap];
    [discriminate |].
  destruct (Z.leb_spec (config.full.getDuration ParseDuration env "CACHE_TTL"
                          config.full.defaultCacheTTL) 0) as [| Httl];
    [discriminate |].
  destruct (Z.ltb_spec (config.full.getDuration ParseDuration env "CACHE_STALE_TTL"
                          config.full.defaultCacheStaleTTL) 0) as [| Hstale];
    [discriminate |].
  destruct (Z.leb_spec (config.full.getInt64 env "MAX_OBJECT_SIZE"
                          config.full.defaultMaxObjectSize) 0) as [| Hmax];
    [discriminate |].
  destruct (float_negative _) eqn:Hrps; [discriminate |].
  intros [= <-].
  cbn [config.full.AuthToken config.full.Endpoint config.full.AccessKey
       config.full.SecretKey config.full.Bucket config.full.CacheCapacity
       config.full.CacheTTL config.full.CacheStaleTTL config.full.MaxObjectSize
       config.full.RateLimitRPS config.full.Addr config.full.Region].
  split; [auto |].
  split; [split; apply getString_nonempty; discriminate |].
  split; [auto |].
  unfold cache.New, lru.New.
  destruct (Z.leb_spec (config.full.getInt env "CACHE_CAPACITY"
                          config.full.defaultCacheCapacity) 0); [lia |].
  eexists. split; reflexivity.
Qed.

(** The statement above for an environment that sets the five required
    variables. *)
Lemma Load_accepts_only_usable_configurations_witness :
  exists cfg : config.full.Config Z,
    config.full.Load Z 0 (fun x => x <? 0) noFloat noDuration env_required = inl cfg
    /\ config.full.Bucket _ cfg <> ""
    /\ 0 < config.full.CacheCapacity _ cfg.
Proof.
  eexists. split; [reflexivity |].
  destruct (Load_accepts_only_usable_configurations Z 0 (fun x => x <? 0) noFloat noDuration
              env_required _ eq_refl) as ((_ & _ & _ & _ & Hb) & _ & (Hcap & _) & _).
  exact (conj Hb Hcap).
Defined.

(** The chain of checks of [Load], one case per outcome. *)
Ltac load_cases :=
  repeat match goal with
         | |- context [if ?b then inr _ else _] => destruct b
         end;
  (split; [discriminate | intros ? [= <-]; reflexivity]).

(** X30: [Load] never reports a value that does not parse. Each of
    CACHE_CAPACITY, CACHE_TTL, CACHE_STALE_TTL, MAX_OBJECT_SIZE and
    RATE_LIMIT_RPS that is unset or unparsable, whatever the other
    variables hold, is not the cause of a failure of [Load] and has its
    default in every configuration that [Load] accepts (2048 entries, 5
    minutes, 2 minutes, 16 MiB, no rate limit); and when all five are so
    and the five required variables are set, [Load] accepts. *)
Theorem Load_replaces_unparsable_values_by_defaults
    (float64 : Type) (float_zero : float64) (float_negative : float64 -> bool)
    (ParseFloat : string -> option float64)
    (ParseDuration : string -> option time.Duration)
    (env : string -> string) :
  float_negative float_zero = false ->
  (unusable strconv.Atoi (env "CACHE_CAPACITY") ->
   config.full.Load float64 float_zero float_negative ParseFloat ParseDuration env
   <> inr config.full.BadCacheCapacity
   /\ forall cfg,
        config.full.Load float64 float_zero float_negative ParseFloat ParseDuration env
        = inl cfg ->
        config.full.CacheCapacity _ cfg = 2048)
  /\ (unusable ParseDuration (env "CACHE_TTL") ->
      config.full.Load float64 float_zero float_negative ParseFloat ParseDuration env
      <> inr config.full.BadCacheTTL
      /\ forall cfg,
           config.full.Load float64 float_zero float_negative ParseFloat ParseDuration env
           = inl cfg ->
           config.full.CacheTTL _ cfg = 300 * time.Second)
  /\ (unusable ParseDuration (env "CACHE_STALE_TTL") ->
      config.full.Load float64 float_zero float_negative ParseFloat ParseDuration env
      <> inr config.full.BadCacheStaleTTL
      /\ forall cfg,
           config.full.Load float64 float_zero float_negative ParseFloat ParseDuration env
           = inl cfg ->
           config.full.CacheStaleTTL _ cfg = 120 * time.Second)
  /\ (unusable strconv.Atoi (env "MAX_OBJECT_SIZE") ->
      config.full.Load float64 float_zero float_negative ParseFloat ParseDuration env
      <> inr config.full.BadMaxObjectSize
      /\ forall cfg,
           config.full.Load float64 float_zero float_negative ParseFloat ParseDuration env
           = inl cfg ->
           config.full.MaxObjectSize _ cfg = 16777216)
  /\ (unusable ParseFloat (env "RATE_LIMIT_RPS") ->
      config.full.Load float64 float_zero float_negative ParseFloat ParseDuration env
      <> inr config.full.BadRateLimitRPS
      /\ forall cfg,
           config.full.Load float64 float_zero float_negative ParseFloat ParseDuration env
           = inl cfg ->
           config.full.RateLimitRPS _ cfg = float_zero)
  /\ (env "AUTH_TOKEN" <> "" -> env "S3_ENDPOINT" <> "" -> env "S3_ACCESS_KEY" <> "" ->
      env "S3_SECRET_KEY" <> "" -> env "S3_BUCKET" <> "" ->
      unusable strconv.Atoi (env "CACHE_CAPACITY") ->
      unusable ParseDuration (env "CACHE_TTL") ->
      unusable ParseDuration (env "CACHE_STALE_TTL") ->
      unusable strconv.Atoi (env "MAX_OBJECT_SIZE") ->
      unusable ParseFloat (env "RATE_LIMIT_RPS") ->
      exists cfg,
        config.full.Load float64 float_zero float_negative ParseFloat ParseDuration env
        = inl cfg).
Proof.
  intros Hzero.
  split; [| split; [| split; [| split; [| split]]]].
  - intros Hbad. unfold config.full.Load.
    cbn [config.full.AuthToken config.full.Endpoint config.full.AccessKey
         config.full.SecretKey config.full.Bucket config.full.CacheCapacity
         config.full.CacheTTL config.full.CacheStaleTTL config.full.MaxObjectSize
         config.full.RateLimitRPS].
    rewrite !(getInt_unusable env _ _ Hbad).
    change (config.full.defaultCacheCapacity <=? 0) with false. cbv iota.
    load_cases.
  - intros Hbad. unfold config.full.Load.
    cbn [config.full.AuthToken config.full.Endpoint config.full.AccessKey
         config.full.SecretKey config.full.Bucket config.full.CacheCapacity
         config.full.CacheTTL config.full.CacheStaleTTL config.full.MaxObjectSize
         config.full.RateLimitRPS].
    rewrite !(getDuration_unusable ParseDuration env _ _ Hbad).
    change (config.full.defaultCacheTTL <=? 0) with false. cbv iota.
    load_cases.
  - intros Hbad. unfold config.full.Load.
    cbn [config.full.AuthToken config.full.Endpoint config.full.AccessKey
         config.full.SecretKey config.full.Bucket config.full.CacheCapacity
         config.full.CacheTTL config.full.CacheStaleTTL config.full.MaxObjectSize
         config.full.RateLimitRPS].
    rewrite !(getDuration_unusable ParseDuration env _ _ Hbad).
    change (config.full.defaultCacheStaleTTL <? 0) with false. cbv iota.
    load_cases.
  - intros Hbad. unfold config.full.Load.
    cbn [config.full.AuthToken config.full.Endpoint config.full.AccessKey
         config.full.SecretKey config.full.Bucket config.full.CacheCapacity
         config.full.CacheTTL config.full.CacheStaleTTL config.full.MaxObjectSize
         config.full.RateLimitRPS].
    rewrite !(getInt64_unusable env _ _ Hbad).
    change (config.full.defaultMaxObjectSize <=? 0) with false. cbv iota.
    load_cases.
  - intros Hbad. unfold config.full.Load.
    cbn [config.full.AuthToken config.full.Endpoint config.full.AccessKey
         config.full.SecretKey config.full.Bucket config.full.CacheCapacity
         config.full.CacheTTL config.full.CacheStaleTTL config.full.MaxObjectSize
         config.full.RateLimitRPS].
    rewrite !(getFloat_unusable _ ParseFloat env _ _ Hbad).
    unfold config.full.defaultRateLimitRPS. rewrite Hzero.
    load_cases.
  - intros Htok Hend Hak Hsk Hb Hcap Httl Hstale Hmax Hrps.
    unfold config.full.Load.
    cbn [config.full.AuthToken config.full.Endpoint config.full.AccessKey
         config.full.SecretKey config.full.Bucket config.full.CacheCapacity
         config.full.CacheTTL config.full.CacheStaleTTL config.full.MaxObjectSize
         config.full.RateLimitRPS].
    apply String.eqb_neq in Htok, Hend, Hak, Hsk, Hb.
    rewrite Htok, Hend, Hak, Hsk, Hb. cbn [orb].
    rewrite (getInt_unusable env _ _ Hcap), (getInt64_unusable env _ _ Hmax),
      !(getDuration_unusable ParseDuration env _ _ Httl),
      !(getDuration_unusable ParseDuration env _ _ Hstale),
      (getFloat_unusable _ ParseFloat env _ _ Hrps).
    unfold config.full.defaultRateLimitRPS. rewrite Hzero.
    change (config.full.defaultCacheCapacity <=? 0) with false.
    change (config.full.defaultCacheTTL <=? 0) with false.
    change (config.full.defaultCacheStaleTTL <? 0) with false.
    change (config.full.defaultMaxObjectSize <=? 0) with false.
    cbv iota. eexists. reflexivity.
Qed.

(** The statement above for an environment in which the capacity does
    not parse while the TTL and the size limit do: the configuration is
    accepted with 2048 entries, 90 seconds and 1024 bytes. *)
Lemma Load_replaces_unparsable_values_by_defaults_witness :
  ((fun x => x <? 0) 0 = false
   /\ unusable strconv.Atoi (env_mixed "CACHE_CAPACITY")
   /\ exists cfg : config.full.Config Z,
        config.full.Load Z 0 (fun x => x <? 0) noFloat parse90s env_mixed = inl cfg
        /\ config.full.CacheTTL _ cfg = 90 * time.Second
        /\ config.full.MaxObjectSize _ cfg = 1024)
  /\ config.full.Load Z 0 (fun x => x <? 0) noFloat parse90s env_mixed
     <> inr config.full.BadCacheCapacity
  /\ forall cfg,
       config.full.Load Z 0 (fun x => x <? 0) noFloat parse90s env_mixed = inl cfg ->
       config.full.CacheCapacity _ cfg = 2048.
Proof.
  assert (Hbad : unusable strconv.Atoi (env_mixed "CACHE_CAPACITY")) by (right; reflexivity).
  split.
  - split; [reflexivity |]. split; [exact Hbad |].
    eexists. split; [reflexivity |]. split; reflexivity.
  - apply (proj1 (Load_replaces_unparsable_values_by_defaults Z 0 (fun x => x <? 0) noFloat
                    parse90s env_mixed eq_refl)).
    exact Hbad.
Defined.
